(** * NeuroDoc Python client: batch query workflows

    Shallow embedding of [NeuroDocWorkflow.batch_queries] and
    [NeuroDocWorkflow.analyze_performance] from [examples/python_client.py].

    - Python values (the JSON answers of the API, the outcome records and the
      summary) are an inductive type [value]; dicts are [gmap string value].
    - Exceptions are values of type [exn]; a computation that may raise
      returns [exn + A].
    - The outside world (network, wall clock, standard output) is an abstract
      state [W] threaded through every effectful call.
    - A Python float is a binary64 number: [VFloat q] holds the exact value
      [q] of a finite float, and every operation on floats rounds its exact
      result to the nearest float, ties to even ([round_float]).  An int that
      is too large for a float raises [OverflowError] where Python converts
      it.  NaN and the infinities are outside the model: the result of an
      operation on floats is always finite.
    - [sum] adds from left to right and rounds every partial sum, as CPython
      does up to version 3.11 (later versions compensate the rounding errors
      of a sum of floats). *)

From Stdlib Require Import QArith Lqa Qround Qabs Qpower.
From stdpp Require Import base gmap strings list fin_maps.

Local Open Scope string_scope.
Local Open Scope list_scope.

(** ** Python values *)

#[warnings="-register-all"] Inductive value : Type :=
  | VNone
  | VBool (b : bool)
  | VInt (z : Z)
  | VFloat (q : Q)
  | VStr (s : string)
  | VList (l : list value)
  | VDict (d : gmap string value).

(** A dict with string keys, as the records and summaries of the script. *)
Abbreviation pydict := (gmap string value).

(** ** Exceptions

    An [exn] is an instance of [Exception], with its class name and its
    message: what [except Exception as e] catches.  [KeyboardInterrupt] and
    [SystemExit], which that clause lets through, are outside the model. *)

Record exn : Type := Exn { exn_class : string; exn_msg : string }.

(** [str(e)] for an exception built from one message argument. *)
Definition str_exn (e : exn) : string := exn_msg e.

Definition TypeError (msg : string) : exn := Exn "TypeError" msg.
Definition AttributeError (msg : string) : exn := Exn "AttributeError" msg.
Definition KeyError (msg : string) : exn := Exn "KeyError" msg.
Definition ZeroDivisionError (msg : string) : exn := Exn "ZeroDivisionError" msg.
Definition OverflowError (msg : string) : exn := Exn "OverflowError" msg.

(** ** Pure computations that may raise *)

Definition result (A : Type) : Type := (exn + A)%type.

Definition rbind {A B} (r : result A) (k : A → result B) : result B :=
  match r with
  | inl e => inl e
  | inr a => k a
  end.

(** ** Floats

    The finite binary64 numbers are the rationals [m * 2^e] with
    [|m| < 2^53] and [-1074 <= e] (and [e <= 971], which the model does not
    enforce).  [round_float q] is the float nearest to [q], the one with the
    even mantissa when [q] lies halfway between two floats. *)

Definition pow2 (e : Z) : Q := (2 ^ e)%Q.

(** The integer nearest to [x], the even one of the two when [x] lies
    halfway. *)
Definition round_half_even (x : Q) : Z :=
  let f := Qfloor x in
  match Qcompare (x - inject_Z f) (1 # 2) with
  | Lt => f
  | Gt => (f + 1)%Z
  | Eq => if Z.even f then f else (f + 1)%Z
  end.

(** For a positive [q], the [b] with [2^b <= q < 2^(b+1)]. *)
Definition binade (q : Q) : Z :=
  let k := (Z.log2 (Qnum q) - Z.log2 (Z.pos (Qden q)))%Z in
  if Qle_bool (pow2 k) q then k else (k - 1)%Z.

(** The exponent of the last of the 53 bits of the float nearest to a
    positive [q]; it stops at [-1074], where the floats are evenly spaced
    (the subnormal numbers). *)
Definition ulp_exponent (q : Q) : Z := Z.max (binade q - 52) (-1074).

Definition round_positive (q : Q) : Q :=
  let e := ulp_exponent q in
  (inject_Z (round_half_even (q / pow2 e)) * pow2 e)%Q.

Definition round_float (q : Q) : Q :=
  let q := Qred q in
  match Qnum q with
  | Z0 => 0%Q
  | Zpos _ => Qred (round_positive q)
  | Zneg _ => Qred (- round_positive (- q))
  end.

(** [a + b], [a - b] and [a / b] on floats. *)
Definition float_add (a b : Q) : Q := round_float (a + b).
Definition float_sub (a b : Q) : Q := round_float (a - b).
Definition float_div (a b : Q) : Q := round_float (a / b).

(** The least size of an int that no longer converts to a float: halfway
    between the largest float and [2^1024], which rounds up. *)
Definition float_overflow : Z := (Z.shiftl 1 1024 - Z.shiftl 1 970)%Z.

(** [float(n)], as done where an int meets a float. *)
Definition float_of_int (n : Z) : result Q :=
  if (Z.abs n <? float_overflow)%Z then inr (round_float (inject_Z n))
  else inl (OverflowError "int too large to convert to float").

(** [sys.maxsize]: no list is longer. *)
Definition sys_maxsize : Z := (Z.shiftl 1 63 - 1)%Z.

Arguments pow2 : simpl never.
Arguments round_float : simpl never.
Arguments float_add : simpl never.
Arguments float_sub : simpl never.
Arguments float_div : simpl never.
Arguments float_overflow : simpl never.
Arguments float_of_int : simpl never.
Arguments sys_maxsize : simpl never.

(** ** Built-in operations used by the script *)

(** [type(v).__name__] *)
Definition type_name (v : value) : string :=
  match v with
  | VNone => "NoneType"
  | VBool _ => "bool"
  | VInt _ => "int"
  | VFloat _ => "float"
  | VStr _ => "str"
  | VList _ => "list"
  | VDict _ => "dict"
  end.

(** Truth value of an object, as tested by [if]. *)
Definition truthy (v : value) : bool :=
  match v with
  | VNone => false
  | VBool b => b
  | VInt z => negb (Z.eqb z 0)
  | VFloat q => negb (Qeq_bool q 0)
  | VStr s => negb (String.eqb s "")
  | VList l => match l with [] => false | _ => true end
  | VDict d => negb (bool_decide (d = ∅))
  end.

(** Numbers: [bool] is a subclass of [int]; [int] and [float] mix. *)
Inductive num : Type :=
  | NInt (z : Z)
  | NFloat (q : Q).

Definition as_num (v : value) : option num :=
  match v with
  | VBool b => Some (NInt (Z.b2z b))
  | VInt z => Some (NInt z)
  | VFloat q => Some (NFloat q)
  | _ => None
  end.

Definition num_Q (n : num) : Q :=
  match n with
  | NInt z => inject_Z z
  | NFloat q => q
  end.

(** The rational denoted by a numeric value. *)
Definition num_of (v : value) : option Q := num_Q <$> as_num v.

(** [result.get(key, default)]: only dicts have [get]; anything else raises
    [AttributeError]. *)
Definition py_get (obj : value) (key : string) (dflt : value) : result value :=
  match obj with
  | VDict d => inr (default dflt (d !! key))
  | _ => inl (AttributeError ("'" +:+ type_name obj +:+ "' object has no attribute 'get'"))
  end.

(** [r[key]] on a dict. *)
Definition py_getitem (d : pydict) (key : string) : result value :=
  match d !! key with
  | Some v => inr v
  | None => inl (KeyError ("'" +:+ key +:+ "'"))
  end.

(** The float that a number is converted to when the other operand is a
    float. *)
Definition to_float (n : num) : result Q :=
  match n with
  | NInt z => float_of_int z
  | NFloat q => inr q
  end.

(** [a + b]: exact on ints; as soon as one operand is a float the other is
    converted to a float, the left one first, and the sum is rounded. *)
Definition py_add (a b : value) : result value :=
  match as_num a, as_num b with
  | Some (NInt x), Some (NInt y) => inr (VInt (x + y))
  | Some x, Some y =>
      rbind (to_float x) (λ p,
      rbind (to_float y) (λ q,
      inr (VFloat (float_add p q))))
  | _, _ =>
      match a, b with
      | VStr s, VStr t => inr (VStr (s +:+ t))
      | VList l, VList k => inr (VList (l ++ k))
      | _, _ =>
          inl (TypeError ("unsupported operand type(s) for +: '" +:+ type_name a
                            +:+ "' and '" +:+ type_name b +:+ "'"))
      end
  end.

(** [sum(f(r) for r in l)]: starts from the int [0]; each item is produced
    by the generator and added to the accumulator before the next one is
    produced. *)
Fixpoint py_sum_from {A} (acc : value) (f : A → result value) (l : list A) : result value :=
  match l with
  | [] => inr acc
  | r :: l' =>
      rbind (f r) (λ x,
      rbind (py_add acc x) (λ acc',
      py_sum_from acc' f l'))
  end.

Definition py_sum {A} (f : A → result value) (l : list A) : result value :=
  py_sum_from (VInt 0) f l.

(** [[r for r in l if cond(r)]] *)
Fixpoint py_filter {A} (cond : A → result value) (l : list A) : result (list A) :=
  match l with
  | [] => inr []
  | r :: l' =>
      rbind (cond r) (λ c,
      rbind (py_filter cond l') (λ rest,
      inr (if truthy c then r :: rest else rest)))
  end.

(** [a / b]: true division, always a float; a zero divisor raises.  The
    quotient of two ints is the float nearest to the exact quotient, and
    raises when that lies beyond the largest float.  When an operand is a
    float the other is converted first, the left one before the right one,
    then the divisor is tested. *)
Definition py_truediv (a b : value) : result value :=
  match as_num a, as_num b with
  | Some (NInt x), Some (NInt y) =>
      if (y =? 0)%Z then inl (ZeroDivisionError "division by zero")
      else
        let q := round_float (inject_Z x / inject_Z y) in
        if Qle_bool (pow2 1024) (Qabs q)
        then inl (OverflowError "integer division result too large for a float")
        else inr (VFloat q)
  | Some x, Some y =>
      rbind (to_float x) (λ p,
      rbind (to_float y) (λ q,
      if Qeq_bool q 0 then inl (ZeroDivisionError "float division by zero")
      else inr (VFloat (float_div p q))))
  | _, _ =>
      inl (TypeError ("unsupported operand type(s) for /: '" +:+ type_name a
                        +:+ "' and '" +:+ type_name b +:+ "'"))
  end.

(** [len(l)] *)
Definition py_len {A} (l : list A) : value := VInt (Z.of_nat (length l)).

(** [enumerate(l, start)] *)
Fixpoint enumerate {A} (start : nat) (l : list A) : list (nat * A) :=
  match l with
  | [] => []
  | x :: l' => (start, x) :: enumerate (S start) l'
  end.

(** ** The workflow methods *)

Section Workflow.

(** The world: everything outside the interpreter that the calls below
    read or change. *)
Context {W : Type}.

(** [time.time()]: reads the wall clock. *)
Variable time_time : W → Q * W.

(** [self.client.query_documents(query)]: returns the decoded JSON answer
    or raises. *)
Variable query_documents : string → W → result value * W.

(** Effectful computations: state passing over [W], with exceptions. *)
Definition M (A : Type) : Type := W → result A * W.

(** The progress line [print(f"... {i}/{len(queries)}: {query[:50]}...")]
    of [batch_queries], given [i], [len(queries)] and [query].  Printing
    can raise: [UnicodeEncodeError] when the output cannot encode the text,
    [OSError] when it is closed. *)
Variable print_progress : nat → nat → string → M unit.

Definition ret {A} (a : A) : M A := λ w, (inr a, w).

Definition bind {A B} (m : M A) (k : A → M B) : M B :=
  λ w, match m w with
       | (inl e, w') => (inl e, w')
       | (inr a, w') => k a w'
       end.

(** [try: m except Exception as e: h e] *)
Definition try_except {A} (m : M A) (h : exn → M A) : M A :=
  λ w, match m w with
       | (inl e, w') => h e w'
       | (inr a, w') => (inr a, w')
       end.

Definition lift {A} (r : result A) : M A := λ w, (r, w).

Definition raise {A} (e : exn) : M A := λ w, (inl e, w).

(** [try: m except C as e: h e], where [catches e] tells whether [e] is an
    instance of [C]; other exceptions pass through. *)
Definition try_except_if {A} (catches : exn → bool) (m : M A)
    (h : exn → M A) : M A :=
  λ w, match m w with
       | (inl e, w') => if catches e then h e w' else (inl e, w')
       | (inr a, w') => (inr a, w')
       end.

(** A change of the world that returns nothing and does not raise. *)
Definition effect (f : W → W) : M unit := λ w, (inr tt, f w).

Definition now : M Q := λ w, let (t, w') := time_time w in (inr t, w').

Notation "x <- m ;; k" := (bind m (λ x, k))
  (at level 100, m at next level, right associativity).
Notation "m ;;; k" := (bind m (λ _, k))
  (at level 100, right associativity).

(** [for x in l: acc = body x acc] *)
Fixpoint for_each {A S} (body : A → S → M S) (l : list A) (acc : S) : M S :=
  match l with
  | [] => ret acc
  | x :: l' => acc' <- body x acc ;; for_each body l' acc'
  end.

(** The dict appended by [batch_queries] on success. *)
Definition batch_success (query : string) (decision confidence : value) : pydict :=
  {[ "query" := VStr query;
     "decision" := decision;
     "confidence" := confidence;
     "success" := VBool true ]}.

(** The dict appended by [batch_queries] on failure. *)
Definition batch_failure (query : string) (e : exn) : pydict :=
  {[ "query" := VStr query;
     "error" := VStr (str_exn e);
     "success" := VBool false ]}.

(** One iteration of the loop of [batch_queries]. *)
Definition batch_queries_body (n : nat) (iq : nat * string)
    (results : list pydict) : M (list pydict) :=
  let (i, query) := iq in
  print_progress i n query ;;;
  try_except
    (result <- query_documents query ;;
     decision <- lift (py_get result "Decision" VNone) ;;
     confidence <- lift (py_get result "ConfidenceScore" VNone) ;;
     ret (results ++ [batch_success query decision confidence]))
    (λ e, ret (results ++ [batch_failure query e])).

Definition batch_queries (queries : list string) : M (list pydict) :=
  for_each (batch_queries_body (length queries)) (enumerate 1 queries) [].

(** The dict appended by [analyze_performance] on success. *)
Definition timed_success (query : string) (decision confidence : value)
    (query_time : Q) : pydict :=
  {[ "query" := VStr query;
     "decision" := decision;
     "confidence" := confidence;
     "response_time" := VFloat query_time;
     "success" := VBool true ]}.

(** The dict appended by [analyze_performance] on failure. *)
Definition timed_failure (query : string) (e : exn) (query_time : Q) : pydict :=
  {[ "query" := VStr query;
     "error" := VStr (str_exn e);
     "response_time" := VFloat query_time;
     "success" := VBool false ]}.

(** One iteration of the loop of [analyze_performance]. *)
Definition analyze_performance_body (query : string)
    (results : list pydict) : M (list pydict) :=
  query_start <- now ;;
  try_except
    (result <- query_documents query ;;
     t <- now ;;
     let query_time := float_sub t query_start in
     decision <- lift (py_get result "Decision" VNone) ;;
     confidence <- lift (py_get result "ConfidenceScore" (VInt 0)) ;;
     ret (results ++ [timed_success query decision confidence query_time]))
    (λ e,
     t <- now ;;
     let query_time := float_sub t query_start in
     ret (results ++ [timed_failure query e query_time])).

Definition analyze_performance_loop (queries : list string) : M (list pydict) :=
  for_each analyze_performance_body queries [].

(** The conditional expression under ['average_confidence']. *)
Definition average_confidence (successful_queries : list pydict) : result value :=
  match successful_queries with
  | [] => inr (VInt 0)
  | _ =>
      rbind (py_sum (λ r, py_getitem r "confidence") successful_queries) (λ s,
      py_truediv s (py_len successful_queries))
  end.

(** The dict returned by [analyze_performance]. *)
Definition summary (total_queries successful_queries total_time average_time
    success_rate avg_confidence results : value) : pydict :=
  {[ "total_queries" := total_queries;
     "successful_queries" := successful_queries;
     "total_time" := total_time;
     "average_time" := average_time;
     "success_rate" := success_rate;
     "average_confidence" := avg_confidence;
     "results" := results ]}.

(** The values of the dict are computed in the order of its keys, so a zero
    [len(queries)] raises at ['average_time'], before the sum of the
    confidences is attempted. *)
Definition analyze_performance (queries : list string) : M pydict :=
  start_time <- now ;;
  results <- analyze_performance_loop queries ;;
  t <- now ;;
  let total_time := VFloat (float_sub t start_time) in
  successful_queries <-
    lift (py_filter (λ r, py_getitem r "success") results) ;;
  average_time <- lift (py_truediv total_time (py_len queries)) ;;
  success_rate <- lift (py_truediv (py_len successful_queries) (py_len queries)) ;;
  avg_confidence <- lift (average_confidence successful_queries) ;;
  ret (summary (py_len queries) (py_len successful_queries) total_time
         average_time success_rate avg_confidence (VList (VDict <$> results))).

End Workflow.

(** ** What one iteration does, and vocabulary for the statements

    The definitions below are not code of the script: they describe the
    loops iteration by iteration, and name the notions the properties are
    stated with.  The lemmas [batch_queries_body_step] and
    [analyze_performance_body_step] tie them to the loops above.  For
    [batch_queries] they describe the iterations of a run whose progress
    lines are all printed: [print_progress] is here the change of the world
    that such a print makes. *)

Section Outcomes.

Context {W : Type}.
Variable time_time : W → Q * W.
Variable query_documents : string → W → result value * W.
Variable print_progress : nat → nat → string → W → W.

(** A progress line that is printed without an error. *)
Definition printed (i n : nat) (query : string) : @M W unit :=
  effect (print_progress i n query).

(** The record [batch_queries] appends, given how the call ended. *)
Definition batch_record (query : string) (res : result value) : pydict :=
  match
    rbind res (λ result,
    rbind (py_get result "Decision" VNone) (λ decision,
    rbind (py_get result "ConfidenceScore" VNone) (λ confidence,
    inr (batch_success query decision confidence))))
  with
  | inr r => r
  | inl e => batch_failure query e
  end.

Definition batch_step (n : nat) (iq : nat * string) (w : W) : pydict * W :=
  let (res, w') := query_documents iq.2 (print_progress iq.1 n iq.2 w) in
  (batch_record iq.2 res, w').

(** The record [analyze_performance] appends.  When the answer is not a
    dict, [result.get] raises inside the [try] after the clock was read,
    and the handler reads the clock once more. *)
Definition timed_step (query : string) (w : W) : pydict * W :=
  let (query_start, w1) := time_time w in
  let (res, w2) := query_documents query w1 in
  let (t, w3) := time_time w2 in
  match res with
  | inl e => (timed_failure query e (float_sub t query_start), w3)
  | inr result =>
      match
        rbind (py_get result "Decision" VNone) (λ decision,
        rbind (py_get result "ConfidenceScore" (VInt 0)) (λ confidence,
        inr (timed_success query decision confidence (float_sub t query_start))))
      with
      | inr r => (r, w3)
      | inl e =>
          let (t', w4) := time_time w3 in
          (timed_failure query e (float_sub t' query_start), w4)
      end
  end.

(** Running the iterations in order, threading the world. *)
Fixpoint run_steps {A R} (step : A → W → R * W) (l : list A) (w : W) : list R * W :=
  match l with
  | [] => ([], w)
  | x :: l' =>
      let (r, w1) := step x w in
      let (rs, w2) := run_steps step l' w1 in
      (r :: rs, w2)
  end.

(** The world at the start of iteration [i] of [batch_queries queries],
    and the [i]-th call to the API (the progress line is printed first). *)
Definition batch_world (queries : list string) (i : nat) (w : W) : W :=
  (for_each (batch_queries_body query_documents printed (length queries))
     (take i (enumerate 1 queries)) [] w).2.

Definition batch_call (queries : list string) (i : nat) (query : string) (w : W)
    : result value * W :=
  query_documents query
    (print_progress (S i) (length queries) query (batch_world queries i w)).

(** The same for the loop of [analyze_performance], entered in world [w]
    (the clock is read before the call). *)
Definition timed_world (queries : list string) (i : nat) (w : W) : W :=
  (analyze_performance_loop time_time query_documents (take i queries) w).2.

Definition timed_call (queries : list string) (i : nat) (query : string) (w : W)
    : result value * W :=
  query_documents query (time_time (timed_world queries i w)).2.

End Outcomes.

(** A field of a record is populated when the key is present. *)
Definition populated (r : pydict) (key : string) : Prop := is_Some (r !! key).

(** Success fields and no error, or an error and no success fields. *)
Definition success_shape (r : pydict) : Prop :=
  r !! "success" = Some (VBool true) ∧
  populated r "decision" ∧ populated r "confidence" ∧ ¬ populated r "error".

Definition failure_shape (r : pydict) : Prop :=
  r !! "success" = Some (VBool false) ∧
  populated r "error" ∧ ¬ populated r "decision" ∧ ¬ populated r "confidence".

Definition exactly_one_populated (r : pydict) : Prop :=
  (success_shape r ∧ ¬ failure_shape r) ∨ (failure_shape r ∧ ¬ success_shape r).

(** The record of a query whose call raised [e]: the query, a false
    ['success'], the text of the error, and no success field. *)
Definition is_failure_of (query : string) (e : exn) (r : pydict) : Prop :=
  r !! "query" = Some (VStr query) ∧
  r !! "success" = Some (VBool false) ∧
  r !! "error" = Some (VStr (str_exn e)) ∧
  r !! "decision" = None ∧
  r !! "confidence" = None.

(** A confidence that [analyze_performance] can average without an error
    of type or of size: a float, or the int [0] that stands for a missing
    confidence. *)
Definition float_or_0 (c : value) : Prop := c = VInt 0 ∨ ∃ x, c = VFloat x.

(** [r['success']] is true. *)
Definition is_successful (r : pydict) : bool :=
  match r !! "success" with
  | Some v => truthy v
  | None => false
  end.

(** The number under a key of a record, if there is one. *)
Definition field_num (key : string) (r : pydict) : option Q := r !! key ≫= num_of.

(** The exact sum of a list of numbers. *)
Definition Qsum (l : list Q) : Q := foldr Qplus 0%Q l.



(** The accumulator of a sum is an int, or a float that an addition has
    rounded. *)
Definition rounded (v : value) : Prop :=
  match v with
  | VInt _ => True
  | VFloat q => round_float q = q
  | _ => False
  end.


(** The exact sum of the [response_time] fields of a list of records. *)
Definition total_response_time (results : list pydict) : Q :=
  Qsum ((λ r, default 0%Q (field_num "response_time" r)) <$> results).

(** The keys of the summary other than ['results']. *)
Definition aggregate_keys : list string :=
  ["total_queries"; "successful_queries"; "total_time"; "average_time";
   "success_rate"; "average_confidence"].

(** ** A concrete world for examples

    The world is the wall clock alone.  Reading the clock takes an eighth of
    a second, a call to the API takes one second, and the API answers
    according to a fixed table. *)

Module Demo.

Definition answer (decision : string) (confidence : value) : value :=
  VDict {[ "Decision" := VStr decision; "ConfidenceScore" := confidence ]}.

(** The float that a decimal numeral of the answer denotes. *)
Definition float (q : Q) : value := VFloat (round_float q).

Definition api (query : string) : result value :=
  if String.eqb query "A" then inr (answer "approved" (float (5 # 10)))
  else if String.eqb query "B" then inr (answer "rejected" (float (9 # 10)))
  else if String.eqb query "C" then inr (answer "approved" (float (7 # 10)))
  else if String.eqb query "bare" then inr (VDict {[ "Decision" := VStr "approved" ]})
  else if String.eqb query "null" then inr (answer "approved" VNone)
  else if String.eqb query "list" then inr (VList [])
  else if String.eqb query "silent" then inl (Exn "Exception" "")
  else inl (Exn "ConnectionError" "connection refused").

Definition time_time (w : Q) : Q * Q := (w, Qred (w + (1 # 8))).

Definition query_documents (query : string) (w : Q) : result value * Q :=
  (api query, Qred (w + 1)).

Definition print_progress (i n : nat) (query : string) (w : Q) : Q := w.

Definition batch_queries :=
  batch_queries query_documents (printed print_progress).
Definition analyze_performance_loop := analyze_performance_loop time_time query_documents.
Definition analyze_performance := analyze_performance time_time query_documents.

(** Observations of a run, with small values. *)
Definition returned {A} (x : result A * Q) : bool :=
  match x.1 with
  | inr _ => true
  | inl _ => false
  end.

Definition summary_field (x : result pydict * Q) (key : string) : option value :=
  match x.1 with
  | inr s => s !! key
  | inl _ => None
  end.

Definition record_field (x : result (list pydict) * Q) (i : nat) (key : string)
    : option value :=
  match x.1 with
  | inr results => results !! i ≫= (λ r, r !! key)
  | inl _ => None
  end.

Definition response_times (x : result (list pydict) * Q) : Q :=
  match x.1 with
  | inr results => total_response_time results
  | inl _ => 0
  end.


End Demo.

(** ** More built-in operations *)

(** [obj[key]] with a string key: dicts look the key up; lists and strings
    want an integer index; anything else is not subscriptable. *)
Definition py_subscript (obj : value) (key : string) : result value :=
  match obj with
  | VDict d => py_getitem d key
  | VList _ => inl (TypeError "list indices must be integers or slices, not str")
  | VStr _ => inl (TypeError "string indices must be integers, not 'str'")
  | _ => inl (TypeError ("'" +:+ type_name obj +:+ "' object is not subscriptable"))
  end.

(** [a or b] *)
Definition py_or (a b : value) : value := if truthy a then a else b.

(** [len(obj)], the length of a str being counted in characters of the
    model. *)
Definition py_len_of (obj : value) : result value :=
  match obj with
  | VStr s => inr (VInt (Z.of_nat (String.length s)))
  | VList l => inr (py_len l)
  | VDict d => inr (VInt (Z.of_nat (size d)))
  | _ => inl (TypeError ("object of type '" +:+ type_name obj +:+ "' has no len()"))
  end.

Definition ValueError (msg : string) : exn := Exn "ValueError" msg.
Definition FileNotFoundError (msg : string) : exn := Exn "FileNotFoundError" msg.

(** The check made by a replacement field [{v:.2f}]: numbers are formatted
    (the text itself is produced by [print]), an int by way of a float, which
    a very large one does not have; a str does not know the format code; the
    other types do not support a format string at all. *)
Definition py_format_2f (v : value) : result value :=
  match v with
  | VBool _ | VFloat _ => inr v
  | VInt n =>
      if (Z.abs n <? float_overflow)%Z then inr v
      else inl (OverflowError "int too large to convert to float")
  | VStr _ => inl (ValueError "Unknown format code 'f' for object of type 'str'")
  | _ => inl (TypeError ("unsupported format string passed to " +:+ type_name v
                           +:+ ".__format__"))
  end.

(** ** The client: [NeuroDocConfig] and [NeuroDocClient] *)

Record NeuroDocConfig : Type :=
  { base_url : string; jwt_token : string; timeout : Z }.

(** [os.getenv(name, default)] *)
Definition os_getenv (env : gmap string string) (name dflt : string) : string :=
  default dflt (env !! name).

(** [NeuroDocConfig()]: the defaults of the dataclass, read from the
    environment. *)
Definition NeuroDocConfig_default (env : gmap string string) : NeuroDocConfig :=
  {| base_url := os_getenv env "NEURODOC_API_URL" "http://localhost:3000";
     jwt_token := os_getenv env "NEURODOC_JWT_TOKEN" "";
     timeout := 30 |}.

(** What [self.session.request(method, url, timeout=..., **kwargs)] is given,
    with the headers of the session. *)
Record request : Type :=
  { req_method : string;
    req_url : string;
    req_headers : pydict;
    req_timeout : Z;
    req_kwargs : pydict }.

(** What [requests.post(url, files={'file': (name, f)}, headers=...,
    timeout=...)] is given in [upload_document], [f] being the file at
    [up_path] opened for reading. *)
Record upload : Type :=
  { up_url : string;
    up_name : string;
    up_path : string;
    up_headers : pydict;
    up_timeout : Z }.

(** The state of a client: its configuration and the headers of its
    session. *)
Record NeuroDocClient : Type :=
  { config : NeuroDocConfig; session_headers : pydict }.

Module Client.

(** [__init__]: [default_headers] are the headers of a fresh
    [requests.Session()]; [update] overrides them.  The session compares
    header names without regard to case; here [default_headers] is taken
    to spell its names as the client does. *)
Definition init (default_headers : pydict) (cfg : NeuroDocConfig) : NeuroDocClient :=
  {| config := cfg;
     session_headers :=
       ({[ "Authorization" := VStr ("Bearer " +:+ jwt_token cfg);
           "User-Agent" := VStr "NeuroDoc-Python-Client/1.0" ]} : pydict)
       ∪ default_headers |}.

(** The default [options] of [query_documents]. *)
Definition default_options : pydict :=
  {[ "limit" := VInt 5; "threshold" := VFloat (7 # 10);
     "includeReferences" := VBool true ]}.

Section Methods.

Context {W : Type}.

(** [self.session.request(...)], [response.raise_for_status()] and
    [response.json()] in one: the decoded answer, or the exception one of
    the three raised. *)
Variable session_request : request → W → result value * W.

(** Whether an exception is a [requests.exceptions.RequestException]. *)
Variable is_request_exception : exn → bool.

(** Everything the handler of [_request] prints about [e]. *)
Variable print_failure : exn → W → W.

(** [os.path.exists] and [os.path.basename]. *)
Variable os_path_exists : string → W → bool.
Variable os_path_basename : string → string.

(** Opening the file and [requests.post(...)], [raise_for_status()] and
    [json()] in one. *)
Variable requests_post : upload → W → result value * W.

(** [(datetime.now() - timedelta(days=n)).isoformat()] *)
Variable datetime_now_isoformat : Z → W → string * W.

Notation "x <- m ;; k" := (bind m (λ x, k))
  (at level 100, m at next level, right associativity).
Notation "m ;;; k" := (bind m (λ _, k))
  (at level 100, right associativity).

Definition _request (self : NeuroDocClient) (method endpoint : string)
    (kwargs : pydict) : M value :=
  let url := base_url (config self) +:+ endpoint in
  try_except_if is_request_exception
    (session_request
       {| req_method := method;
          req_url := url;
          req_headers := session_headers self;
          req_timeout := timeout (config self);
          req_kwargs := kwargs |})
    (λ e, effect (print_failure e) ;;; raise e).

Definition health_check (self : NeuroDocClient) (detailed : bool) : M value :=
  let params : pydict :=
    if detailed then {[ "detailed" := VStr "true" ]} else ∅ in
  _request self "GET" "/api/health" {[ "params" := VDict params ]}.

Definition upload_document (self : NeuroDocClient) (file_path : string) : M value :=
  λ w,
    if negb (os_path_exists file_path w)
    then raise (FileNotFoundError ("File not found: " +:+ file_path)) w
    else
      requests_post
        {| up_url := base_url (config self) +:+ "/api/upload";
           up_name := os_path_basename file_path;
           up_path := file_path;
           up_headers :=
             {[ "Authorization" := VStr ("Bearer " +:+ jwt_token (config self)) ]};
           up_timeout := timeout (config self) |} w.

Definition query_documents (self : NeuroDocClient) (query : string)
    (options : value) : M value :=
  let data : pydict :=
    {[ "query" := VStr query;
       "options" := py_or options (VDict default_options) ]} in
  _request self "POST" "/api/query" {[ "json" := VDict data ]}.

Definition list_documents (self : NeuroDocClient) (limit offset : Z)
    (search file_type : value) : M value :=
  let params : pydict := {[ "limit" := VInt limit; "offset" := VInt offset ]} in
  let params := if truthy search then <["search" := search]> params else params in
  let params := if truthy file_type then <["fileType" := file_type]> params else params in
  _request self "GET" "/api/documents" {[ "params" := VDict params ]}.

Definition get_clauses (self : NeuroDocClient) (document_id : string) (limit : Z)
    (include_embeddings : bool) : M value :=
  let params : pydict :=
    {[ "doc_id" := VStr document_id;
       "limit" := VInt limit;
       "include_embeddings" := VStr (if include_embeddings then "true" else "false") ]} in
  _request self "GET" "/api/clauses" {[ "params" := VDict params ]}.

Definition get_audit_trail (self : NeuroDocClient) (limit : Z)
    (start_date end_date : value) : M value :=
  let params : pydict := {[ "limit" := VInt limit ]} in
  let params := if truthy start_date then <["start_date" := start_date]> params else params in
  let params := if truthy end_date then <["end_date" := end_date]> params else params in
  _request self "GET" "/api/audit" {[ "params" := VDict params ]}.

Definition get_audit_statistics (self : NeuroDocClient)
    (start_date end_date : value) : M value :=
  start_date <-
    (if truthy start_date then ret start_date
     else λ w, let (s, w') := datetime_now_isoformat 30 w in (inr (VStr s), w')) ;;
  end_date <-
    (if truthy end_date then ret end_date
     else λ w, let (s, w') := datetime_now_isoformat 0 w in (inr (VStr s), w')) ;;
  let data : pydict := {[ "startDate" := start_date; "endDate" := end_date ]} in
  _request self "POST" "/api/audit" {[ "json" := VDict data ]}.

End Methods.

End Client.

(** ** The other workflow method and the driver *)

(** The newline character, written [\n] in the script. *)
Definition nl : string :=
  String (Ascii.Ascii false true false true false false false false) "".

(** [obj[:n]]: a prefix of a str or of a list; [str_prefix] is the slicing
    of strings.  The other types of the model cannot be sliced (on a dict
    the error is a [KeyError] from Python 3.12 on; [main] only slices the
    query of a record, which is a str). *)
Definition py_slice_to (str_prefix : nat → string → string) (n : nat)
    (obj : value) : result value :=
  match obj with
  | VStr s => inr (VStr (str_prefix n s))
  | VList l => inr (VList (take n l))
  | VDict _ => inl (TypeError "unhashable type: 'slice'")
  | _ => inl (TypeError ("'" +:+ type_name obj +:+ "' object is not subscriptable"))
  end.

(** The queries of [main]. *)
Definition sample_queries : list string :=
  ["45-year-old male, diabetes, cardiac surgery in Mumbai";
   "Maternity coverage for 28-year-old woman, premium plan";
   "Emergency dental treatment, 35-year-old, family plan";
   "Cancer treatment coverage, 50-year-old patient";
   "Physiotherapy sessions after knee surgery"].

Section Driver.

Context {W : Type}.

(** [print(f"...")]: the text with [{}] for each replacement field, and the
    values that fill them.  Printing can raise. *)
Variable print : string → list value → @M W unit.

(** [time.sleep(seconds)] *)
Variable time_sleep : Z → W → W.

Variable os_path_basename : string → string.

(** [s[:n]] and [s.strip()] on strings. *)
Variable str_prefix : nat → string → string.
Variable str_strip : string → string.

(** [input(prompt)]: a line typed by the user, or [EOFError]. *)
Variable input : string → W → result string * W.

Notation "x <- m ;; k" := (bind m (λ x, k))
  (at level 100, m at next level, right associativity).
Notation "m ;;; k" := (bind m (λ _, k))
  (at level 100, right associativity).

(** The progress line of [batch_queries]. *)
Definition print_progress_line (i n : nat) (query : string) : M unit :=
  print "🔍 Processing query {}/{}: {}..."
    [VInt (Z.of_nat i); VInt (Z.of_nat n); VStr (str_prefix 50 query)].

Section Workflow.

(** The two methods of [self.client] that the workflow calls. *)
Variable upload_document : string → W → result value * W.
Variable query_documents : string → W → result value * W.

(** The dict returned by [process_document_and_query]. *)
Definition processed (upload_result query_result document_id : value) : pydict :=
  {[ "upload" := upload_result;
     "query" := query_result;
     "document_id" := document_id ]}.

Definition process_document_and_query (file_path query : string) : M pydict :=
  print "🔄 Processing workflow for: {}" [VStr (os_path_basename file_path)] ;;;
  print "📁 Uploading document..." [] ;;;
  upload_result <- upload_document file_path ;;
  document <- lift (py_subscript upload_result "document") ;;
  document_id <- lift (py_subscript document "id") ;;
  print "✅ Document uploaded: {}" [document_id] ;;;
  effect (time_sleep 2) ;;;
  print "❓ Querying: {}" [VStr query] ;;;
  query_result <- query_documents query ;;
  decision <- lift (py_get query_result "Decision" (VStr "Unknown")) ;;
  print "✅ Decision: {}" [decision] ;;;
  ret (processed upload_result query_result document_id).

End Workflow.

(** One iteration of the loop of [main] over the batch results. *)
Definition report_result (result : pydict) (_ : unit) : M unit :=
  success <- lift (py_getitem result "success") ;;
  if truthy success then
    query <- lift (py_getitem result "query") ;;
    shown <- lift (py_slice_to str_prefix 40 query) ;;
    print "   Query: {}..." [shown] ;;;
    decision <- lift (py_getitem result "decision") ;;
    confidence <- lift (py_getitem result "confidence") ;;
    formatted <- lift (py_format_2f confidence) ;;
    print "   Decision: {} (Confidence: {:.2f})" [decision; formatted]
  else
    error <- lift (py_getitem result "error") ;;
    print "   Query failed: {}" [error].

Section Main.

Variable session_request : request → W → result value * W.
Variable is_request_exception : exn → bool.
Variable print_failure : exn → W → W.
Variable datetime_now_isoformat : Z → W → string * W.

(** The headers of a fresh [requests.Session()]. *)
Variable default_headers : pydict.

Local Abbreviation health_check :=
  (Client.health_check session_request is_request_exception print_failure).
Local Abbreviation list_documents :=
  (Client.list_documents session_request is_request_exception print_failure).
Local Abbreviation query_documents :=
  (Client.query_documents session_request is_request_exception print_failure).
Local Abbreviation get_audit_statistics :=
  (Client.get_audit_statistics session_request is_request_exception print_failure
     datetime_now_isoformat).

(** The configuration [main] works with: the defaults, or the token typed
    by the user when the environment gives none. *)
Definition main_config (env : gmap string string) : M NeuroDocConfig :=
  let config := NeuroDocConfig_default env in
  if negb (truthy (VStr (jwt_token config))) then
    print "⚠️  Warning: No JWT token provided. Set NEURODOC_JWT_TOKEN environment variable." [] ;;;
    token <- input "Enter JWT token: " ;;
    ret {| base_url := base_url config;
           jwt_token := str_strip token;
           timeout := timeout config |}
  else ret config.

(** The body of the [try] of [main]. *)
Definition main_body (client : NeuroDocClient) : M unit :=
  print "🔍 Checking API health..." [] ;;;
  health <- health_check client true ;;
  status <- lift (py_subscript health "status") ;;
  print "✅ API Status: {}" [status] ;;;
  print (nl +:+ "📋 Listing documents...") [] ;;;
  docs <- list_documents client 5 0 VNone VNone ;;
  documents <- lift (py_get docs "documents" (VList [])) ;;
  found <- lift (py_len_of documents) ;;
  print "Found {} documents" [found] ;;;
  print (nl +:+ "❓ Running sample queries...") [] ;;;
  batch_results <-
    batch_queries (λ query, query_documents client query VNone)
      print_progress_line (take 3 sample_queries) ;;
  for_each report_result batch_results tt ;;;
  print (nl +:+ "📊 Getting audit statistics...") [] ;;;
  stats <- get_audit_statistics client VNone VNone ;;
  statistics <- lift (py_subscript stats "statistics") ;;
  total_queries <- lift (py_subscript statistics "totalQueries") ;;
  print "Total queries: {}" [total_queries] ;;;
  statistics <- lift (py_subscript stats "statistics") ;;
  average_confidence <- lift (py_subscript statistics "averageConfidence") ;;
  print "Average confidence: {}" [average_confidence] ;;;
  print (nl +:+ "✅ Demo completed successfully!") [].

(** The handler prints too, so it can raise in its turn. *)
Definition main (env : gmap string string) : M unit :=
  config <- main_config env ;;
  let client := Client.init default_headers config in
  try_except (main_body client)
    (λ e, print (nl +:+ "❌ Demo failed: {}") [VStr (str_exn e)]).

End Main.

End Driver.

(** ** Runs in which every line is printed

    Not code of the script: when no print raises, a print is a change of
    the world, [print] below, and the two calls of
    [process_document_and_query] are made in the worlds [before_upload]
    and [before_query]. *)

Section Printed.

Context {W : Type}.
Variable print : string → list value → W → W.
Variable time_sleep : Z → W → W.
Variable os_path_basename : string → string.

(** A line that is printed without an error. *)
Definition printing (text : string) (values : list value) : @M W unit :=
  effect (print text values).

(** The world in which the upload is made: two lines have been printed. *)
Definition before_upload (file_path : string) (w : W) : W :=
  print "📁 Uploading document..." []
    (print "🔄 Processing workflow for: {}" [VStr (os_path_basename file_path)] w).

(** The world in which the query is made, [w1] being the world after the
    upload: a line is printed, the two seconds pass, a line is printed. *)
Definition before_query (query : string) (document_id : value) (w1 : W) : W :=
  print "❓ Querying: {}" [VStr query]
    (time_sleep 2 (print "✅ Document uploaded: {}" [document_id] w1)).

End Printed.

(** ** Recording the requests

    Not code of the script: a world can be paired with the list of the
    requests made so far, the transport appending to it and every other
    effect leaving it alone.  The properties about which requests are sent
    are stated on such worlds. *)

Section Recording.

Context {W : Type}.

Definition recording (send : request → W → result value * W)
    : request → W * list request → result value * (W * list request) :=
  λ req wl, let (r, w') := send req wl.1 in (r, (w', wl.2 ++ [req])).

(** An effect that makes no request. *)
Definition silent {A} (f : W → A * W)
    : W * list request → A * (W * list request) :=
  λ wl, let (a, w') := f wl.1 in (a, (w', wl.2)).

Definition silently (f : W → W) : W * list request → W * list request :=
  λ wl, (f wl.1, wl.2).

End Recording.

(** The request [_request] hands to the session. *)
Definition request_of (self : NeuroDocClient) (method endpoint : string)
    (kwargs : pydict) : request :=
  {| req_method := method;
     req_url := base_url (config self) +:+ endpoint;
     req_headers := session_headers self;
     req_timeout := timeout (config self);
     req_kwargs := kwargs |}.

(** The request [query_documents] makes for [query] with the default
    options. *)
Definition query_request (self : NeuroDocClient) (query : string) : request :=
  {| req_method := "POST";
     req_url := base_url (config self) +:+ "/api/query";
     req_headers := session_headers self;
     req_timeout := timeout (config self);
     req_kwargs :=
       {[ "json" := VDict {[ "query" := VStr query;
                             "options" := VDict Client.default_options ]} ]} |}.

(** Two records tell the same outcome: same query, same success flag, same
    decision, same error, and the same confidence unless the answer had
    none, which the first shows as [None] and the second as [0]. *)
Definition same_outcome (rb rt : pydict) : Prop :=
  rb !! "query" = rt !! "query" ∧
  rb !! "success" = rt !! "success" ∧
  rb !! "decision" = rt !! "decision" ∧
  rb !! "error" = rt !! "error" ∧
  (rb !! "confidence" = rt !! "confidence" ∨
   (rb !! "confidence" = Some VNone ∧ rt !! "confidence" = Some (VInt 0))).


(** The requests of [main]. *)
Definition health_request (self : NeuroDocClient) : request :=
  request_of self "GET" "/api/health"
    {[ "params" := VDict {[ "detailed" := VStr "true" ]} ]}.

Definition documents_request (self : NeuroDocClient) : request :=
  request_of self "GET" "/api/documents"
    {[ "params" := VDict {[ "limit" := VInt 5; "offset" := VInt 0 ]} ]}.

Definition statistics_request (self : NeuroDocClient) (start_date end_date : string)
    : request :=
  request_of self "POST" "/api/audit"
    {[ "json" := VDict {[ "startDate" := VStr start_date;
                          "endDate" := VStr end_date ]} ]}.

(** The requests [main] can have made when it ends: a health check; then
    the list of documents; then the first three sample queries; then the
    audit statistics. *)
Definition main_requests (self : NeuroDocClient) (sent : list request) : Prop :=
  let first_two := [health_request self; documents_request self] in
  let queries := query_request self <$> take 3 sample_queries in
  sent = [health_request self] ∨
  sent = first_two ∨
  sent = first_two ++ queries ∨
  ∃ start_date end_date,
    sent = first_two ++ queries ++ [statistics_request self start_date end_date].

(** ** A concrete file system and upload service for examples

    The world is the clock of [Demo].  Every path exists but
    [missing.pdf]; posting [policy.pdf] answers with a document id, posting
    anything else answers without one; queries are answered as in [Demo]. *)

Module Stub.

Definition print (text : string) (values : list value) (w : Q) : Q := w.

Definition time_sleep (seconds : Z) (w : Q) : Q := Qred (w + inject_Z seconds).

Definition os_path_basename (path : string) : string := path.

Definition str_prefix (n : nat) (s : string) : string := String.substring 0 n s.

Definition os_path_exists (path : string) (w : Q) : bool :=
  negb (String.eqb path "missing.pdf").

Definition requests_post (up : upload) (w : Q) : result value * Q :=
  (if String.eqb (up_name up) "policy.pdf"
   then inr (VDict {[ "document" := VDict {[ "id" := VStr "doc-1" ]} ]})
   else inr (VDict {[ "status" := VStr "ok" ]}),
   Qred (w + 1)).

Definition self : NeuroDocClient :=
  Client.init ∅
    {| base_url := "http://localhost:3000"; jwt_token := "secret"; timeout := 30 |}.

Definition upload_document : string → Q → result value * Q :=
  Client.upload_document os_path_exists os_path_basename requests_post self.

Definition process_document_and_query : string → string → Q → result pydict * Q :=
  process_document_and_query (printing print) time_sleep os_path_basename
    upload_document Demo.query_documents.

(** The environment gives the token of [self]; a user asked for one types
    [typed]. *)
Definition env : gmap string string := {[ "NEURODOC_JWT_TOKEN" := "secret" ]}.

Definition str_strip (s : string) : string := s.

Definition input (prompt : string) (w : Q) : result string * Q := (inr "typed", w).

(** An API that answers every request, by its URL. *)
Definition session_request (req : request) (w : Q) : result value * Q :=
  (if String.eqb (req_url req) "http://localhost:3000/api/health"
   then inr (VDict {[ "status" := VStr "healthy" ]})
   else if String.eqb (req_url req) "http://localhost:3000/api/documents"
   then inr (VDict {[ "documents" := VList [] ]})
   else if String.eqb (req_url req) "http://localhost:3000/api/query"
   then inr (Demo.answer "approved" (Demo.float (9 # 10)))
   else inr (VDict {[ "statistics" :=
                        VDict {[ "totalQueries" := VInt 3;
                                 "averageConfidence" := Demo.float (9 # 10) ]} ]}),
   Qred (w + 1)).

(** An API that is down. *)
Definition session_down (req : request) (w : Q) : result value * Q :=
  (inl (Exn "ConnectionError" "connection refused"), Qred (w + 1)).

Definition is_request_exception (e : exn) : bool :=
  String.eqb (exn_class e) "ConnectionError".

Definition print_failure (e : exn) (w : Q) : Q := w.

Definition datetime_now_isoformat (days : Z) (w : Q) : string * Q :=
  (if (days =? 0)%Z then "2024-01-31T00:00:00" else "2024-01-01T00:00:00", w).

(** [main] with the API down, and [main] on a recording world with the API
    answering. *)
Definition main_down : gmap string string → Q → result unit * Q :=
  main (printing print) str_prefix str_strip input session_down
    is_request_exception print_failure datetime_now_isoformat ∅.

Definition recorded_main
    : gmap string string → Q * list request → result unit * (Q * list request) :=
  main (λ text values, silent (printing print text values)) str_prefix str_strip
    (λ prompt, silent (input prompt)) (recording session_request)
    is_request_exception (λ e, silently (print_failure e))
    (λ n, silent (datetime_now_isoformat n)) ∅.

End Stub.

(** * Properties *)

(** ** Floats *)

Section Floats.

Local Open Scope Q_scope.

Lemma pow2_pos e : 0 < pow2 e.
Proof. by apply Qpower_0_lt. Qed.

Lemma pow2_plus a b : pow2 (a + b) == pow2 a * pow2 b.
Proof. by apply Qpower_plus. Qed.

Lemma pow2_minus a b : pow2 (a - b) == pow2 a / pow2 b.
Proof. by apply Qpower_minus. Qed.

Lemma pow2_le a b : (a <= b)%Z → pow2 a <= pow2 b.
Proof. intros. by apply Qpower_le_compat_l. Qed.

Lemma pow2_lt a b : (a < b)%Z → pow2 a < pow2 b.
Proof. intros. by apply Qpower_lt_compat_l. Qed.

Lemma pow2_le_inv a b : pow2 a <= pow2 b → (a <= b)%Z.
Proof. intros. by apply (Qpower_le_compat_l_inv 2). Qed.

Lemma pow2_lt_inv a b : pow2 a < pow2 b → (a < b)%Z.
Proof. intros. by apply (Qpower_lt_compat_l_inv 2). Qed.

Lemma pow2_Z (n : Z) : (0 <= n)%Z → inject_Z (2 ^ n) == pow2 n.
Proof. intros. by apply Zpower_Qpower. Qed.

(** ** Rounding to an integer *)

Lemma round_half_even_comp x y : x == y → round_half_even x = round_half_even y.
Proof.
  intros H. unfold round_half_even. rewrite (Qfloor_comp _ _ H).
  assert (x - inject_Z (Qfloor y) == y - inject_Z (Qfloor y)) as H' by (by rewrite H).
  by rewrite (Qcompare_comp _ _ H' _ _ (Qeq_refl _)).
Qed.

Lemma round_half_even_Z (k : Z) : round_half_even (inject_Z k) = k.
Proof.
  unfold round_half_even. rewrite Qfloor_Z.
  destruct (Qcompare_spec (inject_Z k - inject_Z k) (1 # 2)) as [H|H|H]; try done; lra.
Qed.

Lemma round_half_even_bounds x :
  (Qfloor x <= round_half_even x <= Qfloor x + 1)%Z.
Proof.
  unfold round_half_even.
  destruct (Qcompare _ _); [destruct (Z.even _)| |]; lia.
Qed.

Lemma round_half_even_le x (k : Z) : x <= inject_Z k → (round_half_even x <= k)%Z.
Proof.
  intros H. pose proof (Qfloor_le x) as Hf.
  assert (Qfloor x <= k)%Z as Hk.
  { rewrite Zle_Qle. lra. }
  destruct (Z.eq_dec (Qfloor x) k) as [Heq|Hne].
  - unfold round_half_even. rewrite Heq in *.
    destruct (Qcompare_spec (x - inject_Z k) (1 # 2)) as [H1|H1|H1]; try lia; lra.
  - pose proof (round_half_even_bounds x). lia.
Qed.

Lemma round_half_even_ge x (k : Z) : inject_Z k <= x → (k <= round_half_even x)%Z.
Proof.
  intros H. pose proof (round_half_even_bounds x).
  assert (k <= Qfloor x)%Z; [|lia].
  rewrite <- (Qfloor_Z k). by apply Qfloor_resp_le.
Qed.

(** ** The binade of a positive rational *)

Lemma binade_spec q : 0 < q → pow2 (binade q) <= q ∧ q < pow2 (binade q + 1).
Proof.
  intros Hq.
  assert (0 < Qnum q)%Z as Hn.
  { unfold Qlt in Hq. simpl in Hq. lia. }
  set (n := Qnum q) in *. set (d := Z.pos (Qden q)).
  assert (q * inject_Z d == inject_Z n) as Hqd.
  { unfold Qeq, Qmult, inject_Z, n, d. destruct q as [qn qd]. simpl. lia. }
  assert (0 < inject_Z d) as Hd by (unfold Qlt, d; simpl; lia).
  destruct (Z.log2_spec n Hn) as [Ha1 Ha2].
  destruct (Z.log2_spec d) as [Hb1 Hb2]; [unfold d; lia|].
  pose proof (Z.log2_nonneg n) as Ha0. pose proof (Z.log2_nonneg d) as Hb0.
  set (a := Z.log2 n) in *. set (b := Z.log2 d) in *.
  rewrite Zle_Qle, pow2_Z in Ha1 by done.
  rewrite Zlt_Qlt, pow2_Z in Ha2 by lia.
  rewrite Zle_Qle, pow2_Z in Hb1 by done.
  rewrite Zlt_Qlt, pow2_Z in Hb2 by lia.
  assert (pow2 (a - b - 1) < q) as Hlow.
  { apply (Qmult_lt_r _ _ (inject_Z d) Hd). rewrite Hqd.
    apply Qlt_le_trans with (pow2 (a - b - 1) * pow2 (Z.succ b)).
    - apply Qmult_lt_l; [apply pow2_pos | done].
    - rewrite <- pow2_plus. by replace (a - b - 1 + Z.succ b)%Z with a by lia. }
  assert (q < pow2 (a - b + 1)) as Hup.
  { apply (Qmult_lt_r _ _ (inject_Z d) Hd). rewrite Hqd.
    apply Qlt_le_trans with (pow2 (a - b + 1) * pow2 b).
    - rewrite <- pow2_plus. by replace (a - b + 1 + b)%Z with (Z.succ a) by lia.
    - apply Qmult_le_l; [apply pow2_pos | done]. }
  unfold binade. fold n d a b.
  destruct (Qle_bool (pow2 (a - b)) q) eqn:Hk.
  - apply Qle_bool_iff in Hk. by split.
  - assert (q < pow2 (a - b)) as Hlt.
    { apply Qnot_le_lt. intros H. apply Qle_bool_iff in H. congruence. }
    split; [by apply Qlt_le_weak|].
    by replace (a - b - 1 + 1)%Z with (a - b)%Z by lia.
Qed.

Lemma binade_unique q (b : Z) :
  pow2 b <= q → q < pow2 (b + 1) → binade q = b.
Proof.
  intros H1 H2.
  assert (0 < q) as Hq by (pose proof (pow2_pos b); lra).
  destruct (binade_spec q Hq) as [H3 H4].
  assert (binade q < b + 1)%Z by (apply pow2_lt_inv; lra).
  assert (b < binade q + 1)%Z by (apply pow2_lt_inv; lra).
  lia.
Qed.

(** ** Rounding to a float *)

Lemma Qred_eq (p q : Q) : p == q → Qred p = Qred q.
Proof. apply Qred_complete. Qed.

Lemma round_float_comp p q : p == q → round_float p = round_float q.
Proof. intros H. unfold round_float. by rewrite (Qred_eq _ _ H). Qed.

Lemma round_float_0 : round_float 0 = 0.
Proof. reflexivity. Qed.

Lemma round_float_1 : round_float 1 = 1.
Proof. vm_compute. reflexivity. Qed.

Lemma Qnum_pos q : 0 < q ↔ (0 < Qnum q)%Z.
Proof. unfold Qlt; simpl. lia. Qed.

Lemma Qnum_neg q : q < 0 ↔ (Qnum q < 0)%Z.
Proof. unfold Qlt; simpl. lia. Qed.

Lemma Qnum_zero q : q == 0 ↔ Qnum q = 0%Z.
Proof. unfold Qeq; simpl. lia. Qed.

(** The three cases of [round_float]. *)
Lemma round_float_pos q : 0 < q → round_float q = Qred (round_positive (Qred q)).
Proof.
  intros Hq. unfold round_float.
  assert (0 < Qred q) as H by (by rewrite Qred_correct).
  apply Qnum_pos in H. by destruct (Qnum (Qred q)).
Qed.

Lemma round_float_neg q :
  q < 0 → round_float q = Qred (- round_positive (- Qred q)).
Proof.
  intros Hq. unfold round_float.
  assert (Qred q < 0) as H by (by rewrite Qred_correct).
  apply Qnum_neg in H. by destruct (Qnum (Qred q)).
Qed.

Lemma round_float_zero q : q == 0 → round_float q = 0.
Proof. intros H. by rewrite (round_float_comp _ _ H). Qed.

Lemma round_positive_nonneg q : 0 <= q → 0 <= round_positive q.
Proof.
  intros Hq. unfold round_positive.
  apply Qmult_le_0_compat; [|apply Qlt_le_weak, pow2_pos].
  change 0 with (inject_Z 0). rewrite <- Zle_Qle.
  apply round_half_even_ge.
  apply Qle_shift_div_l; [apply pow2_pos|].
  change (inject_Z 0) with 0. by rewrite Qmult_0_l.
Qed.

Lemma round_float_nonneg q : 0 <= q → 0 <= round_float q.
Proof.
  intros Hq. destruct (Qlt_le_dec 0 q) as [Hpos|Hle].
  - rewrite round_float_pos by done. rewrite Qred_correct.
    apply round_positive_nonneg. rewrite Qred_correct. lra.
  - rewrite round_float_zero by lra. lra.
Qed.

Lemma round_float_nonpos q : q <= 0 → round_float q <= 0.
Proof.
  intros Hq. destruct (Qlt_le_dec q 0) as [Hneg|Hle].
  - rewrite round_float_neg by done. rewrite Qred_correct.
    assert (0 <= round_positive (- Qred q)); [|lra].
    apply round_positive_nonneg. rewrite Qred_correct. lra.
  - rewrite round_float_zero by lra. lra.
Qed.

Lemma ulp_exponent_ge q : (-1074 <= ulp_exponent q)%Z.
Proof. unfold ulp_exponent. lia. Qed.

(** The mantissa of a rounded positive number has at most 53 bits, or is
    [2^53], the first number of the next binade. *)
Lemma round_positive_mantissa q :
  0 < q →
  (0 <= round_half_even (q / pow2 (ulp_exponent q)) <= 2 ^ 53)%Z.
Proof.
  intros Hq. destruct (binade_spec q Hq) as [_ Hup].
  pose proof (pow2_pos (ulp_exponent q)) as He.
  split.
  - apply round_half_even_ge. apply Qle_shift_div_l; [done|].
    change (inject_Z 0) with 0. rewrite Qmult_0_l. lra.
  - apply round_half_even_le. rewrite pow2_Z by done.
    apply Qle_shift_div_r; [done|]. rewrite <- pow2_plus.
    apply Qlt_le_weak, Qlt_le_trans with (1 := Hup).
    apply pow2_le. unfold ulp_exponent. lia.
Qed.

(** A number that is a multiple of its last place is not changed. *)
Lemma round_positive_exact q (k : Z) :
  q == inject_Z k * pow2 (ulp_exponent q) → round_positive q == q.
Proof.
  intros H. unfold round_positive.
  assert (q / pow2 (ulp_exponent q) == inject_Z k) as Hx.
  { rewrite H at 1. field. pose proof (pow2_pos (ulp_exponent q)). lra. }
  by rewrite (round_half_even_comp _ _ Hx), round_half_even_Z, <- H.
Qed.

(** A positive number with a mantissa of at most 53 bits and an exponent
    from [-1074] on is a float. *)
Lemma round_positive_fixed q (m e : Z) :
  q == inject_Z m * pow2 e →
  (0 < m <= 2 ^ 53)%Z → (-1074 <= e)%Z →
  round_positive q == q.
Proof.
  intros Hq [Hm0 Hm] He.
  pose proof (pow2_pos e) as Hpe.
  assert (0 < inject_Z m) as Hm0' by (change 0 with (inject_Z 0); by rewrite <- Zlt_Qlt).
  assert (0 < q) as Hpos.
  { rewrite Hq. by apply Qmult_lt_0_compat. }
  destruct (binade_spec q Hpos) as [Hlow Hup].
  destruct (Z.eq_dec m (2 ^ 53)%Z) as [->|Hne].
  - assert (q == pow2 (e + 53)) as Hq'.
    { rewrite Hq, pow2_Z by done. rewrite pow2_plus. ring. }
    assert (binade q = (e + 53)%Z) as Hb.
    { apply binade_unique; rewrite Hq'; [lra | apply pow2_lt; lia]. }
    apply (round_positive_exact q (2 ^ 52)%Z).
    unfold ulp_exponent. rewrite Hb.
    replace (Z.max (e + 53 - 52) (-1074)) with (e + 1)%Z by lia.
    rewrite Hq', pow2_Z by done. rewrite <- pow2_plus.
    by replace (52 + (e + 1))%Z with (e + 53)%Z by lia.
  - assert (q < pow2 (e + 53)) as Hlt.
    { rewrite Hq, pow2_plus, (Qmult_comm (pow2 e)).
      apply Qmult_lt_r; [done|]. rewrite <- pow2_Z by done.
      rewrite <- Zlt_Qlt. lia. }
    assert (binade q < e + 53)%Z as Hb by (apply pow2_lt_inv; lra).
    assert (ulp_exponent q <= e)%Z as He' by (unfold ulp_exponent; lia).
    apply (round_positive_exact q (m * 2 ^ (e - ulp_exponent q))%Z).
    rewrite inject_Z_mult, pow2_Z by lia. rewrite Hq at 1.
    rewrite <- Qmult_assoc, <- pow2_plus.
    by replace (e - ulp_exponent q + ulp_exponent q)%Z with e by lia.
Qed.

(** Rounding a positive number gives zero or a float. *)
Lemma round_positive_idem q :
  0 < q → ∀ y, y == round_positive q → 0 < y → round_positive y == y.
Proof.
  intros Hq y Hy Hpos.
  pose proof (round_positive_mantissa q Hq) as [Hm0 Hm].
  apply (round_positive_fixed y (round_half_even (q / pow2 (ulp_exponent q)))
           (ulp_exponent q)); [exact Hy| |apply ulp_exponent_ge].
  split; [|done].
  destruct (Z.eq_dec (round_half_even (q / pow2 (ulp_exponent q))) 0%Z) as [H0|]; [|lia].
  unfold round_positive in Hy. rewrite H0 in Hy.
  change (inject_Z 0) with 0 in Hy. rewrite Qmult_0_l in Hy. lra.
Qed.

(** Rounding twice is rounding once: the result of an operation on floats
    is a float. *)
Lemma round_float_idem q : round_float (round_float q) = round_float q.
Proof.
  destruct (Q_dec 0 q) as [[Hpos|Hneg]|Hzero].
  - assert (0 < Qred q) as Hpos' by (by rewrite Qred_correct).
    rewrite (round_float_pos q Hpos).
    set (r := round_positive (Qred q)).
    pose proof (round_positive_nonneg (Qred q) (Qlt_le_weak _ _ Hpos')) as Hr.
    fold r in Hr.
    destruct (Qlt_le_dec 0 r) as [Hr0|Hr0].
    + rewrite round_float_pos by (by rewrite Qred_correct).
      apply Qred_eq.
      assert (round_positive (Qred (Qred r)) == Qred (Qred r)) as H.
      { apply (round_positive_idem (Qred q) Hpos'); by rewrite !Qred_correct. }
      by rewrite H, !Qred_correct.
    + assert (r == 0) as Hz by lra.
      rewrite (Qred_eq _ _ Hz). reflexivity.
  - assert (0 < - Qred q) as Hpos' by (rewrite Qred_correct; lra).
    rewrite (round_float_neg q Hneg).
    set (r := round_positive (- Qred q)).
    pose proof (round_positive_nonneg (- Qred q) (Qlt_le_weak _ _ Hpos')) as Hr.
    fold r in Hr.
    destruct (Qlt_le_dec 0 r) as [Hr0|Hr0].
    + rewrite round_float_neg by (rewrite Qred_correct; lra).
      apply Qred_eq.
      assert (round_positive (- Qred (Qred (- r))) == - Qred (Qred (- r))) as H.
      { apply (round_positive_idem (- Qred q) Hpos').
        - rewrite !Qred_correct. fold r. ring.
        - rewrite !Qred_correct. lra. }
      rewrite H, !Qred_correct. ring.
    + assert (- r == 0) as Hz by lra.
      rewrite (Qred_eq _ _ Hz). reflexivity.
  - rewrite (round_float_zero q) by (by symmetry). reflexivity.
Qed.

(** Rounding does not cross a power of two. *)
Lemma round_float_le_pow2 q (j : Z) :
  (-1074 <= j)%Z → q <= pow2 j → round_float q <= pow2 j.
Proof.
  intros Hj Hq. pose proof (pow2_pos j) as Hpj.
  destruct (Qlt_le_dec 0 q) as [Hpos|Hle].
  - rewrite round_float_pos by done. rewrite Qred_correct.
    assert (0 < Qred q) as Hpos' by (by rewrite Qred_correct).
    assert (Qred q <= pow2 j) as Hq' by (by rewrite Qred_correct).
    set (p := Qred q) in *.
    destruct (binade_spec p Hpos') as [Hlow _].
    assert (binade p <= j)%Z as Hb by (apply pow2_le_inv; lra).
    assert (ulp_exponent p <= j)%Z as He by (unfold ulp_exponent; lia).
    pose proof (pow2_pos (ulp_exponent p)) as Hpe.
    unfold round_positive.
    assert (round_half_even (p / pow2 (ulp_exponent p)) <= 2 ^ (j - ulp_exponent p))%Z
      as Hm.
    { apply round_half_even_le. rewrite pow2_Z by lia.
      apply Qle_shift_div_r; [done|]. rewrite <- pow2_plus.
      by replace (j - ulp_exponent p + ulp_exponent p)%Z with j by lia. }
    rewrite Zle_Qle, pow2_Z in Hm by lia.
    apply Qle_trans with (pow2 (j - ulp_exponent p) * pow2 (ulp_exponent p)).
    + by apply Qmult_le_compat_r; [|apply Qlt_le_weak].
    + rewrite <- pow2_plus.
      replace (j - ulp_exponent p + ulp_exponent p)%Z with j by lia. lra.
  - pose proof (round_float_nonpos q Hle). lra.
Qed.



(** Nor from above. *)
Lemma round_float_ge_pow2 q (j : Z) :
  (-1074 <= j)%Z → pow2 j <= q → pow2 j <= round_float q.
Proof.
  intros Hj Hq. pose proof (pow2_pos j) as Hpj.
  assert (0 < q) as Hpos by lra.
  rewrite round_float_pos by done. rewrite Qred_correct.
  assert (0 < Qred q) as Hpos' by (by rewrite Qred_correct).
  assert (pow2 j <= Qred q) as Hq' by (by rewrite Qred_correct).
  set (p := Qred q) in *.
  destruct (binade_spec p Hpos') as [Hlow Hup].
  assert (j < binade p + 1)%Z as Hb by (apply pow2_lt_inv; lra).
  pose proof (pow2_pos (ulp_exponent p)) as Hpe.
  unfold round_positive.
  destruct (Z_le_gt_dec (ulp_exponent p) j) as [He|He].
  - assert (2 ^ (j - ulp_exponent p) <= round_half_even (p / pow2 (ulp_exponent p)))%Z
      as Hm.
    { apply round_half_even_ge. rewrite pow2_Z by lia.
      apply Qle_shift_div_l; [done|]. rewrite <- pow2_plus.
      by replace (j - ulp_exponent p + ulp_exponent p)%Z with j by lia. }
    rewrite Zle_Qle, pow2_Z in Hm by lia.
    apply Qle_trans with (pow2 (j - ulp_exponent p) * pow2 (ulp_exponent p)).
    + rewrite <- pow2_plus.
      replace (j - ulp_exponent p + ulp_exponent p)%Z with j by lia. lra.
    + by apply Qmult_le_compat_r; [|apply Qlt_le_weak].
  - assert (ulp_exponent p = binade p - 52)%Z as Heq by (unfold ulp_exponent in *; lia).
    assert (2 ^ 52 <= round_half_even (p / pow2 (ulp_exponent p)))%Z as Hm.
    { apply round_half_even_ge. rewrite pow2_Z by lia.
      apply Qle_shift_div_l; [done|]. rewrite <- pow2_plus.
      replace (52 + ulp_exponent p)%Z with (binade p) by lia. done. }
    rewrite Zle_Qle, pow2_Z in Hm by lia.
    apply Qle_trans with (pow2 52 * pow2 (ulp_exponent p)).
    + rewrite <- pow2_plus. apply pow2_le. lia.
    + by apply Qmult_le_compat_r; [|apply Qlt_le_weak].
Qed.

(** Rounding keeps a number between [0] and [1] there. *)
Lemma round_float_unit q : 0 <= q → q <= 1 → 0 <= round_float q ∧ round_float q <= 1.
Proof.
  intros H0 H1. split; [by apply round_float_nonneg|].
  by apply (round_float_le_pow2 q 0).
Qed.

(** The float of a positive int is at least [1]. *)
Lemma round_float_int_pos (n : Z) : (1 <= n)%Z → 1 <= round_float (inject_Z n).
Proof.
  intros Hn. apply (round_float_ge_pow2 _ 0); [done|].
  change (pow2 0) with (inject_Z 1). by rewrite <- Zle_Qle.
Qed.

Lemma float_of_int_0 : float_of_int 0 = inr 0.
Proof. vm_compute. reflexivity. Qed.

Lemma sys_maxsize_fits : (sys_maxsize < float_overflow)%Z.
Proof. vm_compute. reflexivity. Qed.

(** An int that is the length of a list converts to a float. *)
Lemma float_of_int_fits (n : Z) :
  (Z.abs n <= sys_maxsize)%Z → float_of_int n = inr (round_float (inject_Z n)).
Proof.
  intros Hn. unfold float_of_int.
  pose proof sys_maxsize_fits as Hfits.
  destruct (Z.ltb_spec (Z.abs n) float_overflow) as [_|Hge]; [done|lia].
Qed.

End Floats.

(** ** Loops that append one record per iteration *)

Section Loops.

Context {W A R : Type}.
Variable body : A → list R → @M W (list R).
Variable step : A → W → R * W.

Hypothesis body_step :
  ∀ x acc w, body x acc w = (inr (acc ++ [(step x w).1]), (step x w).2).

Lemma for_each_run (l : list A) (acc : list R) (w : W) :
  for_each body l acc w
  = (inr (acc ++ (run_steps step l w).1), (run_steps step l w).2).
Proof using body_step.
  revert acc w. induction l as [|x l IH]; intros acc w; simpl.
  - unfold ret. by rewrite app_nil_r.
  - unfold bind. rewrite body_step, IH.
    destruct (step x w) as [r w1]; simpl.
    destruct (run_steps step l w1) as [rs w2]; simpl.
    by rewrite <- app_assoc.
Qed.

Lemma run_steps_length (l : list A) (w : W) :
  length (run_steps step l w).1 = length l.
Proof.
  revert w. induction l as [|x l IH]; intros w; simpl; [done|].
  destruct (step x w) as [r w1]. specialize (IH w1).
  destruct (run_steps step l w1) as [rs w2]. simpl in *. by rewrite IH.
Qed.

Lemma run_steps_lookup (l : list A) (w : W) (i : nat) (x : A) :
  l !! i = Some x →
  (run_steps step l w).1 !! i
  = Some (step x (run_steps step (take i l) w).2).1.
Proof.
  revert w i. induction l as [|y l IH]; intros w i Hi; [done|].
  destruct i as [|i]; simpl in *.
  - injection Hi as ->. destruct (step x w) as [r w1].
    by destruct (run_steps step l w1).
  - destruct (step y w) as [r w1]. specialize (IH w1 i Hi).
    destruct (run_steps step l w1) as [rs w2].
    destruct (run_steps step (take i l) w1) as [rs' w2']. done.
Qed.

Lemma run_steps_Forall (P : R → Prop) (l : list A) (w : W) :
  (∀ x w, P (step x w).1) → Forall P (run_steps step l w).1.
Proof.
  intros HP. revert w. induction l as [|x l IH]; intros w; simpl; [constructor|].
  pose proof (HP x w) as Hx. destruct (step x w) as [r w1].
  specialize (IH w1). destruct (run_steps step l w1) as [rs w2].
  by constructor.
Qed.

End Loops.

(** ** The records *)

Section Records.

Implicit Types (query : string) (r : pydict) (e : exn) (t : Q).

Lemma batch_success_fields query decision confidence :
  let r := batch_success query decision confidence in
  r !! "query" = Some (VStr query) ∧ r !! "decision" = Some decision ∧
  r !! "confidence" = Some confidence ∧ r !! "success" = Some (VBool true) ∧
  r !! "error" = None ∧ r !! "response_time" = None.
Proof. by repeat split. Qed.

Lemma batch_failure_fields query e :
  let r := batch_failure query e in
  r !! "query" = Some (VStr query) ∧ r !! "error" = Some (VStr (str_exn e)) ∧
  r !! "success" = Some (VBool false) ∧ r !! "decision" = None ∧
  r !! "confidence" = None ∧ r !! "response_time" = None.
Proof. by repeat split. Qed.

Lemma timed_success_fields query decision confidence t :
  let r := timed_success query decision confidence t in
  r !! "query" = Some (VStr query) ∧ r !! "decision" = Some decision ∧
  r !! "confidence" = Some confidence ∧ r !! "success" = Some (VBool true) ∧
  r !! "error" = None ∧ r !! "response_time" = Some (VFloat t).
Proof. by repeat split. Qed.

Lemma timed_failure_fields query e t :
  let r := timed_failure query e t in
  r !! "query" = Some (VStr query) ∧ r !! "error" = Some (VStr (str_exn e)) ∧
  r !! "success" = Some (VBool false) ∧ r !! "decision" = None ∧
  r !! "confidence" = None ∧ r !! "response_time" = Some (VFloat t).
Proof. by repeat split. Qed.

Lemma response_time_timed_success query decision confidence t :
  field_num "response_time" (timed_success query decision confidence t) = Some t.
Proof. done. Qed.

Lemma response_time_timed_failure query e t :
  field_num "response_time" (timed_failure query e t) = Some t.
Proof. done. Qed.

End Records.

Lemma exactly_one_success (r : pydict) :
  r !! "success" = Some (VBool true) →
  populated r "decision" → populated r "confidence" → r !! "error" = None →
  exactly_one_populated r.
Proof.
  intros Hs Hd Hc He. left. split.
  - repeat split; try done. unfold populated. rewrite He. by intros [? ?].
  - intros [Hf _]. congruence.
Qed.

Lemma exactly_one_failure (r : pydict) :
  r !! "success" = Some (VBool false) →
  populated r "error" → r !! "decision" = None → r !! "confidence" = None →
  exactly_one_populated r.
Proof.
  intros Hs He Hd Hc. right. split.
  - repeat split; try done; unfold populated; [rewrite Hd | rewrite Hc]; by intros [? ?].
  - intros [Hf _]. congruence.
Qed.

Lemma dict_or_not (v : value) : (∃ d, v = VDict d) ∨ (∀ d, v ≠ VDict d).
Proof. destruct v; try (by right); left; by eexists. Qed.

Lemma enumerate_length {A} (start : nat) (l : list A) :
  length (enumerate start l) = length l.
Proof. revert start. induction l; intros; simpl; by f_equal. Qed.

Lemma enumerate_lookup {A} (start : nat) (l : list A) (i : nat) :
  enumerate start l !! i = (λ x, (start + i, x)) <$> l !! i.
Proof.
  revert start i. induction l as [|y l IH]; intros start [|i]; simpl; try done.
  - by rewrite Nat.add_0_r.
  - rewrite IH. by replace (S start + i) with (start + S i) by lia.
Qed.

(** ** Sums, divisions and the filter *)

Section Arithmetic.

Implicit Types (a b v acc : value) (x y : Q) (r : pydict) (l : list pydict).

Local Open Scope Q_scope.

Lemma num_of_as_num v x : num_of v = Some x ↔ ∃ n, as_num v = Some n ∧ num_Q n = x.
Proof.
  unfold num_of. destruct (as_num v) as [n|]; simpl; split.
  - intros [= <-]. by eexists.
  - by intros (? & [= <-] & <-).
  - done.
  - by intros (? & ? & _).
Qed.

Lemma to_float_error (n : num) e : to_float n = inl e → exn_class e = "OverflowError".
Proof.
  destruct n as [z|q]; [|done]. unfold to_float, float_of_int.
  destruct (Z.abs z <? float_overflow)%Z; [done|]. by intros [= <-].
Qed.

(** The only errors of an addition. *)
Lemma py_add_error a b e :
  py_add a b = inl e → exn_class e = "TypeError" ∨ exn_class e = "OverflowError".
Proof.
  unfold py_add.
  destruct a, b; simpl; unfold float_of_int;
    repeat (destruct (_ <? float_overflow)%Z; simpl); try done;
    intros [= <-]; auto.
Qed.

(** Nothing can be added to [None]. *)
Lemma py_add_none a : ∃ e, py_add a VNone = inl e.
Proof. destruct a; by eexists. Qed.

(** A number can only be added to a number. *)
Lemma py_add_rounded_inv a b v :
  rounded a → py_add a b = inr v → is_Some (as_num b).
Proof.
  intros Ha. destruct a; try done; destruct b; try done; by eexists.
Qed.

(** What an addition that starts from a number returns is an int or a
    rounded float. *)
Lemma py_add_rounded a b v : rounded a → py_add a b = inr v → rounded v.
Proof.
  unfold py_add.
  destruct a; try done; destruct b; simpl; unfold float_of_int;
    repeat (destruct (_ <? float_overflow)%Z; simpl); try done;
    intros _ [= <-]; try done; apply round_float_idem.
Qed.

(** Adding the int [0] changes neither an int nor a rounded float. *)
Lemma py_add_rounded_0 acc : rounded acc → py_add acc (VInt 0) = inr acc.
Proof.
  destruct acc as [| |a|p| | |]; try done; simpl; intros Hp.
  - unfold py_add; simpl. by rewrite Z.add_0_r.
  - unfold py_add; simpl. unfold float_add. do 2 f_equal.
    rewrite <- Hp at 2. apply round_float_comp.
    change (round_float (inject_Z 0)) with 0. ring.
Qed.

Lemma py_add_0_float x : py_add (VInt 0) (VFloat x) = inr (VFloat (float_add 0 x)).
Proof. reflexivity. Qed.



(** When [sum] returns, every confidence was a number. *)
Lemma py_sum_from_inv acc l v :
  rounded acc →
  py_sum_from acc (λ r, py_getitem r "confidence") l = inr v →
  Forall (λ r, ∃ c, r !! "confidence" = Some c ∧ is_Some (as_num c)) l.
Proof.
  revert acc. induction l as [|r l IH]; intros acc Hacc; simpl; [by constructor|].
  unfold py_getitem. destruct (r !! "confidence") as [c|] eqn:Hc; [simpl|done].
  destruct (py_add acc c) as [e|acc'] eqn:Hadd; [done|simpl].
  intros Hsum. constructor.
  - exists c. split; [done|]. by eapply py_add_rounded_inv.
  - eapply IH; [|done]. by eapply py_add_rounded.
Qed.

(** When every record has a confidence, the only errors [sum] can raise are
    [TypeError] and [OverflowError]. *)
Lemma py_sum_from_error acc l e :
  Forall (λ r, populated r "confidence") l →
  py_sum_from acc (λ r, py_getitem r "confidence") l = inl e →
  exn_class e = "TypeError" ∨ exn_class e = "OverflowError".
Proof.
  intros Hl. revert acc.
  induction Hl as [|r l [c Hc] _ IH]; intros acc; simpl; [done|].
  unfold py_getitem. rewrite Hc; simpl.
  destruct (py_add acc c) as [e'|acc'] eqn:Hadd; simpl.
  - intros [= <-]. by eapply py_add_error.
  - apply IH.
Qed.

(** A record whose confidence is the int [0] adds nothing to the sum. *)
Lemma py_sum_from_skip acc l1 r l2 :
  rounded acc →
  r !! "confidence" = Some (VInt 0) →
  py_sum_from acc (λ r, py_getitem r "confidence") (l1 ++ r :: l2)
  = py_sum_from acc (λ r, py_getitem r "confidence") (l1 ++ l2).
Proof.
  intros Hacc Hr. revert acc Hacc.
  induction l1 as [|r1 l1 IH]; intros acc Hacc; simpl.
  - unfold py_getitem at 1. rewrite Hr; simpl.
    by rewrite (py_add_rounded_0 acc Hacc).
  - destruct (py_getitem r1 "confidence") as [e|c]; [done|simpl].
    destruct (py_add acc c) as [e|acc'] eqn:Hadd; [done|simpl].
    apply IH. by eapply py_add_rounded.
Qed.

(** [sum] over confidences that are floats or the int [0] does not raise. *)
Lemma py_sum_from_float_or_0 acc l :
  acc = VInt 0 ∨ (∃ x, acc = VFloat x) →
  Forall (λ r, ∃ c, r !! "confidence" = Some c ∧
               (c = VInt 0 ∨ ∃ x, c = VFloat x)) l →
  ∃ v, py_sum_from acc (λ r, py_getitem r "confidence") l = inr v ∧
       (v = VInt 0 ∨ ∃ x, v = VFloat x).
Proof.
  intros Hacc Hl. revert acc Hacc.
  induction Hl as [|r l (c & Hc & Hkind) _ IH]; intros acc Hacc; simpl.
  - by exists acc.
  - unfold py_getitem. rewrite Hc; simpl.
    assert (∃ acc', py_add acc c = inr acc' ∧
                    (acc' = VInt 0 ∨ ∃ x, acc' = VFloat x)) as (acc' & -> & Hacc').
    { destruct Hacc as [->|[x ->]], Hkind as [->|[y ->]].
      - exists (VInt 0). by split; [|left].
      - eexists. split; [apply py_add_0_float|]. right. by eexists.
      - eexists. split; [reflexivity|]. right. by eexists.
      - eexists. split; [reflexivity|]. right. by eexists. }
    simpl. by apply IH.
Qed.

(** Dividing a float by the length of a list: when it returns, the list is
    not empty and the quotient is the rounded one. *)
Lemma py_truediv_float_len_inv {A} x (l : list A) v :
  py_truediv (VFloat x) (py_len l) = inr v →
  l ≠ [] ∧
  v = VFloat (float_div x (round_float (inject_Z (Z.of_nat (length l))))).
Proof.
  unfold py_truediv, py_len; simpl. unfold float_of_int.
  destruct (Z.abs _ <? float_overflow)%Z; [simpl|done].
  destruct (Qeq_bool _ 0) eqn:Hz; [done|]. intros [= <-].
  split; [|done]. intros ->. by vm_compute in Hz.
Qed.

(** It returns for every list that is not empty. *)
Lemma py_truediv_float_len {A} x (l : list A) :
  l ≠ [] → (Z.of_nat (length l) <= sys_maxsize)%Z →
  py_truediv (VFloat x) (py_len l)
  = inr (VFloat (float_div x (round_float (inject_Z (Z.of_nat (length l)))))).
Proof.
  intros Hne Hlen. unfold py_truediv, py_len; simpl.
  rewrite float_of_int_fits by lia. simpl.
  destruct (Qeq_bool _ 0) eqn:Hz; [|done].
  apply Qeq_bool_eq in Hz.
  assert (1 <= round_float (inject_Z (Z.of_nat (length l)))) as Hpos.
  { apply round_float_int_pos. destruct l; [done|]. simpl length. lia. }
  lra.
Qed.

(** Dividing a count by the length of a list that is not shorter. *)
Lemma py_truediv_count_len {A} (k : nat) (l : list A) :
  l ≠ [] → (k <= length l)%nat →
  ∃ rate,
    py_truediv (VInt (Z.of_nat k)) (py_len l) = inr (VFloat rate) ∧
    rate = round_float (inject_Z (Z.of_nat k) / inject_Z (Z.of_nat (length l))) ∧
    0 <= rate ∧ rate <= 1.
Proof.
  intros Hne Hk.
  assert (0 < length l)%nat as Hlen by (destruct l; [done|simpl; lia]).
  set (q := inject_Z (Z.of_nat k) / inject_Z (Z.of_nat (length l))).
  assert (0 < inject_Z (Z.of_nat (length l))) as Hn.
  { change 0 with (inject_Z 0). rewrite <- Zlt_Qlt. lia. }
  assert (0 <= q ∧ q <= 1) as [H0 H1].
  { split.
    - apply Qle_shift_div_l; [done|]. rewrite Qmult_0_l.
      change 0 with (inject_Z 0). rewrite <- Zle_Qle. lia.
    - apply Qle_shift_div_r; [done|]. rewrite Qmult_1_l.
      rewrite <- Zle_Qle. lia. }
  destruct (round_float_unit q H0 H1) as [Hr0 Hr1].
  exists (round_float q). repeat split; try done.
  unfold py_truediv, py_len; simpl.
  destruct (Z.eqb_spec (Z.of_nat (length l)) 0) as [Hz|_]; [lia|].
  fold q. destruct (Qle_bool (pow2 1024) (Qabs (round_float q))) eqn:Hbig; [|done].
  apply Qle_bool_iff in Hbig. rewrite Qabs_pos in Hbig by done.
  assert (1 < pow2 1024) by (by apply Qpower_1_lt). lra.
Qed.

(** The comprehension [[r for r in results if r['success']]]. *)
Lemma py_filter_success l :
  Forall (λ r, populated r "success") l →
  py_filter (λ r, py_getitem r "success") l = inr (List.filter is_successful l).
Proof.
  induction 1 as [|r l [b Hb] _ IH]; simpl; [done|].
  rewrite IH. unfold py_getitem, is_successful. rewrite Hb. simpl.
  by destruct (truthy b).
Qed.

End Arithmetic.

(** ** The two loops *)

Section Facts.

Context {W : Type}.
Variable time_time : W → Q * W.
Variable query_documents : string → W → result value * W.
Variable print_progress : nat → nat → string → W → W.

(** In this section every progress line of [batch_queries] is printed. *)
Local Abbreviation batch_queries :=
  (batch_queries query_documents (printed print_progress)).
Local Abbreviation batch_queries_body :=
  (batch_queries_body query_documents (printed print_progress)).
Local Abbreviation batch_step := (batch_step query_documents print_progress).
Local Abbreviation batch_world := (batch_world query_documents print_progress).
Local Abbreviation batch_call := (batch_call query_documents print_progress).
Local Abbreviation analyze_performance := (analyze_performance time_time query_documents).
Local Abbreviation analyze_performance_loop := (analyze_performance_loop time_time query_documents).
Local Abbreviation analyze_performance_body := (analyze_performance_body time_time query_documents).
Local Abbreviation timed_step := (timed_step time_time query_documents).
Local Abbreviation timed_world := (timed_world time_time query_documents).
Local Abbreviation timed_call := (timed_call time_time query_documents).

Implicit Types (queries : list string) (query : string) (w : W) (r : pydict).

Lemma batch_queries_body_step (n : nat) (iq : nat * string) (acc : list pydict) w :
  batch_queries_body n iq acc w
  = (inr (acc ++ [(batch_step n iq w).1]), (batch_step n iq w).2).
Proof.
  destruct iq as [i query].
  unfold batch_queries_body, batch_step, batch_record,
    bind, try_except, printed, effect, lift, ret; simpl.
  destruct (query_documents query (print_progress i n query w)) as [[e|result] w1];
    simpl; [done|].
  destruct (py_get result "Decision" VNone) as [e|decision]; simpl; [done|].
  by destruct (py_get result "ConfidenceScore" VNone) as [e|confidence].
Qed.

Lemma analyze_performance_body_step query (acc : list pydict) w :
  analyze_performance_body query acc w
  = (inr (acc ++ [(timed_step query w).1]), (timed_step query w).2).
Proof.
  unfold analyze_performance_body, timed_step,
    bind, try_except, now, lift, ret; simpl.
  destruct (time_time w) as [query_start w1].
  destruct (query_documents query w1) as [[e|result] w2]; simpl.
  - by destruct (time_time w2) as [t w3].
  - destruct (time_time w2) as [t w3].
    destruct (py_get result "Decision" VNone) as [e|decision]; simpl.
    + by destruct (time_time w3) as [t' w4].
    + destruct (py_get result "ConfidenceScore" (VInt 0)) as [e|confidence];
        simpl; [|done].
      by destruct (time_time w3) as [t' w4].
Qed.

Lemma batch_queries_run queries w :
  batch_queries queries w
  = (inr (run_steps (batch_step (length queries)) (enumerate 1 queries) w).1,
     (run_steps (batch_step (length queries)) (enumerate 1 queries) w).2).
Proof.
  unfold batch_queries.
  by rewrite (for_each_run _ _ (batch_queries_body_step (length queries))).
Qed.

Lemma analyze_performance_loop_run queries w :
  analyze_performance_loop queries w
  = (inr (run_steps timed_step queries w).1, (run_steps timed_step queries w).2).
Proof.
  unfold analyze_performance_loop.
  by rewrite (for_each_run _ _ analyze_performance_body_step).
Qed.

Lemma batch_world_run queries (i : nat) w :
  batch_world queries i w
  = (run_steps (batch_step (length queries)) (take i (enumerate 1 queries)) w).2.
Proof.
  unfold batch_world.
  by rewrite (for_each_run _ _ (batch_queries_body_step (length queries))).
Qed.

Lemma timed_world_run queries (i : nat) w :
  timed_world queries i w = (run_steps timed_step (take i queries) w).2.
Proof. unfold timed_world. by rewrite analyze_performance_loop_run. Qed.

(** Every record is built by one of the two constructors of its loop. *)
Lemma batch_step_cases (n : nat) (iq : nat * string) w :
  (∃ decision confidence,
      (batch_step n iq w).1 = batch_success iq.2 decision confidence) ∨
  (∃ e, (batch_step n iq w).1 = batch_failure iq.2 e).
Proof.
  unfold batch_step, batch_record.
  destruct (query_documents iq.2 (print_progress iq.1 n iq.2 w)) as [[e|result] w1];
    simpl; [by right; eexists|].
  destruct (py_get result "Decision" VNone) as [e|decision];
    simpl; [by right; eexists|].
  destruct (py_get result "ConfidenceScore" VNone) as [e|confidence];
    simpl; [by right; eexists|].
  left. by do 2 eexists.
Qed.

Lemma timed_step_cases query w :
  (∃ decision confidence t,
      (timed_step query w).1 = timed_success query decision confidence t) ∨
  (∃ e t, (timed_step query w).1 = timed_failure query e t).
Proof.
  unfold timed_step.
  destruct (time_time w) as [query_start w1].
  destruct (query_documents query w1) as [[e|result] w2];
    destruct (time_time w2) as [t w3]; [by right; do 2 eexists|].
  destruct (py_get result "Decision" VNone) as [e|decision]; simpl.
  { destruct (time_time w3) as [t' w4]. by right; do 2 eexists. }
  destruct (py_get result "ConfidenceScore" (VInt 0)) as [e|confidence]; simpl.
  { destruct (time_time w3) as [t' w4]. by right; do 2 eexists. }
  left. by do 3 eexists.
Qed.

Lemma batch_step_query (n : nat) (iq : nat * string) w :
  (batch_step n iq w).1 !! "query" = Some (VStr iq.2).
Proof.
  destruct (batch_step_cases n iq w) as [(d & c & ->)|(e & ->)]; done.
Qed.

Lemma timed_step_query query w :
  (timed_step query w).1 !! "query" = Some (VStr query).
Proof.
  destruct (timed_step_cases query w) as [(d & c & t & ->)|(e & t & ->)]; done.
Qed.

(** The loop of [batch_queries] ends normally with one record per query,
    in order. *)
Lemma batch_queries_outcomes queries w :
  ∃ results w',
    batch_queries queries w = (inr results, w') ∧
    length results = length queries ∧
    ∀ i query, queries !! i = Some query →
      ∃ r, results !! i = Some r ∧ r !! "query" = Some (VStr query).
Proof.
  do 2 eexists. split; [apply batch_queries_run|]. split.
  - by rewrite run_steps_length, enumerate_length.
  - intros i query Hi. eexists. split.
    + apply run_steps_lookup. rewrite enumerate_lookup, Hi. done.
    + apply batch_step_query.
Qed.

(** So does the loop of [analyze_performance]. *)
Lemma analyze_performance_loop_outcomes queries w :
  ∃ results w',
    analyze_performance_loop queries w = (inr results, w') ∧
    length results = length queries ∧
    ∀ i query, queries !! i = Some query →
      ∃ r, results !! i = Some r ∧ r !! "query" = Some (VStr query).
Proof.
  do 2 eexists. split; [apply analyze_performance_loop_run|]. split.
  - by rewrite run_steps_length.
  - intros i query Hi. eexists. split.
    + by apply run_steps_lookup.
    + apply timed_step_query.
Qed.

(** ** The summary *)

Lemma timed_results_success queries w :
  Forall (λ r, populated r "success") (run_steps timed_step queries w).1.
Proof.
  apply run_steps_Forall. intros query w0.
  destruct (timed_step_cases query w0) as [(d & c & t & ->)|(e & t & ->)];
    by eexists.
Qed.

Lemma filter_partition_length {A} (f : A → bool) (l : list A) :
  length (List.filter f l) + length (List.filter (λ x, negb (f x)) l) = length l.
Proof. induction l as [|x l IH]; simpl; [done|]. destruct (f x); simpl; lia. Qed.

Lemma timed_successes_length queries w :
  (length (List.filter is_successful (run_steps timed_step queries w).1)
   ≤ length queries)%nat.
Proof.
  pose proof (filter_partition_length is_successful
                (run_steps timed_step queries w).1) as H.
  rewrite run_steps_length in H. lia.
Qed.

(** [analyze_performance], with the loop replaced by its iterations. *)
Lemma analyze_performance_eq queries w :
  analyze_performance queries w =
  let results := (run_steps timed_step queries (time_time w).2).1 in
  let w2 := (run_steps timed_step queries (time_time w).2).2 in
  let total_time := VFloat (float_sub (time_time w2).1 (time_time w).1) in
  let successful_queries := List.filter is_successful results in
  (rbind (py_truediv total_time (py_len queries)) (λ average_time,
   rbind (py_truediv (py_len successful_queries) (py_len queries)) (λ success_rate,
   rbind (average_confidence successful_queries) (λ avg_confidence,
   inr (summary (py_len queries) (py_len successful_queries) total_time
          average_time success_rate avg_confidence (VList (VDict <$> results)))))),
   (time_time w2).2).
Proof.
  unfold analyze_performance, bind, now, lift, ret.
  destruct (time_time w) as [start_time w1]; simpl.
  rewrite analyze_performance_loop_run.
  pose proof (timed_results_success queries w1) as Hs.
  destruct (run_steps timed_step queries w1) as [results w2]; simpl in *.
  destruct (time_time w2) as [t w3]; simpl.
  rewrite (py_filter_success _ Hs).
  destruct (py_truediv (VFloat (float_sub t start_time)) (py_len queries));
    simpl; [done|].
  destruct (py_truediv _ (py_len queries)); simpl; [done|].
  by destruct (average_confidence _).
Qed.

(** What a returned summary holds: the total time is the float difference
    of the two clock readings around the loop, the average time is its
    float quotient by the number of queries, and the success rate is the
    float nearest to the quotient of the two counts. *)
Lemma analyze_performance_inr queries w s w' :
  analyze_performance queries w = (inr s, w') →
  let results := (run_steps timed_step queries (time_time w).2).1 in
  let w2 := (run_steps timed_step queries (time_time w).2).2 in
  let total := float_sub (time_time w2).1 (time_time w).1 in
  let successful_queries := List.filter is_successful results in
  let n := inject_Z (Z.of_nat (length queries)) in
  queries ≠ [] ∧
  ∃ avg_confidence,
    average_confidence successful_queries = inr avg_confidence ∧
    s = summary (py_len queries) (py_len successful_queries) (VFloat total)
          (VFloat (float_div total (round_float n)))
          (VFloat (round_float
                     (inject_Z (Z.of_nat (length successful_queries)) / n)))
          avg_confidence (VList (VDict <$> results)).
Proof.
  rewrite analyze_performance_eq. cbv zeta. intros Heq.
  destruct (py_truediv (VFloat _) (py_len queries)) as [e|average_time] eqn:Hdiv;
    [done|].
  apply py_truediv_float_len_inv in Hdiv as [Hne ->].
  split; [done|].
  destruct (py_truediv_count_len
              (length (List.filter is_successful
                         (run_steps timed_step queries (time_time w).2).1))
              queries Hne (timed_successes_length _ _))
    as (rate & Hrate & -> & _).
  unfold py_len at 1 in Heq. rewrite Hrate in Heq. simpl in Heq.
  destruct (average_confidence _) as [e|avg]; simpl in Heq; [done|].
  injection Heq as <- _. by eexists.
Qed.

(** [analyze_performance] returns a summary as soon as there is a query and
    the average of the confidences can be taken; the list of queries is one
    that Python can hold. *)
Lemma analyze_performance_returns_when queries w avg :
  queries ≠ [] →
  (Z.of_nat (length queries) <= sys_maxsize)%Z →
  average_confidence
    (List.filter is_successful (run_steps timed_step queries (time_time w).2).1)
  = inr avg →
  ∃ s w', analyze_performance queries w = (inr s, w') ∧
          s !! "average_confidence" = Some avg.
Proof.
  intros Hne Hlen Havg. rewrite analyze_performance_eq. cbv zeta.
  rewrite (py_truediv_float_len _ queries Hne Hlen). simpl.
  destruct (py_truediv_count_len
              (length (List.filter is_successful
                         (run_steps timed_step queries (time_time w).2).1))
              queries Hne (timed_successes_length _ _))
    as (rate & Hrate & _).
  unfold py_len at 1. rewrite Hrate. simpl. rewrite Havg. simpl.
  by do 2 eexists.
Qed.

(** C2: on the empty list of queries [analyze_performance] does not return a
    summary: after the two clock readings the division by [len(queries)]
    under ['average_time'] raises [ZeroDivisionError]. *)
Theorem C2_empty_batch_raises w :
  ∃ msg,
    analyze_performance [] w
    = (inl (ZeroDivisionError msg), (time_time (time_time w).2).2).
Proof.
  rewrite analyze_performance_eq. cbv zeta.
  assert (∀ x, py_truediv (VFloat x) (py_len (@nil string))
               = inl (ZeroDivisionError "float division by zero")) as ->
    by reflexivity.
  simpl. by eexists.
Qed.

(** A returned summary holds the records of the loop under ['results']. *)
Lemma returned_summary_results queries w s w' :
  analyze_performance queries w = (inr s, w') →
  ∃ results w2,
    analyze_performance_loop queries (time_time w).2 = (inr results, w2) ∧
    s !! "results" = Some (VList (VDict <$> results)).
Proof.
  intros (_ & avg & _ & ->)%analyze_performance_inr.
  do 2 eexists. split; [apply analyze_performance_loop_run | done].
Qed.

(** C10: whenever [analyze_performance] returns a summary, the summary holds
    under ['results'] the list of records built by the loop, one per query
    and in the order of the queries, next to the six aggregate fields. *)
Theorem C10_summary_carries_results queries w s w' :
  analyze_performance queries w = (inr s, w') →
  ∃ results w2,
    analyze_performance_loop queries (time_time w).2 = (inr results, w2) ∧
    s !! "results" = Some (VList (VDict <$> results)) ∧
    length results = length queries ∧
    (∀ i query, queries !! i = Some query →
       ∃ r, results !! i = Some r ∧ r !! "query" = Some (VStr query)) ∧
    Forall (λ key, is_Some (s !! key)) aggregate_keys.
Proof.
  intros (_ & avg & _ & ->)%analyze_performance_inr.
  destruct (analyze_performance_loop_outcomes queries (time_time w).2)
    as (results & w2 & Hloop & Hlen & Hquery).
  exists results, w2. rewrite analyze_performance_loop_run in Hloop.
  injection Hloop as <- <-. rewrite analyze_performance_loop_run.
  repeat split; try done.
  repeat constructor; by eexists.
Qed.

(** ** Time *)

(** C3 (amended): in a returned summary, ['total_time'] is the clock reading
    taken after the loop minus the reading taken before it, as floats
    subtract; ['average_time'] is ['total_time'] divided by
    ['total_queries'], the number of queries, which is not zero, as floats
    divide.  The ['response_time'] fields of the records do not enter. *)
Theorem C3_total_time_is_elapsed_wall_clock queries w s w' :
  analyze_performance queries w = (inr s, w') →
  ∃ results w2,
    analyze_performance_loop queries (time_time w).2 = (inr results, w2) ∧
    s !! "results" = Some (VList (VDict <$> results)) ∧
    let total := float_sub (time_time w2).1 (time_time w).1 in
    s !! "total_time" = Some (VFloat total) ∧
    s !! "total_queries" = Some (VInt (Z.of_nat (length queries))) ∧
    queries ≠ [] ∧
    s !! "average_time"
      = Some (VFloat (float_div total
                        (round_float (inject_Z (Z.of_nat (length queries)))))).
Proof.
  intros (Hne & avg & _ & ->)%analyze_performance_inr.
  do 2 eexists. split; [apply analyze_performance_loop_run|].
  by repeat split.
Qed.

(** ** Confidence *)

(** What the loop of [analyze_performance] appends when the call returns a
    dict. *)
Lemma timed_step_dict query w (d : pydict) :
  (query_documents query (time_time w).2).1 = inr (VDict d) →
  ∃ t, (timed_step query w).1
       = timed_success query (default VNone (d !! "Decision"))
           (default (VInt 0) (d !! "ConfidenceScore")) t.
Proof.
  unfold timed_step. destruct (time_time w) as [query_start w1]; simpl.
  destruct (query_documents query w1) as [res w2]; simpl. intros ->.
  destruct (time_time w2) as [t w3]; simpl. by eexists.
Qed.

(** What it appends when the call raises. *)
Lemma timed_step_raise query w e :
  (query_documents query (time_time w).2).1 = inl e →
  ∃ t, (timed_step query w).1 = timed_failure query e t.
Proof.
  unfold timed_step. destruct (time_time w) as [query_start w1]; simpl.
  destruct (query_documents query w1) as [res w2]; simpl. intros ->.
  destruct (time_time w2) as [t w3]; simpl. by eexists.
Qed.

Lemma timed_results_lookup queries w (i : nat) query :
  queries !! i = Some query →
  (run_steps timed_step queries w).1 !! i
  = Some (timed_step query (timed_world queries i w)).1.
Proof.
  intros Hi. rewrite timed_world_run. by apply run_steps_lookup.
Qed.

Lemma successful_have_confidence queries w :
  Forall (λ r, populated r "confidence")
    (List.filter is_successful (run_steps timed_step queries w).1).
Proof.
  apply Forall_forall. intros r Hr.
  apply list_elem_of_In in Hr. apply filter_In in Hr as [Hin Hs].
  rewrite <- list_elem_of_In in Hin.
  assert (Forall (λ r, is_successful r = true → populated r "confidence")
            (run_steps timed_step queries w).1) as HF.
  { apply run_steps_Forall. intros query w0 Hs0.
    destruct (timed_step_cases query w0) as [(d & c & t & Hr)|(e & t & Hr)];
      rewrite Hr in *; [by eexists | done]. }
  rewrite Forall_forall in HF. by apply HF.
Qed.




(** Dividing a float by the length of a list that is not empty can only
    fail by overflow. *)
Lemma py_truediv_float_len_error {A} (x : Q) (l : list A) e :
  l ≠ [] → py_truediv (VFloat x) (py_len l) = inl e →
  exn_class e = "OverflowError".
Proof.
  intros Hne. unfold py_truediv, py_len; simpl. unfold float_of_int.
  destruct (Z.abs _ <? float_overflow)%Z; [simpl|by intros [= <-]].
  destruct (Qeq_bool _ 0) eqn:Hz; [|done].
  apply Qeq_bool_eq in Hz.
  assert (1 <= round_float (inject_Z (Z.of_nat (length l))))%Q as Hpos.
  { apply round_float_int_pos. destruct l; [done|]. simpl length. lia. }
  lra.
Qed.

(** C9: if some call returns a dict whose ['ConfidenceScore'] is present and
    [None], the loop still ends normally with one record per query (the
    record of that call being a success with confidence [None]), and
    [analyze_performance] then raises instead of returning a summary:
    [TypeError] from the sum, unless an [OverflowError] comes first (a
    confidence that is an int too large for a float). *)
Theorem C9_null_confidence_raises queries w (i : nat) query (d : pydict) :
  queries !! i = Some query →
  (timed_call queries i query (time_time w).2).1 = inr (VDict d) →
  d !! "ConfidenceScore" = Some VNone →
  ∃ results w2 t e w',
    analyze_performance_loop queries (time_time w).2 = (inr results, w2) ∧
    length results = length queries ∧
    results !! i
      = Some (timed_success query (default VNone (d !! "Decision")) VNone t) ∧
    analyze_performance queries w = (inl e, w') ∧
    (exn_class e = "TypeError" ∨ exn_class e = "OverflowError").
Proof.
  intros Hi Hcall Hnull. unfold timed_call in Hcall.
  destruct (timed_step_dict _ _ _ Hcall) as (t & Hstep).
  rewrite Hnull in Hstep; simpl in Hstep.
  pose proof (timed_results_lookup queries (time_time w).2 i query Hi) as Hr.
  rewrite Hstep in Hr.
  pose proof (successful_have_confidence queries (time_time w).2) as Hpop.
  pose proof (timed_successes_length queries (time_time w).2) as Hle.
  assert (queries ≠ []) as Hne by (by destruct queries).
  rewrite analyze_performance_loop_run, analyze_performance_eq. cbv zeta.
  set (results := (run_steps timed_step queries (time_time w).2).1) in *.
  exists results. eexists. exists t.
  assert (length results = length queries) as Hlen by apply run_steps_length.
  destruct (py_truediv (VFloat _) (py_len queries)) as [e|average_time] eqn:Hdiv.
  { exists e. eexists. repeat split; try done.
    right. by eapply py_truediv_float_len_error. }
  destruct (py_truediv_count_len (length (List.filter is_successful results))
              queries Hne Hle) as (rate & Hrate & _).
  unfold py_len at 1. rewrite Hrate. cbn [rbind].
  set (r0 := timed_success query (default VNone (d !! "Decision")) VNone t) in *.
  assert (In r0 (List.filter is_successful results)) as Hin.
  { apply filter_In. split; [|done].
    apply list_elem_of_In, list_elem_of_lookup. by exists i. }
  unfold average_confidence.
  destruct (List.filter is_successful results) as [|r l] eqn:Hl; [done|].
  destruct (py_sum _ (r :: l)) as [e|total] eqn:Hsum; cbn [rbind].
  - exists e. eexists. repeat split; try done.
    by apply (py_sum_from_error (VInt 0) (r :: l)).
  - apply (py_sum_from_inv (VInt 0)) in Hsum; [|done].
    rewrite Forall_forall in Hsum.
    apply list_elem_of_In in Hin.
    destruct (Hsum r0 Hin) as (c & Hc & Hnum).
    assert (c = VNone) as -> by (unfold r0 in Hc; by injection Hc).
    by destruct Hnum.
Qed.

(** ** Failures *)

Lemma batch_results_lookup queries w (i : nat) query :
  queries !! i = Some query →
  (run_steps (batch_step (length queries)) (enumerate 1 queries) w).1 !! i
  = Some (batch_step (length queries) (S i, query) (batch_world queries i w)).1.
Proof.
  intros Hi. rewrite batch_world_run.
  apply (run_steps_lookup _ _ _ _ (S i, query)).
  by rewrite enumerate_lookup, Hi.
Qed.

Lemma batch_step_raise (n : nat) (iq : nat * string) w e :
  (query_documents iq.2 (print_progress iq.1 n iq.2 w)).1 = inl e →
  (batch_step n iq w).1 = batch_failure iq.2 e.
Proof.
  unfold batch_step.
  destruct (query_documents iq.2 (print_progress iq.1 n iq.2 w)) as [res w1].
  simpl. by intros ->.
Qed.

Lemma batch_step_dict (n : nat) (iq : nat * string) w (d : pydict) :
  (query_documents iq.2 (print_progress iq.1 n iq.2 w)).1 = inr (VDict d) →
  (batch_step n iq w).1
  = batch_success iq.2 (default VNone (d !! "Decision"))
      (default VNone (d !! "ConfidenceScore")).
Proof.
  unfold batch_step.
  destruct (query_documents iq.2 (print_progress iq.1 n iq.2 w)) as [res w1].
  simpl. by intros ->.
Qed.

(** An answer that is not a dict is recorded as a failure too. *)
Lemma timed_step_not_dict query w v :
  (query_documents query (time_time w).2).1 = inr v →
  (∀ d, v ≠ VDict d) →
  ∃ e t, (timed_step query w).1 = timed_failure query e t.
Proof.
  unfold timed_step. destruct (time_time w) as [query_start w1]; simpl.
  destruct (query_documents query w1) as [res w2]; simpl. intros -> Hv.
  destruct (time_time w2) as [t w3]; simpl.
  destruct v as [| | | | | |d]; [| | | | | |by destruct (Hv d)];
    simpl; destruct (time_time w3); do 2 eexists; reflexivity.
Qed.

(** C4 (amended): every record of [batch_queries] and of the loop of
    [analyze_performance] has either the success fields (decision and
    confidence) or the error field populated, never both and never neither;
    the records of [analyze_performance] carry a ['response_time'], for
    successes and failures alike; the records of [batch_queries] carry
    none. *)
Theorem C4_record_fields queries w :
  (∃ results w',
      batch_queries queries w = (inr results, w') ∧
      Forall (λ r, exactly_one_populated r ∧ ¬ populated r "response_time")
        results) ∧
  (∃ results w',
      analyze_performance_loop queries w = (inr results, w') ∧
      Forall (λ r, exactly_one_populated r ∧
                   ∃ t, r !! "response_time" = Some (VFloat t)) results).
Proof.
  split.
  - do 2 eexists. split; [apply batch_queries_run|].
    apply run_steps_Forall. intros iq w0.
    destruct (batch_step_cases (length queries) iq w0) as [(d & c & ->)|(e & ->)].
    + split; [apply exactly_one_success; by try eexists | by intros [? ?]].
    + split; [apply exactly_one_failure; by try eexists | by intros [? ?]].
  - do 2 eexists. split; [apply analyze_performance_loop_run|].
    apply run_steps_Forall. intros query w0.
    destruct (timed_step_cases query w0) as [(d & c & t & ->)|(e & t & ->)].
    + split; [apply exactly_one_success; by try eexists | by eexists].
    + split; [apply exactly_one_failure; by try eexists | by eexists].
Qed.

(** The conditional expression under ['average_confidence'] does not raise
    on confidences that are floats or the int [0]. *)
Lemma average_confidence_float_or_0 (l : list pydict) :
  Forall (λ r, ∃ c, r !! "confidence" = Some c ∧ float_or_0 c) l →
  (Z.of_nat (length l) <= sys_maxsize)%Z →
  ∃ avg, average_confidence l = inr avg.
Proof.
  intros Hl Hlen. destruct l as [|r l]; [by eexists|].
  unfold average_confidence, py_sum.
  destruct (py_sum_from_float_or_0 (VInt 0) (r :: l)) as (v & -> & Hv);
    [by left|done|].
  cbn [rbind]. destruct Hv as [->|[x ->]].
  - destruct (py_truediv_count_len 0 (r :: l)) as (rate & Hrate & _);
      [done|simpl; lia|].
    eexists. exact Hrate.
  - rewrite py_truediv_float_len by done. by eexists.
Qed.

(** Each record comes from the query at its index. *)
Lemma timed_results_origin queries w (i : nat) r :
  (run_steps timed_step queries w).1 !! i = Some r →
  ∃ query, queries !! i = Some query ∧
           r = (timed_step query (timed_world queries i w)).1.
Proof.
  intros Hr.
  assert (i < length queries) as Hi.
  { rewrite <- (run_steps_length timed_step queries w). by eapply lookup_lt_Some. }
  destruct (lookup_lt_is_Some_2 queries i Hi) as [query Hq].
  exists query. split; [done|].
  rewrite (timed_results_lookup queries w i query Hq) in Hr. by injection Hr.
Qed.

(** A call that raises is recorded as a failure, and the loop goes on. *)
Lemma batch_failures_recorded queries w :
  ∃ results w',
    batch_queries queries w = (inr results, w') ∧
    length results = length queries ∧
    ∀ i query e, queries !! i = Some query →
      (batch_call queries i query w).1 = inl e →
      ∃ r, results !! i = Some r ∧ is_failure_of query e r ∧
           r !! "response_time" = None.
Proof.
  do 2 eexists. split; [apply batch_queries_run|]. split.
  - by rewrite run_steps_length, enumerate_length.
  - intros i query e Hi He. exists (batch_failure query e).
    split; [|by repeat split].
    rewrite (batch_results_lookup queries w i query Hi). f_equal.
    by apply (batch_step_raise (length queries) (S i, query)).
Qed.

Lemma timed_failures_recorded queries w :
  ∃ results w',
    analyze_performance_loop queries w = (inr results, w') ∧
    length results = length queries ∧
    ∀ i query e, queries !! i = Some query →
      (timed_call queries i query w).1 = inl e →
      ∃ r t, results !! i = Some r ∧ is_failure_of query e r ∧
             r !! "response_time" = Some (VFloat t).
Proof.
  do 2 eexists. split; [apply analyze_performance_loop_run|]. split.
  - by rewrite run_steps_length.
  - intros i query e Hi He.
    destruct (timed_step_raise _ _ _ He) as [t Ht].
    exists (timed_failure query e t), t. split; [|by repeat split].
    by rewrite (timed_results_lookup queries w i query Hi), Ht.
Qed.

(** [analyze_performance] returns its summary, however many calls raise,
    when every call that returns a dict gives a float as its confidence or
    none at all. *)
Lemma analyze_performance_returns queries w :
  queries ≠ [] →
  (Z.of_nat (length queries) <= sys_maxsize)%Z →
  (∀ i query (d : pydict), queries !! i = Some query →
     (timed_call queries i query (time_time w).2).1 = inr (VDict d) →
     float_or_0 (default (VInt 0) (d !! "ConfidenceScore"))) →
  ∃ s w', analyze_performance queries w = (inr s, w').
Proof.
  intros Hne Hlen Hnum.
  pose proof (timed_successes_length queries (time_time w).2) as Hle.
  destruct (average_confidence_float_or_0
              (List.filter is_successful
                 (run_steps timed_step queries (time_time w).2).1))
    as [avg Havg]; [|lia|].
  { apply Forall_forall. intros r Hr.
    apply list_elem_of_In in Hr. apply filter_In in Hr as [Hin Hs].
    apply list_elem_of_In, list_elem_of_lookup in Hin as [i Hi].
    apply timed_results_origin in Hi as (query & Hq & ->).
    specialize (Hnum i query). unfold timed_call in Hnum.
    destruct (query_documents query
                (time_time (timed_world queries i (time_time w).2)).2).1
      as [e|v] eqn:Hcall.
    + destruct (timed_step_raise _ _ _ Hcall) as [t Ht]. by rewrite Ht in Hs.
    + destruct (dict_or_not v) as [[d ->]|Hv].
      * destruct (timed_step_dict _ _ _ Hcall) as [t Ht]. rewrite Ht.
        eexists. split; [done|]. by apply Hnum.
      * destruct (timed_step_not_dict _ _ _ Hcall Hv) as (e & t & Ht).
        by rewrite Ht in Hs. }
  destruct (analyze_performance_returns_when queries w avg Hne Hlen Havg)
    as (s & w' & Hrun & _).
  by exists s, w'.
Qed.

Lemma filter_none {A} (f : A → bool) (l : list A) :
  (∀ i x, l !! i = Some x → f x = false) → List.filter f l = [].
Proof.
  induction l as [|x l IH]; intros Hf; simpl; [done|].
  rewrite (Hf 0 x eq_refl). apply IH. intros i y Hy. by apply (Hf (S i)).
Qed.

(** C7 (amended): when every call of a non-empty batch raises, every record
    has ['success'] false and, under ['error'], the text [str(e)] of the
    error its call raised (an empty text stays empty); the summary of
    [analyze_performance] counts no successful query, and its success rate
    and average confidence are [0].  (The batch is a list that Python can
    hold, of at most [sys.maxsize] queries: its length converts to a
    float.) *)
Theorem C7_all_calls_raise queries w :
  queries ≠ [] →
  ((∀ i query, queries !! i = Some query →
      ∃ e, (batch_call queries i query w).1 = inl e) →
   ∃ results w',
     batch_queries queries w = (inr results, w') ∧
     length results = length queries ∧
     ∀ i query, queries !! i = Some query →
       ∃ e r, (batch_call queries i query w).1 = inl e ∧
              results !! i = Some r ∧
              r !! "success" = Some (VBool false) ∧
              r !! "error" = Some (VStr (str_exn e))) ∧
  ((∀ i query, queries !! i = Some query →
      ∃ e, (timed_call queries i query (time_time w).2).1 = inl e) →
   (Z.of_nat (length queries) <= sys_maxsize)%Z →
   ∃ s w' results,
     analyze_performance queries w = (inr s, w') ∧
     s !! "results" = Some (VList (VDict <$> results)) ∧
     length results = length queries ∧
     (∀ i query, queries !! i = Some query →
        ∃ e r, (timed_call queries i query (time_time w).2).1 = inl e ∧
               results !! i = Some r ∧
               r !! "success" = Some (VBool false) ∧
               r !! "error" = Some (VStr (str_exn e))) ∧
     s !! "successful_queries" = Some (VInt 0) ∧
     (∃ rate, s !! "success_rate" = Some (VFloat rate) ∧ (rate == 0)%Q) ∧
     s !! "average_confidence" = Some (VInt 0)).
Proof.
  intros Hne. split.
  - intros Hraise. do 2 eexists. split; [apply batch_queries_run|]. split.
    + by rewrite run_steps_length, enumerate_length.
    + intros i query Hi. destruct (Hraise i query Hi) as [e He].
      exists e, (batch_failure query e). repeat split; [done| |done..].
      rewrite (batch_results_lookup queries w i query Hi). f_equal.
      by apply (batch_step_raise (length queries) (S i, query)).
  - intros Hraise Hlen.
    assert (List.filter is_successful
              (run_steps timed_step queries (time_time w).2).1 = []) as Hnone.
    { apply filter_none. intros i r (query & Hq & ->)%timed_results_origin.
      destruct (Hraise i query Hq) as [e He].
      destruct (timed_step_raise _ _ _ He) as [t ->]. done. }
    destruct (analyze_performance_returns_when queries w (VInt 0) Hne Hlen)
      as (s & w' & Hrun & _); [by rewrite Hnone|].
    exists s, w', (run_steps timed_step queries (time_time w).2).1.
    split; [done|].
    apply analyze_performance_inr in Hrun as (_ & avg & Havg & ->).
    rewrite Hnone in *. injection Havg as <-.
    repeat split; try done.
    + apply run_steps_length.
    + intros i query Hi. destruct (Hraise i query Hi) as [e He].
      destruct (timed_step_raise _ _ _ He) as [t Ht].
      exists e, (timed_failure query e t). repeat split; [done| |done..].
      by rewrite (timed_results_lookup queries _ i query Hi), Ht.
    + eexists. split; [done|]. simpl length.
      rewrite (round_float_comp _ 0%Q); [done|].
      unfold Qdiv. by rewrite Qmult_0_l.
Qed.

(** The successful records, with the record at index [i] set apart. *)
Lemma filter_successful_middle (results : list pydict) (i : nat) r :
  results !! i = Some r → is_successful r = true →
  List.filter is_successful results
  = List.filter is_successful (take i results)
    ++ r :: List.filter is_successful (drop (S i) results) ∧
  List.filter is_successful (delete i results)
  = List.filter is_successful (take i results)
    ++ List.filter is_successful (drop (S i) results).
Proof.
  intros Hi Hr. split.
  - rewrite <- (take_drop_middle results i r Hi) at 1.
    rewrite List.filter_app. simpl. by rewrite Hr.
  - by rewrite delete_take_drop, List.filter_app.
Qed.

(** C8: when a call returns a dict without ['ConfidenceScore'],
    [analyze_performance] records the query as a success with the
    confidence [0], the int, whereas [batch_queries] records the confidence
    [None] for the same answer.  In a returned summary that record adds
    nothing to the sum of the confidences, which is the sum over the other
    successful records, and it counts in the number the sum is divided by:
    ['average_confidence'] is the sum of the others divided by the number
    of all successful records. *)
Theorem C8_missing_confidence_defaults queries w (i : nat) query (d : pydict) :
  queries !! i = Some query →
  d !! "ConfidenceScore" = None →
  ((timed_call queries i query w).1 = inr (VDict d) →
   ∃ results w' r,
     analyze_performance_loop queries w = (inr results, w') ∧
     results !! i = Some r ∧
     r !! "query" = Some (VStr query) ∧
     r !! "success" = Some (VBool true) ∧
     r !! "confidence" = Some (VInt 0)) ∧
  ((batch_call queries i query w).1 = inr (VDict d) →
   ∃ results w' r,
     batch_queries queries w = (inr results, w') ∧
     results !! i = Some r ∧
     r !! "query" = Some (VStr query) ∧
     r !! "success" = Some (VBool true) ∧
     r !! "confidence" = Some VNone) ∧
  (∀ s w',
     (timed_call queries i query (time_time w).2).1 = inr (VDict d) →
     analyze_performance queries w = (inr s, w') →
     ∃ results w2 r total average,
       analyze_performance_loop queries (time_time w).2 = (inr results, w2) ∧
       results !! i = Some r ∧
       r !! "success" = Some (VBool true) ∧
       r !! "confidence" = Some (VInt 0) ∧
       py_sum (λ r, py_getitem r "confidence")
         (List.filter is_successful (delete i results)) = inr total ∧
       length (List.filter is_successful results)
       = S (length (List.filter is_successful (delete i results))) ∧
       py_truediv total (py_len (List.filter is_successful results))
       = inr average ∧
       s !! "average_confidence" = Some average).
Proof.
  intros Hi Hd. split; [|split].
  - intros Hcall. destruct (timed_step_dict _ _ _ Hcall) as [t Ht].
    rewrite Hd in Ht; simpl in Ht.
    do 2 eexists.
    exists (timed_success query (default VNone (d !! "Decision")) (VInt 0) t).
    split; [apply analyze_performance_loop_run|].
    split; [by rewrite (timed_results_lookup queries w i query Hi), Ht|].
    by repeat split.
  - intros Hcall. do 2 eexists.
    exists (batch_success query (default VNone (d !! "Decision")) VNone).
    split; [apply batch_queries_run|]. split; [|by repeat split].
    rewrite (batch_results_lookup queries w i query Hi). f_equal.
    rewrite (batch_step_dict (length queries) (S i, query) _ d Hcall).
    by rewrite Hd.
  - intros s w' Hcall (Hne & avg & Havg & ->)%analyze_performance_inr.
    unfold timed_call in Hcall.
    destruct (timed_step_dict _ _ _ Hcall) as [t Ht].
    rewrite Hd in Ht; simpl in Ht.
    pose proof (timed_results_lookup queries (time_time w).2 i query Hi) as Hr.
    rewrite Ht in Hr.
    set (results := (run_steps timed_step queries (time_time w).2).1) in *.
    set (r := timed_success query (default VNone (d !! "Decision")) (VInt 0) t)
      in *.
    destruct (filter_successful_middle results i r Hr eq_refl) as [Hall Hothers].
    set (before := List.filter is_successful (take i results)) in *.
    set (after := List.filter is_successful (drop (S i) results)) in *.
    rewrite Hall in Havg. unfold average_confidence in Havg.
    assert (∃ r' l', before ++ r :: after = r' :: l') as (r' & l' & Hl)
      by (destruct before; by do 2 eexists).
    rewrite Hl in Havg. rewrite <- Hl in Havg.
    destruct (py_sum _ (before ++ r :: after)) as [e|total] eqn:Hsum; [done|].
    cbn [rbind] in Havg.
    unfold py_sum in Hsum. rewrite py_sum_from_skip in Hsum by done.
    exists results. eexists. exists r, total, avg.
    split; [apply analyze_performance_loop_run|].
    split; [done|]. split; [done|]. split; [done|].
    rewrite Hothers, Hall. split; [done|].
    split; [rewrite !length_app; simpl; lia|].
    by split.
Qed.

End Facts.

(** ** Progress lines that may fail

    [batch_queries] prints its progress line before the [try], so an error
    of the print is not caught: it ends the loop.  Here [print_progress] is
    any print, and [(print_progress i n query w).2] is the world it leaves,
    which is the world of the call when it does not raise. *)

Section Printing.

Context {W : Type}.
Variable time_time : W → Q * W.
Variable query_documents : string → W → result value * W.
Variable print_progress : nat → nat → string → @M W unit.

Local Abbreviation after_print :=
  (λ (i n : nat) (query : string) (w : W), (print_progress i n query w).2).
Local Abbreviation printed_body :=
  (batch_queries_body query_documents (printed after_print)).
Local Abbreviation printed_batch_queries :=
  (batch_queries query_documents (printed after_print)).
Local Abbreviation batch_queries_body :=
  (batch_queries_body query_documents print_progress).
Local Abbreviation batch_queries := (batch_queries query_documents print_progress).
Local Abbreviation batch_call := (batch_call query_documents after_print).
Local Abbreviation analyze_performance := (analyze_performance time_time query_documents).
Local Abbreviation analyze_performance_loop :=
  (analyze_performance_loop time_time query_documents).
Local Abbreviation timed_call := (timed_call time_time query_documents).

Implicit Types (queries : list string) (query : string) (w : W) (r : pydict).

Lemma for_each_cons {A S} (body : A → S → @M W S) (x : A) (l : list A) (acc : S) w :
  for_each body (x :: l) acc w
  = match body x acc w with
    | (inl e, w') => (inl e, w')
    | (inr acc', w') => for_each body l acc' w'
    end.
Proof. reflexivity. Qed.

(** An iteration raises what its print raises, and otherwise does what an
    iteration whose line is printed does. *)
Lemma batch_queries_body_print (n : nat) (iq : nat * string)
    (acc : list pydict) w :
  batch_queries_body n iq acc w
  = match (print_progress iq.1 n iq.2 w).1 with
    | inl e => (inl e, (print_progress iq.1 n iq.2 w).2)
    | inr _ => printed_body n iq acc w
    end.
Proof.
  destruct iq as [i query].
  unfold batch_queries_body, bind, printed, effect; simpl.
  by destruct (print_progress i n query w) as [[e|[]] w1].
Qed.

(** A run that returns is a run in which every line was printed. *)
Lemma for_each_batch_returned (n : nat) (l : list (nat * string))
    (acc results : list pydict) w w' :
  for_each (batch_queries_body n) l acc w = (inr results, w') →
  for_each (printed_body n) l acc w = (inr results, w').
Proof.
  revert acc w. induction l as [|iq l IH]; intros acc w; [done|].
  rewrite !for_each_cons, batch_queries_body_print.
  destruct (print_progress iq.1 n iq.2 w).1 as [e|u]; [done|].
  destruct (printed_body n iq acc w) as [[e|acc'] w1]; [done|]. apply IH.
Qed.

(** When no print raises, every run is such a run. *)
Lemma for_each_batch_printed (n : nat) (l : list (nat * string))
    (acc : list pydict) w :
  (∀ i n query w, (print_progress i n query w).1 = inr tt) →
  for_each (batch_queries_body n) l acc w = for_each (printed_body n) l acc w.
Proof.
  intros Hprint. revert acc w. induction l as [|iq l IH]; intros acc w; [done|].
  rewrite !for_each_cons, batch_queries_body_print, Hprint.
  destruct (printed_body n iq acc w) as [[e|acc'] w1]; [done|]. apply IH.
Qed.

(** C1: for every list of queries of length N (empty or not), and whatever
    the calls to the API do, the loop of [analyze_performance] ends normally
    with exactly N outcome records, the [i]-th record carrying the [i]-th
    query under ['query'].  So does [batch_queries] when no progress line
    fails to print; and whenever [batch_queries] returns, it returns such
    records. *)
Theorem C1_one_outcome_per_query_in_order queries w :
  ((∀ i n query w, (print_progress i n query w).1 = inr tt) →
   ∃ results w',
     batch_queries queries w = (inr results, w') ∧
     length results = length queries ∧
     ∀ i query, queries !! i = Some query →
       ∃ r, results !! i = Some r ∧ r !! "query" = Some (VStr query)) ∧
  (∀ results w',
     batch_queries queries w = (inr results, w') →
     length results = length queries ∧
     ∀ i query, queries !! i = Some query →
       ∃ r, results !! i = Some r ∧ r !! "query" = Some (VStr query)) ∧
  (∃ results w',
      analyze_performance_loop queries w = (inr results, w') ∧
      length results = length queries ∧
      ∀ i query, queries !! i = Some query →
        ∃ r, results !! i = Some r ∧ r !! "query" = Some (VStr query)).
Proof.
  split; [|split].
  - intros Hprint. unfold batch_queries.
    rewrite (for_each_batch_printed _ _ _ _ Hprint).
    apply (batch_queries_outcomes query_documents after_print).
  - intros results w' Hrun%for_each_batch_returned.
    destruct (batch_queries_outcomes query_documents after_print queries w)
      as (results' & w'' & Hrun' & Hout).
    unfold batch_queries in Hrun'. rewrite Hrun in Hrun'.
    by injection Hrun' as <- <-.
  - apply analyze_performance_loop_outcomes.
Qed.

(** C6: a call that raises does not end the batch.  In the loop of
    [analyze_performance], and in [batch_queries] when no progress line
    fails to print, there is one record per query, and when the [i]-th call
    raises [e] the [i]-th record holds the query, a false ['success'], the
    text [str(e)] under ['error'] and no success field (and, in
    [analyze_performance], a response time).  [analyze_performance] as a
    whole returns its summary, however many calls raise, when there is at
    least one query and every call that returns a dict gives a float as its
    confidence, or none. *)
Theorem C6_failures_recorded_batch_continues queries w :
  ((∀ i n query w, (print_progress i n query w).1 = inr tt) →
   ∃ results w',
     batch_queries queries w = (inr results, w') ∧
     length results = length queries ∧
     ∀ i query e, queries !! i = Some query →
       (batch_call queries i query w).1 = inl e →
       ∃ r, results !! i = Some r ∧ is_failure_of query e r ∧
            r !! "response_time" = None) ∧
  (∃ results w',
      analyze_performance_loop queries w = (inr results, w') ∧
      length results = length queries ∧
      ∀ i query e, queries !! i = Some query →
        (timed_call queries i query w).1 = inl e →
        ∃ r t, results !! i = Some r ∧ is_failure_of query e r ∧
               r !! "response_time" = Some (VFloat t)) ∧
  (queries ≠ [] →
   (Z.of_nat (length queries) <= sys_maxsize)%Z →
   (∀ i query (d : pydict), queries !! i = Some query →
      (timed_call queries i query (time_time w).2).1 = inr (VDict d) →
      float_or_0 (default (VInt 0) (d !! "ConfidenceScore"))) →
   ∃ s w' results,
     analyze_performance queries w = (inr s, w') ∧
     s !! "results" = Some (VList (VDict <$> results)) ∧
     length results = length queries).
Proof.
  split; [|split].
  - intros Hprint. unfold batch_queries.
    rewrite (for_each_batch_printed _ _ _ _ Hprint).
    apply (batch_failures_recorded query_documents after_print).
  - apply timed_failures_recorded.
  - intros Hne Hlen Hconf.
    destruct (analyze_performance_returns time_time query_documents queries w
                Hne Hlen Hconf) as (s & w' & Hrun).
    destruct (returned_summary_results _ _ _ _ _ _ Hrun)
      as (results & w2 & Hloop & Hres).
    exists s, w', results. split; [done|]. split; [done|].
    destruct (analyze_performance_loop_outcomes time_time query_documents
                queries (time_time w).2) as (results' & w2' & Hloop' & Hlen' & _).
    rewrite Hloop in Hloop'. by injection Hloop' as <- <-.
Qed.


End Printing.

(** * Concrete runs *)

Local Open Scope Q_scope.

Lemma returned_inr {A} (x : result A * Q) :
  Demo.returned x = true → ∃ a w, x = (inr a, w).
Proof.
  unfold Demo.returned. destruct x as [[e|a] w]; simpl; [discriminate|].
  intros _. by exists a, w.
Qed.

(** The clock of the demo world never runs backwards. *)
Lemma demo_reading (w : Q) :
  w <= (Demo.time_time w).1 ∧ (Demo.time_time w).1 <= (Demo.time_time w).2.
Proof. unfold Demo.time_time; simpl. rewrite Qred_correct. lra. Qed.

Lemma demo_calling (query : string) (w : Q) :
  w <= (Demo.query_documents query w).2.
Proof. unfold Demo.query_documents; simpl. rewrite Qred_correct. lra. Qed.

(** Queries A, B, C where B fails: success, failure, success; two
    successful queries out of three, and the average taken over A and C,
    which is the float of [0.6]. *)
Example mixed_batch_example :
  let run := Demo.analyze_performance ["A"; "zzz"; "C"] 0 in
  let loop := Demo.analyze_performance_loop ["A"; "zzz"; "C"] 0 in
  Demo.record_field loop 0 "success" = Some (VBool true) ∧
  Demo.record_field loop 1 "success" = Some (VBool false) ∧
  Demo.record_field loop 2 "success" = Some (VBool true) ∧
  Demo.summary_field run "successful_queries" = Some (VInt 2) ∧
  Demo.summary_field run "total_queries" = Some (VInt 3) ∧
  Demo.summary_field run "average_confidence" = Some (Demo.float (6 # 10)).
Proof. repeat split; vm_compute; reflexivity. Qed.


(** C3, counterexample: one successful query in the demo world.  The clock
    is read at 0, 1/8, 5/4 and 11/8: ['total_time'] is 11/8 while the only
    ['response_time'] is 9/8. *)
Lemma C3_counterexample :
  ∃ s w' results w2 t,
    Demo.analyze_performance ["A"] 0 = (inr s, w') ∧
    Demo.analyze_performance_loop ["A"] (Demo.time_time 0).2 = (inr results, w2) ∧
    s !! "results" = Some (VList (VDict <$> results)) ∧
    s !! "total_time" = Some (VFloat t) ∧
    t == 11 # 8 ∧
    total_response_time results == 9 # 8 ∧
    ¬ t == total_response_time results.
Proof.
  destruct (returned_inr (Demo.analyze_performance ["A"] 0)) as (s & w' & Hrun);
    [vm_compute; reflexivity|].
  destruct (returned_summary_results _ _ _ _ _ _ Hrun)
    as (results & w2 & Hloop & Hres).
  assert (Demo.summary_field (Demo.analyze_performance ["A"] 0) "total_time"
          = Some (VFloat (11 # 8))) as Htot by (vm_compute; reflexivity).
  assert (Demo.response_times
            (Demo.analyze_performance_loop ["A"] (Demo.time_time 0).2) == 9 # 8)
    as Hsum by (vm_compute; reflexivity).
  unfold Demo.summary_field in Htot. rewrite Hrun in Htot.
  unfold Demo.response_times, Demo.analyze_performance_loop in Hsum.
  rewrite Hloop in Hsum. simpl in Htot, Hsum.
  exists s, w', results, w2, (11 # 8).
  split; [exact Hrun|]. split; [exact Hloop|]. split; [exact Hres|].
  split; [exact Htot|]. split; [reflexivity|]. split; [exact Hsum|].
  rewrite Hsum. intros H. vm_compute in H. discriminate.
Qed.

(** C3, witness: a success and a failure. *)
Lemma C3_witness :
  ∃ s w',
    Demo.analyze_performance ["A"; "zzz"] 0 = (inr s, w') ∧
    ∃ results w2,
      analyze_performance_loop Demo.time_time Demo.query_documents
        ["A"; "zzz"] (Demo.time_time 0).2 = (inr results, w2) ∧
      s !! "results" = Some (VList (VDict <$> results)) ∧
      let total := float_sub (Demo.time_time w2).1 (Demo.time_time 0).1 in
      s !! "total_time" = Some (VFloat total) ∧
      s !! "total_queries" = Some (VInt (Z.of_nat (length ["A"; "zzz"]))) ∧
      ["A"; "zzz"] ≠ [] ∧
      s !! "average_time"
        = Some (VFloat (float_div total
                          (round_float
                             (inject_Z (Z.of_nat (length ["A"; "zzz"])))))).
Proof.
  destruct (returned_inr (Demo.analyze_performance ["A"; "zzz"] 0))
    as (s & w' & Hrun); [vm_compute; reflexivity|].
  exists s, w'. split; [exact Hrun|].
  exact (C3_total_time_is_elapsed_wall_clock Demo.time_time
           Demo.query_documents ["A"; "zzz"] 0 s w' Hrun).
Defined.

(** C4, counterexample: the records of [batch_queries], a success and a
    failure, have no ['response_time']. *)
Lemma C4_counterexample :
  ∃ r1 r2 w',
    Demo.batch_queries ["A"; "zzz"] 0 = (inr [r1; r2], w') ∧
    r1 !! "success" = Some (VBool true) ∧
    r2 !! "success" = Some (VBool false) ∧
    ¬ populated r1 "response_time" ∧ ¬ populated r2 "response_time".
Proof.
  destruct (returned_inr (Demo.batch_queries ["A"; "zzz"] 0))
    as (rs & w' & Hrun); [vm_compute; reflexivity|].
  pose proof (batch_queries_outcomes Demo.query_documents Demo.print_progress
                ["A"; "zzz"] 0) as (rs' & w'' & Hrun' & Hlen & _).
  unfold Demo.batch_queries in Hrun. rewrite Hrun in Hrun'.
  injection Hrun' as <- <-.
  destruct rs as [|r1 [|r2 [|r3 rs]]]; try discriminate Hlen.
  assert (∀ key, Demo.record_field (Demo.batch_queries ["A"; "zzz"] 0) 0 key
                 = r1 !! key) as H1.
  { intros key. unfold Demo.record_field, Demo.batch_queries. by rewrite Hrun. }
  assert (∀ key, Demo.record_field (Demo.batch_queries ["A"; "zzz"] 0) 1 key
                 = r2 !! key) as H2.
  { intros key. unfold Demo.record_field, Demo.batch_queries. by rewrite Hrun. }
  exists r1, r2, w'. split; [exact Hrun|].
  split; [rewrite <- H1; vm_compute; reflexivity|].
  split; [rewrite <- H2; vm_compute; reflexivity|].
  split; intros [v Hv].
  - rewrite <- H1 in Hv. vm_compute in Hv. discriminate.
  - rewrite <- H2 in Hv. vm_compute in Hv. discriminate.
Qed.

Lemma record_field_eq (x : result (list pydict) * Q) (rs : list pydict) (w : Q)
    (i : nat) (r : pydict) (key : string) :
  x = (inr rs, w) → rs !! i = Some r → Demo.record_field x i key = r !! key.
Proof. intros -> Hr. unfold Demo.record_field; simpl. by rewrite Hr. Qed.

(** No progress line of the demo world fails to print. *)
Lemma demo_printing (i n : nat) (query : string) (w : Q) :
  (printed Demo.print_progress i n query w).1 = inr tt.
Proof. reflexivity. Qed.

(** C1, witness: a batch with a failure in the middle. *)
Lemma C1_witness :
  let queries := ["A"; "zzz"; "C"] in
  (∀ i n query w, (printed Demo.print_progress i n query w).1 = inr tt) ∧
  ∃ results w',
    Demo.batch_queries queries 0 = (inr results, w') ∧
    length results = length queries ∧
    ∀ i query, queries !! i = Some query →
      ∃ r, results !! i = Some r ∧ r !! "query" = Some (VStr query).
Proof.
  intros queries. split; [exact demo_printing|].
  exact (proj1 (C1_one_outcome_per_query_in_order Demo.time_time
                  Demo.query_documents (printed Demo.print_progress) queries 0)
           demo_printing).
Defined.


(** C6, witness: the first of two calls raises; its record is the failure
    record, the second query is still processed, and a summary is
    returned. *)
Lemma C6_witness :
  let e := Exn "ConnectionError" "connection refused" in
  let queries := ["zzz"; "A"] in
  (∀ i n query w, (printed Demo.print_progress i n query w).1 = inr tt) ∧
  (batch_call Demo.query_documents Demo.print_progress queries 0 "zzz" 0).1
    = inl e ∧
  (timed_call Demo.time_time Demo.query_documents queries 0 "zzz" 0).1
    = inl e ∧
  (∃ results w' r,
      Demo.batch_queries queries 0 = (inr results, w') ∧
      length results = length queries ∧
      results !! 0%nat = Some r ∧ is_failure_of "zzz" e r) ∧
  (∃ results w' r,
      Demo.analyze_performance_loop queries 0 = (inr results, w') ∧
      length results = length queries ∧
      results !! 0%nat = Some r ∧ is_failure_of "zzz" e r) ∧
  (∃ s w', Demo.analyze_performance queries 0 = (inr s, w')).
Proof.
  intros e queries.
  assert ((batch_call Demo.query_documents Demo.print_progress queries 0 "zzz" 0).1
          = inl e) as Hb by (vm_compute; reflexivity).
  assert ((timed_call Demo.time_time Demo.query_documents queries 0 "zzz" 0).1
          = inl e) as Ht by (vm_compute; reflexivity).
  destruct (C6_failures_recorded_batch_continues Demo.time_time
              Demo.query_documents (printed Demo.print_progress) queries 0)
    as (Hbatch & (rs' & w1' & Hrun' & Hlen' & Hfail') & Hret).
  destruct (Hbatch demo_printing) as (rs & w1 & Hrun & Hlen & Hfail).
  split; [exact demo_printing|]. split; [exact Hb|]. split; [exact Ht|].
  split; [|split].
  - destruct (Hfail 0%nat "zzz" e eq_refl Hb) as (r & Hr & Hf & _).
    exists rs, w1, r. split; [exact Hrun|]. split; [exact Hlen|].
    split; [exact Hr | exact Hf].
  - destruct (Hfail' 0%nat "zzz" e eq_refl Ht) as (r & t & Hr & Hf & _).
    exists rs', w1', r. split; [exact Hrun'|]. split; [exact Hlen'|].
    split; [exact Hr | exact Hf].
  - destruct Hret as (s & w' & _ & Hrun'' & _);
      [discriminate | vm_compute; discriminate | | by exists s, w'].
    intros [|[|i]] query d Hq Hcall; [| |discriminate Hq]; injection Hq as <-.
    + assert ((timed_call Demo.time_time Demo.query_documents queries 0 "zzz"
                 (Demo.time_time 0).2).1 = inl e) as H
        by (vm_compute; reflexivity).
      rewrite H in Hcall. discriminate Hcall.
    + assert ((timed_call Demo.time_time Demo.query_documents queries 1 "A"
                 (Demo.time_time 0).2).1
              = inr (Demo.answer "approved" (VFloat (1 # 2)))) as H
        by (vm_compute; reflexivity).
      rewrite H in Hcall. unfold Demo.answer in Hcall. injection Hcall as <-.
      right. exists (1 # 2). vm_compute; reflexivity.
Defined.

(** C7, counterexample: the call raises an exception without a message; the
    record's error string is empty. *)
Lemma C7_counterexample :
  (∀ w, (Demo.query_documents "silent" w).1 = inl (Exn "Exception" "")) ∧
  ∃ s w' r,
    Demo.analyze_performance ["silent"] 0 = (inr s, w') ∧
    s !! "results" = Some (VList [VDict r]) ∧
    r !! "success" = Some (VBool false) ∧
    r !! "error" = Some (VStr "").
Proof.
  split; [intros w; vm_compute; reflexivity|].
  destruct (returned_inr (Demo.analyze_performance ["silent"] 0))
    as (s & w' & Hrun); [vm_compute; reflexivity|].
  destruct (returned_summary_results _ _ _ _ _ _ Hrun)
    as (results & w2 & Hloop & Hres).
  destruct (analyze_performance_loop_outcomes Demo.time_time Demo.query_documents
              ["silent"] (Demo.time_time 0).2) as (rs & w3 & Hloop' & Hlen & _).
  rewrite Hloop in Hloop'. injection Hloop' as <- <-.
  destruct results as [|r [|r' results]]; try discriminate Hlen.
  exists s, w', r. split; [exact Hrun|]. split; [exact Hres|].
  split.
  - rewrite <- (record_field_eq _ _ _ 0 r "success" Hloop eq_refl).
    vm_compute; reflexivity.
  - rewrite <- (record_field_eq _ _ _ 0 r "error" Hloop eq_refl).
    vm_compute; reflexivity.
Qed.

(** C7, witness: two queries whose calls both raise, the second one without
    a message. *)
Lemma C7_witness :
  let queries := ["zzz"; "silent"] in
  queries ≠ [] ∧
  (∀ i query, queries !! i = Some query →
     ∃ e, (batch_call Demo.query_documents Demo.print_progress
             queries i query 0).1 = inl e) ∧
  (∀ i query, queries !! i = Some query →
     ∃ e, (timed_call Demo.time_time Demo.query_documents
             queries i query (Demo.time_time 0).2).1 = inl e) ∧
  (Z.of_nat (length queries) <= sys_maxsize)%Z ∧
  (∃ results w',
      Demo.batch_queries queries 0 = (inr results, w') ∧
      length results = length queries) ∧
  (∃ s w',
      Demo.analyze_performance queries 0 = (inr s, w') ∧
      s !! "successful_queries" = Some (VInt 0) ∧
      (∃ rate, s !! "success_rate" = Some (VFloat rate) ∧ rate == 0) ∧
      s !! "average_confidence" = Some (VInt 0)).
Proof.
  intros queries.
  assert (queries ≠ []) as Hne by discriminate.
  assert (∀ i query, queries !! i = Some query →
            ∃ e, (batch_call Demo.query_documents Demo.print_progress
                    queries i query 0).1 = inl e) as Hb.
  { intros [|[|i]] query Hq; [| |discriminate Hq]; injection Hq as <-;
      eexists; vm_compute; reflexivity. }
  assert (∀ i query, queries !! i = Some query →
            ∃ e, (timed_call Demo.time_time Demo.query_documents
                    queries i query (Demo.time_time 0).2).1 = inl e) as Ht.
  { intros [|[|i]] query Hq; [| |discriminate Hq]; injection Hq as <-;
      eexists; vm_compute; reflexivity. }
  destruct (C7_all_calls_raise Demo.time_time Demo.query_documents
              Demo.print_progress queries 0 Hne) as [Hbatch Htimed].
  assert (Z.of_nat (length queries) <= sys_maxsize)%Z as Hfits
    by (vm_compute; discriminate).
  destruct (Hbatch Hb) as (rs & w' & Hrun & Hlen & _).
  destruct (Htimed Ht Hfits)
    as (s & w'' & rs' & Hrun' & _ & _ & _ & Hsucc & Hrate & Havg).
  split; [exact Hne|]. split; [exact Hb|]. split; [exact Ht|].
  split; [exact Hfits|]. split.
  - exists rs, w'. split; [exact Hrun | exact Hlen].
  - exists s, w''. split; [exact Hrun'|]. split; [exact Hsucc|].
    split; [exact Hrate | exact Havg].
Defined.

(** C8, witness: the answer to ["bare"] has a decision and no confidence;
    the average is the confidence of the other query divided by two. *)
Lemma C8_witness :
  let queries := ["A"; "bare"] in
  let d : pydict := {[ "Decision" := VStr "approved" ]} in
  queries !! 1%nat = Some "bare" ∧
  d !! "ConfidenceScore" = None ∧
  (timed_call Demo.time_time Demo.query_documents queries 1 "bare" 0).1
    = inr (VDict d) ∧
  (batch_call Demo.query_documents Demo.print_progress queries 1 "bare" 0).1
    = inr (VDict d) ∧
  (timed_call Demo.time_time Demo.query_documents queries 1 "bare"
     (Demo.time_time 0).2).1 = inr (VDict d) ∧
  (∃ results w' r,
      Demo.analyze_performance_loop queries 0 = (inr results, w') ∧
      results !! 1%nat = Some r ∧
      r !! "query" = Some (VStr "bare") ∧
      r !! "success" = Some (VBool true) ∧
      r !! "confidence" = Some (VInt 0)) ∧
  (∃ results w' r,
      Demo.batch_queries queries 0 = (inr results, w') ∧
      results !! 1%nat = Some r ∧
      r !! "query" = Some (VStr "bare") ∧
      r !! "success" = Some (VBool true) ∧
      r !! "confidence" = Some VNone) ∧
  ∃ s w',
    Demo.analyze_performance queries 0 = (inr s, w') ∧
    ∃ results w2 r total average,
      analyze_performance_loop Demo.time_time Demo.query_documents queries
        (Demo.time_time 0).2 = (inr results, w2) ∧
      results !! 1%nat = Some r ∧
      r !! "success" = Some (VBool true) ∧
      r !! "confidence" = Some (VInt 0) ∧
      py_sum (λ r, py_getitem r "confidence")
        (List.filter is_successful (delete 1%nat results)) = inr total ∧
      length (List.filter is_successful results)
      = S (length (List.filter is_successful (delete 1%nat results))) ∧
      py_truediv total (py_len (List.filter is_successful results))
      = inr average ∧
      s !! "average_confidence" = Some average.
Proof.
  intros queries d.
  assert (d !! "ConfidenceScore" = None) as Hd by (vm_compute; reflexivity).
  assert ((timed_call Demo.time_time Demo.query_documents queries 1 "bare" 0).1
          = inr (VDict d)) as Ht by (vm_compute; reflexivity).
  assert ((batch_call Demo.query_documents Demo.print_progress queries 1 "bare" 0).1
          = inr (VDict d)) as Hb by (vm_compute; reflexivity).
  assert ((timed_call Demo.time_time Demo.query_documents queries 1 "bare"
             (Demo.time_time 0).2).1 = inr (VDict d)) as Ht'
    by (vm_compute; reflexivity).
  destruct (returned_inr (Demo.analyze_performance queries 0))
    as (s & w' & Hrun); [vm_compute; reflexivity|].
  destruct (C8_missing_confidence_defaults Demo.time_time Demo.query_documents
              Demo.print_progress queries 0 1 "bare" d eq_refl Hd)
    as (Htimed & Hbatch & Hsummary).
  split; [reflexivity|]. split; [exact Hd|]. split; [exact Ht|].
  split; [exact Hb|]. split; [exact Ht'|].
  split; [exact (Htimed Ht)|]. split; [exact (Hbatch Hb)|].
  exists s, w'. split; [exact Hrun|]. exact (Hsummary s w' Ht' Hrun).
Defined.

(** C9, witness: the answer to ["null"] carries a [None] confidence. *)
Lemma C9_witness :
  let queries := ["A"; "null"; "zzz"] in
  let d : pydict :=
    {[ "Decision" := VStr "approved"; "ConfidenceScore" := VNone ]} in
  queries !! 1%nat = Some "null" ∧
  (timed_call Demo.time_time Demo.query_documents queries 1 "null"
     (Demo.time_time 0).2).1 = inr (VDict d) ∧
  d !! "ConfidenceScore" = Some VNone ∧
  ∃ results w2 t e w',
    analyze_performance_loop Demo.time_time Demo.query_documents queries
      (Demo.time_time 0).2 = (inr results, w2) ∧
    length results = length queries ∧
    results !! 1%nat
      = Some (timed_success "null" (default VNone (d !! "Decision")) VNone t) ∧
    Demo.analyze_performance queries 0 = (inl e, w') ∧
    (exn_class e = "TypeError" ∨ exn_class e = "OverflowError").
Proof.
  intros queries d.
  assert ((timed_call Demo.time_time Demo.query_documents queries 1 "null"
             (Demo.time_time 0).2).1 = inr (VDict d)) as Hcall
    by (vm_compute; reflexivity).
  assert (d !! "ConfidenceScore" = Some VNone) as Hd by (vm_compute; reflexivity).
  split; [reflexivity|]. split; [exact Hcall|]. split; [exact Hd|].
  exact (C9_null_confidence_raises Demo.time_time Demo.query_documents
           queries 0 1 "null" d eq_refl Hcall Hd).
Defined.

(** C10, witness: a batch with a failure in the middle. *)
Lemma C10_witness :
  let queries := ["A"; "zzz"; "C"] in
  ∃ s w',
    Demo.analyze_performance queries 0 = (inr s, w') ∧
    ∃ results w2,
      analyze_performance_loop Demo.time_time Demo.query_documents queries
        (Demo.time_time 0).2 = (inr results, w2) ∧
      s !! "results" = Some (VList (VDict <$> results)) ∧
      length results = length queries ∧
      (∀ i query, queries !! i = Some query →
         ∃ r, results !! i = Some r ∧ r !! "query" = Some (VStr query)) ∧
      Forall (λ key, is_Some (s !! key)) aggregate_keys.
Proof.
  intros queries.
  destruct (returned_inr (Demo.analyze_performance queries 0))
    as (s & w' & Hrun); [vm_compute; reflexivity|].
  exists s, w'. split; [exact Hrun|].
  exact (C10_summary_carries_results Demo.time_time Demo.query_documents
           queries 0 s w' Hrun).
Defined.

(** * The client *)

Local Close Scope Q_scope.
Local Open Scope nat_scope.

Section ClientFacts.

Context {W : Type}.
Variable session_request : request → W → result value * W.
Variable is_request_exception : exn → bool.
Variable print_failure : exn → W → W.
Variable os_path_exists : string → W → bool.
Variable os_path_basename : string → string.
Variable requests_post : upload → W → result value * W.
Variable datetime_now_isoformat : Z → W → string * W.

Local Abbreviation _request :=
  (Client._request session_request is_request_exception print_failure).
Local Abbreviation recorded_request :=
  (Client._request (recording session_request) is_request_exception
     (λ e, silently (print_failure e))).

Implicit Types (self : NeuroDocClient) (w : W) (log : list request)
  (kwargs : pydict).


(** Each call of [_request] makes exactly one request. *)
Lemma request_recorded self (method endpoint : string) kwargs w log :
  recorded_request self method endpoint kwargs (w, log)
  = ((_request self method endpoint kwargs w).1,
     ((_request self method endpoint kwargs w).2,
      log ++ [request_of self method endpoint kwargs])).
Proof.
  unfold Client._request, try_except_if, bind, effect, raise, recording,
    silently, request_of; simpl.
  destruct (session_request _ w) as [[e|v] w']; simpl; [|done].
  by destruct (is_request_exception e).
Qed.

Local Abbreviation recorded_query_documents :=
  (Client.query_documents (recording session_request) is_request_exception
     (λ e, silently (print_failure e))).
Local Abbreviation recorded_list_documents :=
  (Client.list_documents (recording session_request) is_request_exception
     (λ e, silently (print_failure e))).
Local Abbreviation recorded_get_audit_trail :=
  (Client.get_audit_trail (recording session_request) is_request_exception
     (λ e, silently (print_failure e))).

(** The request [query_documents] makes, given the options it sends. *)
Lemma query_documents_recorded self (query : string) (options : value) w log :
  (recorded_query_documents self query options (w, log)).2.2
  = log ++ [request_of self "POST" "/api/query"
              {[ "json" := VDict {[ "query" := VStr query;
                                    "options" := py_or options
                                                   (VDict Client.default_options) ]} ]}].
Proof. unfold Client.query_documents. by rewrite request_recorded. Qed.

(** X2: [query_documents] sends the default options (limit 5, threshold 0.7,
    references included) when it is given no options and also when it is
    given an empty dict; a dict with at least one entry is sent as it is. *)
Theorem query_documents_options self (query : string) w log :
  (recorded_query_documents self query VNone (w, log)).2.2
    = log ++ [query_request self query] ∧
  (recorded_query_documents self query (VDict ∅) (w, log)).2.2
    = log ++ [query_request self query] ∧
  ∀ (k : string) (v : value) (d : pydict),
    (recorded_query_documents self query (VDict (<[k:=v]> d)) (w, log)).2.2
    = log ++ [request_of self "POST" "/api/query"
                {[ "json" := VDict {[ "query" := VStr query;
                                      "options" := VDict (<[k:=v]> d) ]} ]}].
Proof.
  split; [|split; [|intros k v d]]; rewrite query_documents_recorded;
    try reflexivity.
  unfold py_or, truthy.
  rewrite bool_decide_eq_false_2; [done|]. apply insert_non_empty.
Qed.

(** X3: [list_documents] always sends [limit] and [offset]; it sends [search]
    and [fileType] exactly when the argument is true as a condition, so
    neither [None] nor an empty string is ever sent; it sends nothing
    else. *)
Theorem list_documents_params self (limit offset : Z) (search file_type : value)
    w log :
  ∃ params : pydict,
    (recorded_list_documents self limit offset search file_type (w, log)).2.2
      = log ++ [request_of self "GET" "/api/documents"
                  {[ "params" := VDict params ]}] ∧
    params !! "limit" = Some (VInt limit) ∧
    params !! "offset" = Some (VInt offset) ∧
    params !! "search" = (if truthy search then Some search else None) ∧
    params !! "fileType" = (if truthy file_type then Some file_type else None) ∧
    dom params ⊆ ({[ "limit"; "offset"; "search"; "fileType" ]} : gset string) ∧
    params !! "search" ≠ Some VNone ∧ params !! "search" ≠ Some (VStr "") ∧
    params !! "fileType" ≠ Some VNone ∧ params !! "fileType" ≠ Some (VStr "").
Proof.
  unfold Client.list_documents. rewrite request_recorded.
  match goal with
  | |- context [request_of _ _ _ {[ "params" := VDict ?p ]}] => set (params := p)
  end.
  assert (params !! "search" = if truthy search then Some search else None) as Hs.
  { subst params. by destruct (truthy search), (truthy file_type). }
  assert (params !! "fileType" = if truthy file_type then Some file_type else None)
    as Hf.
  { subst params. by destruct (truthy search), (truthy file_type). }
  exists params. split; [reflexivity|].
  split; [subst params; by destruct (truthy search), (truthy file_type)|].
  split; [subst params; by destruct (truthy search), (truthy file_type)|].
  split; [exact Hs|]. split; [exact Hf|]. split.
  { subst params. destruct (truthy search), (truthy file_type);
      rewrite ?dom_insert_L, ?dom_singleton_L; set_solver. }
  rewrite Hs, Hf.
  destruct (truthy search) eqn:Es, (truthy file_type) eqn:Ef;
    repeat split; try discriminate; by intros ?; simplify_eq.
Qed.

(** X4: [get_audit_trail] always sends [limit]; it sends [start_date] and
    [end_date] exactly when the argument is true as a condition (neither
    [None] nor an empty string is ever sent), and nothing else. *)
Theorem get_audit_trail_params self (limit : Z) (start_date end_date : value)
    w log :
  ∃ params : pydict,
    (recorded_get_audit_trail self limit start_date end_date (w, log)).2.2
      = log ++ [request_of self "GET" "/api/audit"
                  {[ "params" := VDict params ]}] ∧
    params !! "limit" = Some (VInt limit) ∧
    params !! "start_date" = (if truthy start_date then Some start_date else None) ∧
    params !! "end_date" = (if truthy end_date then Some end_date else None) ∧
    dom params ⊆ ({[ "limit"; "start_date"; "end_date" ]} : gset string) ∧
    params !! "start_date" ≠ Some VNone ∧ params !! "start_date" ≠ Some (VStr "") ∧
    params !! "end_date" ≠ Some VNone ∧ params !! "end_date" ≠ Some (VStr "").
Proof.
  unfold Client.get_audit_trail. rewrite request_recorded.
  match goal with
  | |- context [request_of _ _ _ {[ "params" := VDict ?p ]}] => set (params := p)
  end.
  assert (params !! "start_date"
          = if truthy start_date then Some start_date else None) as Hs.
  { subst params. by destruct (truthy start_date), (truthy end_date). }
  assert (params !! "end_date" = if truthy end_date then Some end_date else None)
    as Hf.
  { subst params. by destruct (truthy start_date), (truthy end_date). }
  exists params. split; [reflexivity|].
  split; [subst params; by destruct (truthy start_date), (truthy end_date)|].
  split; [exact Hs|]. split; [exact Hf|]. split.
  { subst params. destruct (truthy start_date), (truthy end_date);
      rewrite ?dom_insert_L, ?dom_singleton_L; set_solver. }
  rewrite Hs, Hf.
  destruct (truthy start_date) eqn:Es, (truthy end_date) eqn:Ef;
    repeat split; try discriminate; by intros ?; simplify_eq.
Qed.

Local Abbreviation get_audit_statistics :=
  (Client.get_audit_statistics session_request is_request_exception print_failure
     datetime_now_isoformat).
Local Abbreviation upload_document :=
  (Client.upload_document os_path_exists os_path_basename requests_post).

(** X5: [get_audit_statistics] sends a date it is given as it is and does not
    read the clock for it; a date that is missing, [None] or an empty string,
    is replaced: the start by the time thirty days ago, then the end by the
    time now.  With both dates given the clock is not read at all. *)
Theorem get_audit_statistics_dates self (a b : Ascii.ascii) (s e : string)
    (empty_start empty_end : bool) w :
  let given_start := VStr (String a s) in
  let given_end := VStr (String b e) in
  let no_start := if empty_start then VStr "" else VNone in
  let no_end := if empty_end then VStr "" else VNone in
  let send (start_date end_date : value) :=
    _request self "POST" "/api/audit"
      {[ "json" := VDict {[ "startDate" := start_date; "endDate" := end_date ]} ]} in
  get_audit_statistics self given_start given_end w
    = send given_start given_end w ∧
  get_audit_statistics self given_start no_end w
    = (let end_ := datetime_now_isoformat 0 w in
       send given_start (VStr end_.1) end_.2) ∧
  get_audit_statistics self no_start given_end w
    = (let start := datetime_now_isoformat 30 w in
       send (VStr start.1) given_end start.2) ∧
  get_audit_statistics self no_start no_end w
    = (let start := datetime_now_isoformat 30 w in
       let end_ := datetime_now_isoformat 0 start.2 in
       send (VStr start.1) (VStr end_.1) end_.2).
Proof.
  cbv zeta. split; [reflexivity|].
  unfold Client.get_audit_statistics, bind.
  repeat split; destruct empty_start, empty_end; simpl;
    try (destruct (datetime_now_isoformat 30 w) as [s1 w1]; simpl;
         by destruct (datetime_now_isoformat 0 w1) as [s2 w2]);
    try (by destruct (datetime_now_isoformat 0 w) as [s2 w2]);
    by destruct (datetime_now_isoformat 30 w) as [s1 w1].
Qed.

(** X6: [upload_document] on a path that does not exist raises
    [FileNotFoundError] naming the path and posts nothing: the world is left
    as it was, whatever posting would do. *)
Theorem upload_document_missing_file self (file_path : string) w :
  os_path_exists file_path w = false →
  upload_document self file_path w
  = (inl (FileNotFoundError ("File not found: " +:+ file_path)), w).
Proof. unfold Client.upload_document. by intros ->. Qed.

Local Abbreviation recorded_health_check :=
  (Client.health_check (recording session_request) is_request_exception
     (λ e, silently (print_failure e))).
Local Abbreviation recorded_get_clauses :=
  (Client.get_clauses (recording session_request) is_request_exception
     (λ e, silently (print_failure e))).
Local Abbreviation recorded_get_audit_statistics :=
  (Client.get_audit_statistics (recording session_request) is_request_exception
     (λ e, silently (print_failure e)) (λ n, silent (datetime_now_isoformat n))).

(** A request of a client built by [__init__] carries the token and the
    user agent of the client, whatever headers a fresh session has. *)
Lemma request_of_init (default_headers : pydict) (cfg : NeuroDocConfig)
    (method endpoint : string) kwargs :
  let req := request_of (Client.init default_headers cfg) method endpoint kwargs in
  req_headers req !! "Authorization" = Some (VStr ("Bearer " +:+ jwt_token cfg)) ∧
  req_headers req !! "User-Agent" = Some (VStr "NeuroDoc-Python-Client/1.0") ∧
  req_url req = base_url cfg +:+ endpoint ∧
  req_timeout req = timeout cfg.
Proof.
  simpl. repeat split; by apply lookup_union_Some_l.
Qed.

(** X7: Every method that goes through the session makes exactly one request
    per call, to its own path under the base URL, with the token given at
    construction in the [Authorization] header, the user agent of the
    client and the timeout of the configuration. *)
Theorem session_methods_send_one_authenticated_request
    (default_headers : pydict) (cfg : NeuroDocConfig) w log :
  let self := Client.init default_headers cfg in
  let authenticated (method endpoint : string) (sent : list request) :=
    ∃ req, sent = log ++ [req] ∧
           req_method req = method ∧
           req_url req = base_url cfg +:+ endpoint ∧
           req_timeout req = timeout cfg ∧
           req_headers req !! "Authorization"
             = Some (VStr ("Bearer " +:+ jwt_token cfg)) ∧
           req_headers req !! "User-Agent"
             = Some (VStr "NeuroDoc-Python-Client/1.0") in
  (∀ detailed,
     authenticated "GET" "/api/health"
       (recorded_health_check self detailed (w, log)).2.2) ∧
  (∀ query options,
     authenticated "POST" "/api/query"
       (recorded_query_documents self query options (w, log)).2.2) ∧
  (∀ limit offset search file_type,
     authenticated "GET" "/api/documents"
       (recorded_list_documents self limit offset search file_type (w, log)).2.2) ∧
  (∀ document_id limit include_embeddings,
     authenticated "GET" "/api/clauses"
       (recorded_get_clauses self document_id limit include_embeddings (w, log)).2.2) ∧
  (∀ limit start_date end_date,
     authenticated "GET" "/api/audit"
       (recorded_get_audit_trail self limit start_date end_date (w, log)).2.2) ∧
  (∀ start_date end_date,
     authenticated "POST" "/api/audit"
       (recorded_get_audit_statistics self start_date end_date (w, log)).2.2).
Proof.
  intros self authenticated.
  assert (∀ method endpoint kwargs,
            authenticated method endpoint
              (log ++ [request_of self method endpoint kwargs])) as Hreq.
  { intros method endpoint kwargs. eexists. split; [reflexivity|].
    destruct (request_of_init default_headers cfg method endpoint kwargs)
      as (Ha & Hu & Hurl & Ht).
    by repeat split. }
  repeat split; intros.
  - unfold Client.health_check. rewrite request_recorded. apply Hreq.
  - unfold Client.query_documents. rewrite request_recorded. apply Hreq.
  - unfold Client.list_documents. rewrite request_recorded. apply Hreq.
  - unfold Client.get_clauses. rewrite request_recorded. apply Hreq.
  - unfold Client.get_audit_trail. rewrite request_recorded. apply Hreq.
  - unfold Client.get_audit_statistics, bind, silent, ret.
    destruct (truthy start_date), (truthy end_date); simpl;
      repeat match goal with
             | |- context [datetime_now_isoformat ?n ?x] =>
                 destruct (datetime_now_isoformat n x); simpl
             end;
      rewrite request_recorded; apply Hreq.
Qed.

End ClientFacts.

(** * The requests of the two batch methods *)

Lemma fmap_enumerate_snd {A B} (f : A → B) (start : nat) (l : list A) :
  (λ ix, f ix.2) <$> enumerate start l = f <$> l.
Proof. revert start. induction l as [|x l IH]; intros; simpl; by f_equal. Qed.

Section Recorded.

Context {W A R : Type}.
Variable step : A → W → R * W.
Variable recorded_step : A → W * list request → R * (W * list request).
Variable req : A → request.

Hypothesis one_request : ∀ x w log,
  recorded_step x (w, log) = ((step x w).1, ((step x w).2, log ++ [req x])).

Lemma run_steps_recorded (l : list A) (w : W) (log : list request) :
  run_steps recorded_step l (w, log)
  = ((run_steps step l w).1, ((run_steps step l w).2, log ++ (req <$> l))).
Proof using one_request.
  revert w log. induction l as [|x l IH]; intros w log; simpl.
  - by rewrite app_nil_r.
  - rewrite one_request. destruct (step x w) as [r w1]; simpl.
    rewrite IH. destruct (run_steps step l w1) as [rs w2]; simpl.
    by rewrite <- app_assoc.
Qed.

End Recorded.

Section BatchRequests.

Context {W : Type}.
Variable session_request : request → W → result value * W.
Variable is_request_exception : exn → bool.
Variable print_failure : exn → W → W.
Variable print_progress : nat → nat → string → @M W unit.
Variable time_time : W → Q * W.
Variable self : NeuroDocClient.

(** [self.client.query_documents(query)], and the same on recording
    worlds. *)
Local Abbreviation query_documents :=
  (λ query, Client.query_documents session_request is_request_exception
              print_failure self query VNone).
Local Abbreviation recorded_query_documents :=
  (λ query, Client.query_documents (recording session_request)
              is_request_exception (λ e, silently (print_failure e))
              self query VNone).

Lemma query_documents_one_request (query : string) (w : W) (log : list request) :
  recorded_query_documents query (w, log)
  = ((query_documents query w).1,
     ((query_documents query w).2, log ++ [query_request self query])).
Proof. unfold Client.query_documents. by rewrite request_recorded. Qed.

Lemma silent_pair {B} (f : W → B * W) (w : W) (log : list request) :
  silent f (w, log) = ((f w).1, ((f w).2, log)).
Proof. unfold silent; simpl. by destruct (f w). Qed.

Local Abbreviation recorded_print_progress :=
  (λ (i n : nat) (query : string), silent (print_progress i n query)).
Local Abbreviation after_print :=
  (λ (i n : nat) (query : string) (w : W), (print_progress i n query w).2).

(** One iteration on a recording world: the request is made when the
    progress line has been printed. *)
Lemma batch_queries_body_recorded (n : nat) (iq : nat * string)
    (acc : list pydict) w log :
  batch_queries_body recorded_query_documents recorded_print_progress n iq acc
    (w, log)
  = let run := batch_queries_body query_documents print_progress n iq acc w in
    (run.1,
     (run.2,
      log ++ match (print_progress iq.1 n iq.2 w).1 with
             | inl _ => []
             | inr _ => [query_request self iq.2]
             end)).
Proof.
  destruct iq as [i query].
  unfold batch_queries_body, bind, try_except, lift, ret. cbn [fst snd].
  rewrite silent_pair.
  destruct (print_progress i n query w) as [[e|[]] w1]; cbn [fst snd];
    [by rewrite app_nil_r|].
  rewrite query_documents_one_request.
  destruct (Client.query_documents _ _ _ _ _ _ w1) as [[e|v] w2]; cbn; [done|].
  destruct (py_get v "Decision" VNone); cbn; [done|].
  by destruct (py_get v "ConfidenceScore" VNone).
Qed.

(** The loop on a recording world: the queries are requested in order, up
    to the first progress line that fails to print. *)
Lemma for_each_batch_recorded (n : nat) (l : list (nat * string))
    (acc : list pydict) w log :
  let run := for_each (batch_queries_body query_documents print_progress n) l acc w in
  ∃ k : nat,
    (k ≤ length l)%nat ∧
    for_each (batch_queries_body recorded_query_documents
                recorded_print_progress n) l acc (w, log)
    = (run.1, (run.2, log ++ ((λ iq, query_request self iq.2) <$> take k l))) ∧
    ((∀ i n query w, (print_progress i n query w).1 = inr tt) → k = length l) ∧
    (∀ results, run.1 = inr results → k = length l).
Proof.
  revert acc w log. induction l as [|iq l IH]; intros acc w log.
  - exists 0%nat. cbn. by rewrite app_nil_r.
  - cbv zeta. rewrite !for_each_cons, batch_queries_body_recorded. cbv zeta.
    rewrite (batch_queries_body_print query_documents print_progress).
    destruct (print_progress iq.1 n iq.2 w).1 as [e|u] eqn:Hp.
    + exists 0%nat. cbn [fst snd take fmap list_fmap length].
      split; [lia|]. split; [done|]. split; [|done].
      intros Hprint. rewrite Hprint in Hp. discriminate.
    + rewrite (batch_queries_body_step query_documents after_print).
      cbn [fst snd].
      set (step := batch_step query_documents after_print n iq w).
      destruct (IH (acc ++ [step.1]) step.2 (log ++ [query_request self iq.2]))
        as (k & Hk & Hrun & Hall & Hret).
      exists (S k). cbn [length]. split; [lia|].
      split; [|split].
      * rewrite Hrun. cbn [take fmap list_fmap]. by rewrite <- app_assoc.
      * intros Hprint. by rewrite (Hall Hprint).
      * intros results Hres. by rewrite (Hret results Hres).
Qed.

Lemma requests_of_enumerate (k start : nat) (queries : list string) :
  (λ iq : nat * string, query_request self iq.2) <$> take k (enumerate start queries)
  = query_request self <$> take k queries.
Proof. by rewrite !fmap_take, fmap_enumerate_snd. Qed.

(** When no progress line fails to print, every query is requested. *)
Lemma batch_queries_recorded (queries : list string) (w : W)
    (log : list request) :
  (∀ i n query w, (print_progress i n query w).1 = inr tt) →
  batch_queries recorded_query_documents recorded_print_progress queries (w, log)
  = ((batch_queries query_documents print_progress queries w).1,
     ((batch_queries query_documents print_progress queries w).2,
      log ++ (query_request self <$> queries))).
Proof.
  intros Hprint. unfold batch_queries.
  destruct (for_each_batch_recorded (length queries) (enumerate 1 queries) [] w log)
    as (k & _ & Hrun & Hall & _).
  rewrite Hrun, (Hall Hprint), requests_of_enumerate, enumerate_length.
  by rewrite firstn_all.
Qed.

(** X8: Run on a recording world, [batch_queries] gives the same result and
    the same world as otherwise, and has made one request per query, in the
    order of the queries, up to the first progress line that failed to
    print: the POST to [/api/query] carrying the query and the default
    options.  A failed call is not tried again and holds back none of the
    later ones; a print that fails holds them all back.  When
    [batch_queries] returns, and in every case when no progress line fails
    to print, all the queries have been requested. *)
Theorem batch_queries_requests (queries : list string) (w : W)
    (log : list request) :
  let run := batch_queries query_documents print_progress queries w in
  let recorded_run :=
    batch_queries recorded_query_documents recorded_print_progress queries
      (w, log) in
  (∃ k : nat,
     (k ≤ length queries)%nat ∧
     recorded_run
     = (run.1, (run.2, log ++ (query_request self <$> take k queries))) ∧
     (∀ results, run.1 = inr results → k = length queries)) ∧
  ((∀ i n query w, (print_progress i n query w).1 = inr tt) →
   recorded_run = (run.1, (run.2, log ++ (query_request self <$> queries)))).
Proof.
  split; [|apply batch_queries_recorded].
  unfold batch_queries.
  destruct (for_each_batch_recorded (length queries) (enumerate 1 queries) [] w log)
    as (k & Hk & Hrun & _ & Hret).
  rewrite enumerate_length in Hk, Hret.
  exists k. split; [done|]. split; [|done].
  by rewrite Hrun, requests_of_enumerate.
Qed.

Lemma timed_steps_recorded (queries : list string) (w : W) (log : list request) :
  run_steps (timed_step (silent time_time) recorded_query_documents) queries (w, log)
  = ((run_steps (timed_step time_time query_documents) queries w).1,
     ((run_steps (timed_step time_time query_documents) queries w).2,
      log ++ (query_request self <$> queries))).
Proof.
  apply run_steps_recorded. intros query w0 log0. unfold timed_step.
  rewrite silent_pair. destruct (time_time w0) as [query_start w1]; simpl.
  rewrite query_documents_one_request.
  destruct (Client.query_documents _ _ _ _ _ _ _) as [res w2]; simpl.
  rewrite silent_pair. destruct (time_time w2) as [t w3]; simpl.
  destruct res as [e|result]; [done|].
  destruct (rbind _ _); [|done].
  rewrite silent_pair. by destruct (time_time w3).
Qed.

(** X9: So does [analyze_performance]: same summary or same error, same world,
    and one request per query in order; reading the clock makes no
    request. *)
Theorem analyze_performance_requests (queries : list string) (w : W)
    (log : list request) :
  analyze_performance (silent time_time) recorded_query_documents queries (w, log)
  = ((analyze_performance time_time query_documents queries w).1,
     ((analyze_performance time_time query_documents queries w).2,
      log ++ (query_request self <$> queries))).
Proof.
  rewrite !analyze_performance_eq. cbv zeta.
  rewrite silent_pair. cbn [fst snd].
  rewrite timed_steps_recorded. cbn [fst snd].
  rewrite silent_pair. cbn [fst snd]. reflexivity.
Qed.

End BatchRequests.

(** * More on the two loops *)

Section MoreFacts.

Context {W : Type}.
Variable time_time : W → Q * W.
Variable query_documents : string → W → result value * W.
Variable print_progress : nat → nat → string → W → W.

(** In this section every progress line of [batch_queries] is printed. *)
Local Abbreviation batch_queries :=
  (batch_queries query_documents (printed print_progress)).
Local Abbreviation batch_step := (batch_step query_documents print_progress).
Local Abbreviation batch_call := (batch_call query_documents print_progress).
Local Abbreviation analyze_performance := (analyze_performance time_time query_documents).
Local Abbreviation analyze_performance_loop :=
  (analyze_performance_loop time_time query_documents).
Local Abbreviation timed_step := (timed_step time_time query_documents).
Local Abbreviation timed_call := (timed_call time_time query_documents).

Implicit Types (queries : list string) (query : string) (w : W) (r : pydict).

Lemma run_steps_app {A R} (step : A → W → R * W) (l1 l2 : list A) w :
  run_steps step (l1 ++ l2) w
  = ((run_steps step l1 w).1 ++ (run_steps step l2 (run_steps step l1 w).2).1,
     (run_steps step l2 (run_steps step l1 w).2).2).
Proof.
  revert w. induction l1 as [|x l1 IH]; intros w; simpl.
  - by destruct (run_steps step l2 w).
  - destruct (step x w) as [r w1]. rewrite IH.
    destruct (run_steps step l1 w1) as [rs1 w2]; simpl.
    by destruct (run_steps step l2 w2).
Qed.

(** X10: The loop of [analyze_performance] over two lists of queries, one after
    the other, is the loop over the first list followed by the loop over
    the second one in the world the first one leaves: the records are those
    of the first followed by those of the second. *)
Theorem analyze_performance_loop_app (queries1 queries2 : list string) w :
  ∃ results1 w1 results2 w2,
    analyze_performance_loop queries1 w = (inr results1, w1) ∧
    analyze_performance_loop queries2 w1 = (inr results2, w2) ∧
    analyze_performance_loop (queries1 ++ queries2) w
      = (inr (results1 ++ results2), w2).
Proof.
  do 4 eexists. rewrite !analyze_performance_loop_run.
  split; [reflexivity|]. split; [reflexivity|].
  by rewrite run_steps_app.
Qed.

(** X11: In every summary [analyze_performance] returns, the number of
    successful queries is the number of records with a true ['success']; it
    is at most the number of queries, the records without success make up
    the difference, and the success rate is the float of their quotient,
    between [0] and [1]. *)
Theorem summary_counts queries w (s : pydict) w' :
  analyze_performance queries w = (inr s, w') →
  ∃ results w2 (rate : Q),
    analyze_performance_loop queries (time_time w).2 = (inr results, w2) ∧
    let successes := length (List.filter is_successful results) in
    let failures := length (List.filter (λ r, negb (is_successful r)) results) in
    s !! "total_queries" = Some (VInt (Z.of_nat (length queries))) ∧
    s !! "successful_queries" = Some (VInt (Z.of_nat successes)) ∧
    successes + failures = length queries ∧
    s !! "success_rate" = Some (VFloat rate) ∧
    rate = round_float (inject_Z (Z.of_nat successes)
                        / inject_Z (Z.of_nat (length queries))) ∧
    (0 <= rate)%Q ∧ (rate <= 1)%Q.
Proof.
  intros Hrun.
  pose proof Hrun as (Hne & avg & _ & ->)%analyze_performance_inr.
  rewrite analyze_performance_loop_run.
  set (results := (run_steps timed_step queries (time_time w).2).1).
  assert (length results = length queries) as Hlen by apply run_steps_length.
  pose proof (filter_partition_length is_successful results) as Hpart.
  destruct (py_truediv_count_len (length (List.filter is_successful results))
              queries Hne) as (rate & _ & Hrate & H0 & H1); [lia|].
  exists results. eexists. exists rate. split; [reflexivity|].
  split; [done|]. split; [done|]. split; [lia|].
  split; [by rewrite Hrate|]. by split.
Qed.

Section Monotone.

Variable clock : W → Q.
Hypothesis reading : ∀ w,
  (clock w <= (time_time w).1)%Q ∧ ((time_time w).1 <= clock (time_time w).2)%Q.
Hypothesis calling : ∀ query w, (clock w <= clock (query_documents query w).2)%Q.

Local Open Scope Q_scope.

Lemma float_sub_nonneg (t0 t : Q) : t0 <= t → 0 <= float_sub t t0.
Proof. intros H. apply round_float_nonneg. lra. Qed.

Lemma timed_step_nonnegative query w :
  ∃ t, (timed_step query w).1 !! "response_time" = Some (VFloat t) ∧ 0 <= t.
Proof using reading calling.
  unfold timed_step.
  pose proof (reading w) as [H0 H0'].
  destruct (time_time w) as [query_start w1]; simpl in *.
  pose proof (calling query w1) as H1.
  destruct (query_documents query w1) as [res w2]; simpl in *.
  pose proof (reading w2) as [H2 H2'].
  destruct (time_time w2) as [t w3]; simpl in *.
  pose proof (reading w3) as [H3 H3'].
  destruct res as [e|result]; simpl.
  { eexists. split; [done|]. apply float_sub_nonneg. lra. }
  destruct (py_get result "Decision" VNone) as [e|decision]; simpl.
  { destruct (time_time w3) as [t' w4]; simpl in *.
    eexists. split; [done|]. apply float_sub_nonneg. lra. }
  destruct (py_get result "ConfidenceScore" (VInt 0)) as [e|confidence]; simpl.
  { destruct (time_time w3) as [t' w4]; simpl in *.
    eexists. split; [done|]. apply float_sub_nonneg. lra. }
  eexists. split; [done|]. apply float_sub_nonneg. lra.
Qed.

End Monotone.

(** X12: On a clock that never runs backwards, every record of
    [analyze_performance] has a response time that is not negative, the
    failures and the answers that are not dicts included. *)
Theorem response_times_are_not_negative queries w (clock : W → Q) :
  (∀ w, (clock w <= (time_time w).1)%Q ∧
        ((time_time w).1 <= clock (time_time w).2)%Q) →
  (∀ query w, (clock w <= clock (query_documents query w).2)%Q) →
  ∃ results w',
    analyze_performance_loop queries w = (inr results, w') ∧
    Forall (λ r, ∃ t, r !! "response_time" = Some (VFloat t) ∧ (0 <= t)%Q) results.
Proof.
  intros Hr Hc. do 2 eexists. split; [apply analyze_performance_loop_run|].
  apply run_steps_Forall. intros query w0.
  by apply (timed_step_nonnegative clock).
Qed.

(** X13: An answer that is not a dict is not a success: [result.get] raises
    [AttributeError] inside the [try], and both methods record the query as
    failed with that error's text. *)
Theorem answer_that_is_no_dict_is_a_failure queries w (i : nat) query (v : value) :
  queries !! i = Some query →
  (∀ d, v ≠ VDict d) →
  let e := AttributeError ("'" +:+ type_name v +:+ "' object has no attribute 'get'") in
  ((batch_call queries i query w).1 = inr v →
   ∃ results w',
     batch_queries queries w = (inr results, w') ∧
     results !! i = Some (batch_failure query e)) ∧
  ((timed_call queries i query w).1 = inr v →
   ∃ results w' t,
     analyze_performance_loop queries w = (inr results, w') ∧
     results !! i = Some (timed_failure query e t)).
Proof.
  intros Hi Hv e. split; intros Hcall.
  - do 2 eexists. split; [apply batch_queries_run|].
    rewrite (batch_results_lookup _ _ queries w i query Hi). f_equal.
    unfold batch_call in Hcall. unfold batch_step; simpl.
    destruct (query_documents query _) as [res w1]; simpl in *. subst res.
    unfold batch_record; simpl.
    destruct v; try reflexivity. by destruct (Hv d).
  - unfold timed_call in Hcall.
    assert (∃ t, (timed_step query (timed_world time_time query_documents
                                      queries i w)).1 = timed_failure query e t)
      as [t Ht].
    { unfold timed_step.
      destruct (time_time (timed_world _ _ queries i w)) as [query_start w1];
        simpl in *.
      destruct (query_documents query w1) as [res w2]; simpl in *. subst res.
      destruct (time_time w2) as [t w3]; simpl.
      destruct v as [| | | | | |d]; [| | | | | |by destruct (Hv d)]; simpl;
        destruct (time_time w3) as [t' w4]; by eexists. }
    do 2 eexists. exists t. split; [apply analyze_performance_loop_run|].
    by rewrite (timed_results_lookup _ _ queries w i query Hi), Ht.
Qed.

(** X14: When every call returns a dict, every query counts as successful: a
    returned summary has as many successful queries as queries and a
    success rate of [1]. *)
Theorem all_answers_are_dicts queries w (s : pydict) w' :
  (∀ i query, queries !! i = Some query →
     ∃ d : pydict, (timed_call queries i query (time_time w).2).1 = inr (VDict d)) →
  analyze_performance queries w = (inr s, w') →
  s !! "successful_queries" = Some (VInt (Z.of_nat (length queries))) ∧
  ∃ rate, s !! "success_rate" = Some (VFloat rate) ∧ (rate == 1)%Q.
Proof.
  intros Hdict (Hne & avg & _ & ->)%analyze_performance_inr.
  set (results := (run_steps timed_step queries (time_time w).2).1).
  assert (List.filter is_successful results = results) as Hall.
  { apply forallb_filter_id, forallb_forall. intros r Hr.
    apply list_elem_of_In, list_elem_of_lookup in Hr as [i Hi].
    apply timed_results_origin in Hi as (query & Hq & ->).
    destruct (Hdict i query Hq) as [d Hd]. unfold timed_call in Hd.
    by destruct (timed_step_dict time_time query_documents query _ d Hd)
      as [t ->]. }
  assert (length results = length queries) as Hlen by apply run_steps_length.
  unfold py_len. rewrite Hall, Hlen.
  split; [done|]. eexists. split; [done|].
  rewrite (round_float_comp _ 1%Q); [by rewrite round_float_1|].
  unfold Qdiv. apply Qmult_inv_r. intros H.
  unfold Qeq in H; simpl in H. destruct queries; [done|simpl in H; lia].
Qed.

Lemma steps_same_outcome (api : string → result value) (n i : nat) query w w0 :
  (∀ query w, (query_documents query w).1 = api query) →
  same_outcome (batch_step n (i, query) w).1 (timed_step query w0).1.
Proof.
  intros Hapi. unfold batch_step, timed_step; simpl.
  pose proof (Hapi query (print_progress i n query w)) as Hb.
  destruct (query_documents query (print_progress i n query w)) as [res w1].
  destruct (time_time w0) as [query_start w2].
  pose proof (Hapi query w2) as Ht.
  destruct (query_documents query w2) as [res' w3]. simpl in *. subst res res'.
  destruct (time_time w3) as [t w4].
  destruct (api query) as [e|v]; [by repeat split; try left|].
  unfold batch_record.
  destruct v as [| | | | | |d]; simpl;
    try (destruct (time_time w4); by repeat split; try left).
  repeat split; try done.
  destruct (d !! "ConfidenceScore"); [by left | by right].
Qed.

(** X15: For a client whose answer depends on the query alone, [batch_queries]
    and the loop of [analyze_performance] tell the same outcome for every
    query, position by position. *)
Theorem batch_and_timed_outcomes_agree (api : string → result value) queries w w0 :
  (∀ query w, (query_documents query w).1 = api query) →
  ∃ batch_results w' timed_results w0',
    batch_queries queries w = (inr batch_results, w') ∧
    analyze_performance_loop queries w0 = (inr timed_results, w0') ∧
    Forall2 same_outcome batch_results timed_results.
Proof.
  intros Hapi. do 4 eexists.
  split; [apply batch_queries_run|]. split; [apply analyze_performance_loop_run|].
  generalize (length queries) as n. generalize 1 as start. intros start n.
  revert start w w0. induction queries as [|query queries IH]; intros start w w0.
  - constructor.
  - simpl. pose proof (steps_same_outcome api n start query w w0 Hapi) as Hstep.
    destruct (batch_step n (start, query) w) as [rb w1].
    destruct (timed_step query w0) as [rt w2].
    specialize (IH (S start) w1 w2).
    destruct (run_steps (batch_step n) (enumerate (S start) queries) w1).
    destruct (run_steps timed_step queries w2).
    by constructor.
Qed.

End MoreFacts.

(** * Uploading and querying *)

Section ProcessFacts.

Context {W : Type}.
Variable print : string → list value → W → W.
Variable time_sleep : Z → W → W.
Variable os_path_basename : string → string.
Variable upload_document : string → W → result value * W.
Variable query_documents : string → W → result value * W.

(** In this section every line is printed: [print] is the change of the
    world that a print makes. *)
Local Abbreviation process_document_and_query :=
  (process_document_and_query (printing print) time_sleep os_path_basename
     upload_document query_documents).

Implicit Types (file_path query : string) (w : W).

Local Abbreviation before_upload := (before_upload print os_path_basename).
Local Abbreviation before_query := (before_query print time_sleep).

(** X16: When the upload raises, [process_document_and_query] raises the same
    error at once: nothing is printed after it, no time is slept and no
    query is made. *)
Theorem process_stops_when_the_upload_fails file_path query w e w1 :
  upload_document file_path (before_upload file_path w) = (inl e, w1) →
  process_document_and_query file_path query w = (inl e, w1).
Proof.
  intros Hup. unfold process_document_and_query, before_upload in *.
  unfold bind, printing, effect; simpl. by rewrite Hup.
Qed.

(** X17: When the answer to the upload has no [['document']['id']], the lookup
    raises ([KeyError] for a missing key, [TypeError] for an answer or a
    document that is no dict) and [process_document_and_query] stops there:
    the document was uploaded, but no query is made. *)
Theorem process_stops_without_document_id file_path query w upload_result e w1 :
  upload_document file_path (before_upload file_path w) = (inr upload_result, w1) →
  rbind (py_subscript upload_result "document") (λ document,
    py_subscript document "id") = inl e →
  process_document_and_query file_path query w = (inl e, w1) ∧
  (exn_class e = "KeyError" ∨ exn_class e = "TypeError").
Proof.
  intros Hup Hid. split.
  - unfold process_document_and_query, before_upload in *.
    unfold bind, printing, effect, lift; simpl. rewrite Hup.
    destruct (py_subscript upload_result "document") as [e'|document];
      simpl in *; [by injection Hid as ->|].
    by rewrite Hid.
  - destruct upload_result as [| | | | | |d]; simpl in Hid;
      try (injection Hid as <-; by right).
    unfold py_getitem in Hid.
    destruct (d !! "document") as [document|]; simpl in Hid;
      [|injection Hid as <-; by left].
    destruct document as [| | | | | |d']; simpl in Hid;
      try (injection Hid as <-; by right).
    unfold py_getitem in Hid.
    destruct (d' !! "id"); [done|]. injection Hid as <-. by left.
Qed.

(** X18: When [process_document_and_query] returns, the upload and the query
    were both made, in this order, and the result holds the answer to the
    upload, the answer to the query, which is a dict, and under
    ['document_id'] the [['document']['id']] of the answer to the upload. *)
Theorem process_result file_path query w (r : pydict) w' :
  process_document_and_query file_path query w = (inr r, w') →
  ∃ upload_result w1 document document_id (d : pydict) w2,
    upload_document file_path (before_upload file_path w) = (inr upload_result, w1) ∧
    py_subscript upload_result "document" = inr document ∧
    py_subscript document "id" = inr document_id ∧
    query_documents query (before_query query document_id w1) = (inr (VDict d), w2) ∧
    r = processed upload_result (VDict d) document_id ∧
    w' = print "✅ Decision: {}" [default (VStr "Unknown") (d !! "Decision")] w2.
Proof.
  unfold process_document_and_query, before_upload, before_query.
  unfold bind, printing, effect, lift, ret; simpl.
  destruct (upload_document file_path _) as [[e|upload_result] w1] eqn:Hup;
    [done|].
  destruct (py_subscript upload_result "document") as [e|document] eqn:Hdoc;
    [done|].
  destruct (py_subscript document "id") as [e|document_id] eqn:Hid; [done|].
  destruct (query_documents query _) as [[e|query_result] w2] eqn:Hq; [done|].
  destruct query_result as [| | | | | |d]; try done. simpl.
  intros [= <- <-]. exists upload_result, w1, document, document_id, d, w2.
  repeat split; done.
Qed.

(** X19: When the answer to the query is not a dict, reading its decision raises
    [AttributeError]: both requests have been made and have succeeded, yet
    [process_document_and_query] raises and gives no result. *)
Theorem process_fails_on_an_answer_that_is_no_dict file_path query w
    upload_result w1 document document_id (v : value) w2 :
  upload_document file_path (before_upload file_path w) = (inr upload_result, w1) →
  py_subscript upload_result "document" = inr document →
  py_subscript document "id" = inr document_id →
  query_documents query (before_query query document_id w1) = (inr v, w2) →
  (∀ d, v ≠ VDict d) →
  process_document_and_query file_path query w
  = (inl (AttributeError ("'" +:+ type_name v +:+ "' object has no attribute 'get'")),
     w2).
Proof.
  intros Hup Hdoc Hid Hq Hv.
  unfold process_document_and_query, before_upload, before_query in *.
  unfold bind, printing, effect, lift, ret; simpl. rewrite Hup, Hdoc, Hid, Hq.
  destruct v; try reflexivity. by destruct (Hv d).
Qed.

End ProcessFacts.

(** * The driver *)

Section MainFacts.

Context {W : Type}.
Variable print : string → list value → W → W.
Variable str_prefix : nat → string → string.
Variable str_strip : string → string.
Variable input : string → W → result string * W.

(** The driver when every line is printed. *)
Local Abbreviation main_config := (main_config (printing print) str_strip input).
Local Abbreviation report_result := (report_result (printing print) str_prefix).

Implicit Types (w : W) (env : gmap string string).

(** X20: [main] asks for a token exactly when the environment gives none or an
    empty one: it then prints the warning and works with the line typed by
    the user, stripped, without checking that anything is left of it; an
    error of the prompt is raised.  With a token in the environment nothing
    is printed or asked.  The base URL and the timeout are the defaults in
    both cases. *)
Theorem main_config_token env w :
  match env !! "NEURODOC_JWT_TOKEN" with
  | Some (String a s) => main_config env w = (inr (NeuroDocConfig_default env), w)
  | _ =>
      main_config env w
      = let asked :=
          input "Enter JWT token: "
            (print "⚠️  Warning: No JWT token provided. Set NEURODOC_JWT_TOKEN environment variable." [] w) in
        (match asked.1 with
         | inl e => inl e
         | inr token =>
             inr {| base_url := base_url (NeuroDocConfig_default env);
                    jwt_token := str_strip token;
                    timeout := 30 |}
         end, asked.2)
  end.
Proof.
  unfold main_config, NeuroDocConfig_default, os_getenv, printing.
  destruct (env !! "NEURODOC_JWT_TOKEN") as [[|a s]|]; simpl; try reflexivity;
    unfold bind, effect, ret; simpl;
    by destruct (input _ _) as [[e|token] w1].
Qed.

(** Reporting a record of [batch_queries]: a failure is always printed; a
    success is printed when its confidence is a number and raises
    otherwise, as [{...:.2f}] cannot format it. *)
Lemma report_batch_success (query : string) (decision confidence : value) w :
  report_result (batch_success query decision confidence) tt w
  = match py_format_2f confidence with
    | inl e => (inl e, print "   Query: {}..." [VStr (str_prefix 40 query)] w)
    | inr formatted =>
        (inr tt,
         print "   Decision: {} (Confidence: {:.2f})" [decision; formatted]
           (print "   Query: {}..." [VStr (str_prefix 40 query)] w))
    end.
Proof.
  unfold report_result, printing, bind, lift, effect.
  change (py_getitem (batch_success query decision confidence) "success")
    with (inr (VBool true) : result value).
  change (py_getitem (batch_success query decision confidence) "query")
    with (inr (VStr query) : result value).
  change (py_getitem (batch_success query decision confidence) "decision")
    with (inr decision : result value).
  change (py_getitem (batch_success query decision confidence) "confidence")
    with (inr confidence : result value).
  simpl. by destruct (py_format_2f confidence).
Qed.

Lemma report_batch_failure (query : string) (e : exn) w :
  report_result (batch_failure query e) tt w
  = (inr tt, print "   Query failed: {}" [VStr (str_exn e)] w).
Proof.
  unfold report_result, printing, bind, lift, effect.
  change (py_getitem (batch_failure query e) "success")
    with (inr (VBool false) : result value).
  change (py_getitem (batch_failure query e) "error")
    with (inr (VStr (str_exn e)) : result value).
  reflexivity.
Qed.

Lemma py_format_2f_error (v : value) (e : exn) :
  py_format_2f v = inl e →
  exn_class e = "TypeError" ∨ exn_class e = "ValueError" ∨
  exn_class e = "OverflowError".
Proof.
  destruct v as [| |n| | | |]; simpl; try (intros [= <-]; auto); try discriminate.
  destruct (Z.abs n <? float_overflow)%Z; intros [= <-]; auto.
Qed.

Lemma report_raises (results : list pydict) (i : nat) (query : string)
    (decision : value) w :
  Forall (λ r, (∃ q d c, r = batch_success q d c) ∨ (∃ q e, r = batch_failure q e))
    results →
  results !! i = Some (batch_success query decision VNone) →
  ∃ e w', for_each report_result results tt w = (inl e, w') ∧
          (exn_class e = "TypeError" ∨ exn_class e = "ValueError" ∨
           exn_class e = "OverflowError").
Proof.
  intros Hall. revert i w. induction Hall as [|r results Hr _ IH]; intros i w Hi;
    [done|].
  simpl. unfold bind.
  destruct i as [|i]; simpl in Hi.
  - injection Hi as ->. rewrite report_batch_success. simpl.
    do 2 eexists. split; [reflexivity|]. by left.
  - destruct Hr as [(q & d & c & ->)|(q & e & ->)].
    + rewrite report_batch_success.
      destruct (py_format_2f c) as [e|formatted] eqn:Hc.
      * do 2 eexists. split; [reflexivity|]. by eapply py_format_2f_error.
      * by apply IH with i.
    + rewrite report_batch_failure. by apply IH with i.
Qed.

(** X23: When some call of [batch_queries] returns a dict whose confidence is
    missing or null, the record it appends has the confidence [None], and
    the loop of [main] that prints the results raises instead of printing
    them all: [TypeError] at that record, unless an earlier record already
    failed to format ([ValueError] for a str, [OverflowError] for an int
    too large for a float). *)
Theorem report_fails_on_a_missing_confidence
    (query_documents : string → W → result value * W)
    (print_progress : nat → nat → string → W → W)
    (queries : list string) w (i : nat) (query : string) (d : pydict) :
  queries !! i = Some query →
  (batch_call query_documents print_progress queries i query w).1 = inr (VDict d) →
  default VNone (d !! "ConfidenceScore") = VNone →
  ∃ results w1 e w2,
    batch_queries query_documents (printed print_progress) queries w
      = (inr results, w1) ∧
    results !! i = Some (batch_success query (default VNone (d !! "Decision")) VNone) ∧
    for_each report_result results tt w1 = (inl e, w2) ∧
    (exn_class e = "TypeError" ∨ exn_class e = "ValueError" ∨
     exn_class e = "OverflowError").
Proof.
  intros Hi Hcall Hnone.
  rewrite batch_queries_run.
  set (results := (run_steps _ _ w).1). set (w1 := (run_steps _ _ w).2).
  assert (results !! i
          = Some (batch_success query (default VNone (d !! "Decision")) VNone))
    as Hr.
  { unfold results. rewrite (batch_results_lookup _ _ queries w i query Hi).
    f_equal. unfold batch_call in Hcall.
    rewrite (batch_step_dict _ _ (length queries) (S i, query) _ d Hcall).
    by rewrite Hnone. }
  assert (Forall (λ r, (∃ q d c, r = batch_success q d c) ∨
                       (∃ q e, r = batch_failure q e)) results) as Hall.
  { apply run_steps_Forall. intros iq w0.
    destruct (batch_step_cases query_documents print_progress (length queries) iq w0)
      as [(dc & c & ->)|(e & ->)]; [left|right]; by repeat eexists. }
  destruct (report_raises results i query _ w1 Hall Hr) as (e & w2 & Hrep & He).
  by exists results, w1, e, w2.
Qed.

End MainFacts.

(** * [main] when a print can raise *)

Section MainRuns.

Context {W : Type}.
Variable print : string → list value → @M W unit.
Variable str_prefix : nat → string → string.
Variable str_strip : string → string.
Variable input : string → W → result string * W.
Variable session_request : request → W → result value * W.
Variable is_request_exception : exn → bool.
Variable print_failure : exn → W → W.
Variable datetime_now_isoformat : Z → W → string * W.
Variable default_headers : pydict.

(** [main] on recording worlds: only the session makes requests. *)
Local Abbreviation recorded_print := (λ text values, silent (print text values)).
Local Abbreviation recorded_input := (λ prompt, silent (input prompt)).
Local Abbreviation recorded_main :=
  (main recorded_print str_prefix str_strip recorded_input
     (recording session_request) is_request_exception
     (λ e, silently (print_failure e))
     (λ n, silent (datetime_now_isoformat n)) default_headers).
Local Abbreviation recorded_main_body :=
  (main_body recorded_print str_prefix
     (recording session_request) is_request_exception
     (λ e, silently (print_failure e))
     (λ n, silent (datetime_now_isoformat n))).
Local Abbreviation recorded_report_result := (report_result recorded_print str_prefix).
Local Abbreviation recorded_main_config :=
  (main_config recorded_print str_strip recorded_input).

Local Abbreviation main :=
  (main print str_prefix str_strip input session_request is_request_exception
     print_failure datetime_now_isoformat default_headers).
Local Abbreviation main_config := (main_config print str_strip input).
Local Abbreviation health_check :=
  (Client.health_check session_request is_request_exception print_failure).

Implicit Types (w : W) (log : list request) (env : gmap string string).

(** X21: A health check that fails ends the demo and is reported.  When the
    first line of the [try] has been printed and [health_check] raises [e],
    or returns an answer whose ['status'] cannot be read, which raises [e],
    [main] makes no other call: it prints the line [Demo failed] with the
    message of [e], and ends as this print does, normally when the line is
    printed and with the error of the print otherwise. *)
Theorem main_reports_a_failed_health_check env w (cfg : NeuroDocConfig) w0 w1
    (e : exn) w2 :
  main_config env w = (inr cfg, w0) →
  print "🔍 Checking API health..." [] w0 = (inr tt, w1) →
  health_check (Client.init default_headers cfg) true w1 = (inl e, w2) ∨
  (∃ health,
     health_check (Client.init default_headers cfg) true w1 = (inr health, w2) ∧
     py_subscript health "status" = inl e) →
  main env w = print (nl +:+ "❌ Demo failed: {}") [VStr (str_exn e)] w2.
Proof.
  intros Hcfg Hprint Hhealth.
  unfold main, bind at 1. rewrite Hcfg.
  unfold try_except, main_body, bind at 1. rewrite Hprint.
  unfold bind at 1.
  destruct Hhealth as [Hhealth|(health & Hhealth & Hstatus)]; rewrite Hhealth;
    [reflexivity|].
  unfold bind at 1, lift. by rewrite Hstatus.
Qed.

Lemma report_result_quiet (r : pydict) (u : unit) w log :
  (recorded_report_result r u (w, log)).2.2 = log.
Proof.
  unfold report_result, bind, lift; simpl.
  destruct (py_getitem r "success") as [e|success]; simpl; [done|].
  destruct (truthy success); simpl.
  - destruct (py_getitem r "query") as [e|query]; simpl; [done|].
    destruct (py_slice_to str_prefix 40 query) as [e|shown]; simpl; [done|].
    rewrite silent_pair.
    destruct (print "   Query: {}..." [shown] w) as [[e|[]] w1]; simpl; [done|].
    destruct (py_getitem r "decision") as [e|decision]; simpl; [done|].
    destruct (py_getitem r "confidence") as [e|confidence]; simpl; [done|].
    destruct (py_format_2f confidence) as [e|formatted]; simpl; [done|].
    by rewrite silent_pair.
  - destruct (py_getitem r "error") as [e|error]; simpl; [done|].
    by rewrite silent_pair.
Qed.

Lemma report_quiet (results : list pydict) (u : unit) w log :
  (for_each recorded_report_result results u (w, log)).2.2 = log.
Proof.
  revert u w log. induction results as [|r results IH]; intros u w log; simpl;
    [done|].
  unfold bind. pose proof (report_result_quiet r u w log) as Hr.
  destruct (recorded_report_result r u (w, log)) as [[e|u'] [w1 log1]];
    simpl in *; subst log1; [done|].
  apply IH.
Qed.

(** A line that is printed, on a recording world. *)
Lemma bind_print {B} (Hprint : ∀ text values w, (print text values w).1 = inr tt)
    (text : string) (values : list value) (k : unit → M B) w log :
  bind (silent (print text values)) k (w, log)
  = k tt ((print text values w).2, log).
Proof.
  unfold bind. rewrite silent_pair, Hprint. reflexivity.
Qed.

Lemma bind_lift {A B} (r : result A) (k : A → M B) (wl : W * list request) :
  bind (lift r) k wl = match r with inl e => (inl e, wl) | inr a => k a wl end.
Proof. by destruct r. Qed.

Lemma bind_request {B} (self : NeuroDocClient) (method endpoint : string)
    (kwargs : pydict) (k : value → M B) w log :
  bind (Client._request (recording session_request) is_request_exception
          (λ e, silently (print_failure e)) self method endpoint kwargs) k (w, log)
  = let r := Client._request session_request is_request_exception print_failure
               self method endpoint kwargs w in
    let sent := log ++ [request_of self method endpoint kwargs] in
    match r.1 with
    | inl e => (inl e, (r.2, sent))
    | inr a => k a (r.2, sent)
    end.
Proof.
  unfold bind at 1. rewrite request_recorded. simpl.
  by destruct (Client._request _ _ _ _ _ _ _ w).1.
Qed.

Lemma bind_assoc {A B C} (m : M A) (f : A → M B) (g : B → M C)
    (wl : W * list request) :
  bind (bind m f) g wl = bind m (λ x, bind (f x) g) wl.
Proof. unfold bind. by destruct (m wl) as [[e|a] wl']. Qed.

Lemma bind_isoformat {B} (n : Z) (k : value → M B) w log :
  bind (λ wl, let (s, wl') := silent (datetime_now_isoformat n) wl in
              (inr (VStr s), wl')) k (w, log)
  = k (VStr (datetime_now_isoformat n w).1) ((datetime_now_isoformat n w).2, log).
Proof.
  unfold bind, silent; simpl. by destruct (datetime_now_isoformat n w).
Qed.

Lemma bind_batch_queries {B}
    (Hprint : ∀ text values w, (print text values w).1 = inr tt)
    (self : NeuroDocClient) (queries : list string)
    (k : list pydict → M B) w log :
  ∃ results w',
    bind (batch_queries
            (λ query, Client.query_documents (recording session_request)
                        is_request_exception (λ e, silently (print_failure e))
                        self query VNone)
            (print_progress_line recorded_print str_prefix) queries) k (w, log)
    = k results (w', log ++ (query_request self <$> queries)).
Proof.
  change (print_progress_line recorded_print str_prefix)
    with (λ i n query, silent (print_progress_line print str_prefix i n query)).
  assert (∀ i n query w0,
            (print_progress_line print str_prefix i n query w0).1 = inr tt)
    as Hprogress by (intros; apply Hprint).
  unfold bind. rewrite batch_queries_recorded by exact Hprogress.
  unfold batch_queries at 1 2.
  rewrite for_each_batch_printed by exact Hprogress.
  destruct (batch_queries_outcomes
              (λ query, Client.query_documents session_request is_request_exception
                          print_failure self query VNone)
              (λ i n query w0, (print_progress_line print str_prefix i n query w0).2)
              queries w) as (results & w' & Hrun & _).
  unfold batch_queries in Hrun. rewrite Hrun. cbn [fst snd]. by do 2 eexists.
Qed.

Lemma bind_report {B} (results : list pydict) (k : unit → M B) w log :
  (∃ e w', bind (for_each recorded_report_result results tt) k (w, log)
           = (inl e, (w', log))) ∨
  (∃ w', bind (for_each recorded_report_result results tt) k (w, log)
         = k tt (w', log)).
Proof.
  unfold bind. pose proof (report_quiet results tt w log) as Hq.
  destruct (for_each recorded_report_result results tt (w, log))
    as [[e|[]] [w' log']]; simpl in Hq; subst log'.
  - left. by do 2 eexists.
  - right. by eexists.
Qed.

Lemma main_body_requests (self : NeuroDocClient) w log :
  (∀ text values w, (print text values w).1 = inr tt) →
  ∃ sent, (recorded_main_body self (w, log)).2.2 = log ++ sent ∧
          main_requests self sent.
Proof.
  intros Hprint. unfold main_body, main_requests. cbv beta zeta.
  rewrite (bind_print Hprint). unfold Client.health_check. rewrite bind_request. cbv zeta.
  match goal with |- context [Client._request ?a ?b ?c ?d ?e ?f ?g ?h] =>
    destruct (Client._request a b c d e f g h) as [[e0|health] w1] end;
    cbn [fst snd]; [eexists; split; [reflexivity|by left]|].
  rewrite bind_lift.
  destruct (py_subscript health "status") as [e0|status];
    cbn [fst snd]; [eexists; split; [reflexivity|by left]|].
  rewrite !(bind_print Hprint). unfold Client.list_documents. cbn [truthy].
  rewrite bind_request. cbv zeta.
  match goal with |- context [Client._request ?a ?b ?c ?d ?e ?f ?g ?h] =>
    destruct (Client._request a b c d e f g h) as [[e0|docs] w2] end;
    cbn [fst snd]; rewrite <- app_assoc;
    [eexists; split; [reflexivity|right; by left]|].
  rewrite bind_lift.
  destruct (py_get docs "documents" (VList [])) as [e0|documents];
    cbn [fst snd]; [eexists; split; [reflexivity|right; by left]|].
  rewrite bind_lift.
  destruct (py_len_of documents) as [e0|found];
    cbn [fst snd]; [eexists; split; [reflexivity|right; by left]|].
  rewrite !(bind_print Hprint).
  match goal with
  | |- context [bind (batch_queries ?qd ?pp ?qs) ?k (?w0, ?l0)] =>
      destruct (bind_batch_queries Hprint self qs k w0 l0)
        as (results & w3 & ->)
  end.
  match goal with
  | |- context [bind (for_each ?r ?rs tt) ?k (?w0, ?l0)] =>
      destruct (bind_report rs k w0 l0) as [(e0 & w4 & ->)|(w4 & ->)]
  end.
  { rewrite <- app_assoc. eexists. split; [reflexivity|]. right; right; by left. }
  rewrite (bind_print Hprint). unfold Client.get_audit_statistics. cbn [truthy].
  rewrite bind_assoc, bind_isoformat. cbv beta.
  rewrite bind_assoc, bind_isoformat. cbv beta.
  rewrite bind_request. cbv zeta.
  match goal with |- context [Client._request ?a ?b ?c ?d ?e ?f ?g ?h] =>
    destruct (Client._request a b c d e f g h) as [[e0|stats] w5] end;
    cbn [fst snd]; rewrite <- !app_assoc.
  { eexists. split; [reflexivity|]. right; right; right. by do 2 eexists. }
  assert (∀ (start_date end_date : string)
            (r : result unit * (W * list request)),
            r.2.2 = log ++ [health_request self] ++ [documents_request self]
                      ++ (query_request self <$> take 3 sample_queries)
                      ++ [statistics_request self start_date end_date] →
            ∃ sent, r.2.2 = log ++ sent ∧ main_requests self sent) as Hend.
  { intros start_date end_date r ->. eexists. split; [reflexivity|].
    right; right; right. by do 2 eexists. }
  rewrite bind_lift.
  destruct (py_subscript stats "statistics") as [e0|statistics];
    [by eapply Hend|].
  rewrite bind_lift.
  destruct (py_subscript statistics "totalQueries") as [e0|total_queries];
    [by eapply Hend|].
  rewrite (bind_print Hprint), bind_lift. cbv beta iota. rewrite bind_lift.
  destruct (py_subscript statistics "averageConfidence")
    as [e0|average_confidence]; [by eapply Hend|].
  rewrite (bind_print Hprint). eapply Hend.
  rewrite silent_pair. reflexivity.
Qed.

Lemma main_config_quiet env w log :
  recorded_main_config env (w, log)
  = ((main_config env w).1, ((main_config env w).2, log)).
Proof.
  unfold main_config. destruct (negb _); [|done].
  unfold bind, ret. rewrite silent_pair.
  destruct (print _ _ w) as [[e|[]] w0]; cbn [fst snd]; [done|].
  rewrite silent_pair. by destruct (input _ w0) as [[e|token] w1].
Qed.

(** X22: When no print raises, whatever the API answers, the requests [main]
    makes are the health check alone, or the health check and the list of
    documents (five at most, from the first), or these and the first three
    sample queries, or all of these and the audit statistics, always in
    this order and each made once, by a client that carries the configured
    token.  The last two sample queries are never sent, and nothing is sent
    when the prompt for the token fails. *)
Theorem main_sends_a_fixed_sequence env w log :
  (∀ text values w, (print text values w).1 = inr tt) →
  match (main_config env w).1 with
  | inl _ => (recorded_main env (w, log)).2.2 = log
  | inr cfg =>
      ∃ sent, (recorded_main env (w, log)).2.2 = log ++ sent ∧
              main_requests (Client.init default_headers cfg) sent
  end.
Proof.
  intros Hprint. unfold main, bind. rewrite main_config_quiet.
  destruct (main_config env w) as [[e|cfg] w1]; cbn [fst snd]; [done|].
  unfold try_except.
  destruct (main_body_requests (Client.init default_headers cfg) w1 log Hprint)
    as (sent & Hsent & Hreq).
  destruct (recorded_main_body (Client.init default_headers cfg) (w1, log))
    as [[e|[]] [w2 log2]]; simpl in *; subst log2; exists sent;
    (split; [|done]); [|done].
  by rewrite silent_pair.
Qed.

End MainRuns.

(** * Concrete runs of the other methods *)

Lemma upload_document_missing_file_witness :
  Stub.os_path_exists "missing.pdf" 0%Q = false ∧
  Stub.upload_document "missing.pdf" 0%Q
  = (inl (FileNotFoundError "File not found: missing.pdf"), 0%Q).
Proof.
  assert (Stub.os_path_exists "missing.pdf" 0%Q = false) as H
    by (vm_compute; reflexivity).
  split; [exact H|].
  exact (upload_document_missing_file Stub.os_path_exists Stub.os_path_basename
           Stub.requests_post Stub.self "missing.pdf" 0%Q H).
Defined.

Lemma summary_counts_witness :
  ∃ s w',
    Demo.analyze_performance ["A"; "zzz"; "list"] 0%Q = (inr s, w') ∧
    ∃ results w2 (rate : Q),
      analyze_performance_loop Demo.time_time Demo.query_documents
        ["A"; "zzz"; "list"] (Demo.time_time 0%Q).2 = (inr results, w2) ∧
      let successes := length (List.filter is_successful results) in
      let failures := length (List.filter (λ r, negb (is_successful r)) results) in
      s !! "total_queries" = Some (VInt (Z.of_nat (length ["A"; "zzz"; "list"]))) ∧
      s !! "successful_queries" = Some (VInt (Z.of_nat successes)) ∧
      successes + failures = length ["A"; "zzz"; "list"] ∧
      s !! "success_rate" = Some (VFloat rate) ∧
      rate = round_float (inject_Z (Z.of_nat successes)
                          / inject_Z (Z.of_nat (length ["A"; "zzz"; "list"]))) ∧
      (0 <= rate)%Q ∧ (rate <= 1)%Q.
Proof.
  destruct (returned_inr (Demo.analyze_performance ["A"; "zzz"; "list"] 0%Q))
    as (s & w' & Hrun); [vm_compute; reflexivity|].
  exists s, w'. split; [exact Hrun|].
  exact (summary_counts Demo.time_time Demo.query_documents
           ["A"; "zzz"; "list"] 0%Q s w' Hrun).
Defined.

Lemma response_times_are_not_negative_witness :
  ∃ results w',
    analyze_performance_loop Demo.time_time Demo.query_documents
      ["A"; "zzz"; "list"] 0%Q = (inr results, w') ∧
    Forall (λ r, ∃ t, r !! "response_time" = Some (VFloat t) ∧ (0 <= t)%Q) results.
Proof.
  exact (response_times_are_not_negative Demo.time_time Demo.query_documents
           ["A"; "zzz"; "list"] 0%Q (λ w, w) demo_reading demo_calling).
Defined.

Lemma answer_that_is_no_dict_is_a_failure_witness :
  let queries := ["A"; "list"] in
  let e := AttributeError "'list' object has no attribute 'get'" in
  (batch_call Demo.query_documents Demo.print_progress queries 1 "list" 0%Q).1
    = inr (VList []) ∧
  (timed_call Demo.time_time Demo.query_documents queries 1 "list" 0%Q).1
    = inr (VList []) ∧
  (∃ results w',
      batch_queries Demo.query_documents (printed Demo.print_progress) queries
        0%Q = (inr results, w') ∧
      results !! 1 = Some (batch_failure "list" e)) ∧
  (∃ results w' t,
      analyze_performance_loop Demo.time_time Demo.query_documents queries 0%Q
        = (inr results, w') ∧
      results !! 1 = Some (timed_failure "list" e t)).
Proof.
  intros queries e.
  assert ((batch_call Demo.query_documents Demo.print_progress queries 1 "list"
             0%Q).1 = inr (VList [])) as Hb by (vm_compute; reflexivity).
  assert ((timed_call Demo.time_time Demo.query_documents queries 1 "list"
             0%Q).1 = inr (VList [])) as Ht by (vm_compute; reflexivity).
  destruct (answer_that_is_no_dict_is_a_failure Demo.time_time
              Demo.query_documents Demo.print_progress queries 0%Q 1 "list"
              (VList []) eq_refl) as [Hbatch Htimed]; [discriminate|].
  split; [exact Hb|]. split; [exact Ht|].
  split; [exact (Hbatch Hb) | exact (Htimed Ht)].
Defined.

Lemma all_answers_are_dicts_witness :
  ∃ s w',
    Demo.analyze_performance ["A"; "B"] 0%Q = (inr s, w') ∧
    s !! "successful_queries" = Some (VInt (Z.of_nat (length ["A"; "B"]))) ∧
    ∃ rate, s !! "success_rate" = Some (VFloat rate) ∧ (rate == 1)%Q.
Proof.
  destruct (returned_inr (Demo.analyze_performance ["A"; "B"] 0%Q))
    as (s & w' & Hrun); [vm_compute; reflexivity|].
  exists s, w'. split; [exact Hrun|].
  apply (all_answers_are_dicts Demo.time_time Demo.query_documents
           ["A"; "B"] 0%Q s w'); [|exact Hrun].
  intros [|[|i]] query Hq; [| |discriminate Hq]; injection Hq as <-.
  - exists {[ "Decision" := VStr "approved";
              "ConfidenceScore" := Demo.float (5 # 10) ]}.
    vm_compute; reflexivity.
  - exists {[ "Decision" := VStr "rejected";
              "ConfidenceScore" := Demo.float (9 # 10) ]}.
    vm_compute; reflexivity.
Defined.

Lemma batch_and_timed_outcomes_agree_witness :
  (∀ query w, (Demo.query_documents query w).1 = Demo.api query) ∧
  ∃ batch_results w' timed_results w0',
    batch_queries Demo.query_documents (printed Demo.print_progress)
      ["A"; "bare"; "list"; "zzz"] 0%Q = (inr batch_results, w') ∧
    analyze_performance_loop Demo.time_time Demo.query_documents
      ["A"; "bare"; "list"; "zzz"] 0%Q = (inr timed_results, w0') ∧
    Forall2 same_outcome batch_results timed_results.
Proof.
  assert (∀ query w, (Demo.query_documents query w).1 = Demo.api query) as Hapi
    by (intros; reflexivity).
  split; [exact Hapi|].
  exact (batch_and_timed_outcomes_agree Demo.time_time Demo.query_documents
           Demo.print_progress Demo.api ["A"; "bare"; "list"; "zzz"] 0%Q 0%Q Hapi).
Defined.

Lemma process_stops_when_the_upload_fails_witness :
  let e := FileNotFoundError "File not found: missing.pdf" in
  Stub.upload_document "missing.pdf"
    (before_upload Stub.print Stub.os_path_basename "missing.pdf" 0%Q)
    = (inl e, 0%Q) ∧
  Stub.process_document_and_query "missing.pdf" "A" 0%Q = (inl e, 0%Q).
Proof.
  intros e.
  assert (Stub.upload_document "missing.pdf"
            (before_upload Stub.print Stub.os_path_basename "missing.pdf" 0%Q)
          = (inl e, 0%Q)) as Hup by (vm_compute; reflexivity).
  split; [exact Hup|].
  exact (process_stops_when_the_upload_fails Stub.print Stub.time_sleep
           Stub.os_path_basename Stub.upload_document Demo.query_documents
           "missing.pdf" "A" 0%Q e 0%Q Hup).
Defined.

Lemma process_stops_without_document_id_witness :
  let upload_result := VDict {[ "status" := VStr "ok" ]} in
  let e := KeyError "'document'" in
  Stub.upload_document "notes.txt"
    (before_upload Stub.print Stub.os_path_basename "notes.txt" 0%Q)
    = (inr upload_result, 1%Q) ∧
  rbind (py_subscript upload_result "document") (λ document,
    py_subscript document "id") = inl e ∧
  Stub.process_document_and_query "notes.txt" "A" 0%Q = (inl e, 1%Q) ∧
  (exn_class e = "KeyError" ∨ exn_class e = "TypeError").
Proof.
  intros upload_result e.
  assert (Stub.upload_document "notes.txt"
            (before_upload Stub.print Stub.os_path_basename "notes.txt" 0%Q)
          = (inr upload_result, 1%Q)) as Hup by (vm_compute; reflexivity).
  assert (rbind (py_subscript upload_result "document") (λ document,
            py_subscript document "id") = inl e) as Hid
    by (vm_compute; reflexivity).
  split; [exact Hup|]. split; [exact Hid|].
  exact (process_stops_without_document_id Stub.print Stub.time_sleep
           Stub.os_path_basename Stub.upload_document Demo.query_documents
           "notes.txt" "A" 0%Q upload_result e 1%Q Hup Hid).
Defined.

Lemma process_result_witness :
  ∃ r w',
    Stub.process_document_and_query "policy.pdf" "A" 0%Q = (inr r, w') ∧
    ∃ upload_result w1 document document_id (d : pydict) w2,
      Stub.upload_document "policy.pdf"
        (before_upload Stub.print Stub.os_path_basename "policy.pdf" 0%Q)
        = (inr upload_result, w1) ∧
      py_subscript upload_result "document" = inr document ∧
      py_subscript document "id" = inr document_id ∧
      Demo.query_documents "A"
        (before_query Stub.print Stub.time_sleep "A" document_id w1)
        = (inr (VDict d), w2) ∧
      r = processed upload_result (VDict d) document_id ∧
      w' = Stub.print "✅ Decision: {}"
             [default (VStr "Unknown") (d !! "Decision")] w2.
Proof.
  destruct (returned_inr (Stub.process_document_and_query "policy.pdf" "A" 0%Q))
    as (r & w' & Hrun); [vm_compute; reflexivity|].
  exists r, w'. split; [exact Hrun|].
  exact (process_result Stub.print Stub.time_sleep Stub.os_path_basename
           Stub.upload_document Demo.query_documents "policy.pdf" "A" 0%Q r w'
           Hrun).
Defined.

Lemma process_fails_on_an_answer_that_is_no_dict_witness :
  let document := VDict {[ "id" := VStr "doc-1" ]} in
  let upload_result := VDict {[ "document" := document ]} in
  Stub.upload_document "policy.pdf"
    (before_upload Stub.print Stub.os_path_basename "policy.pdf" 0%Q)
    = (inr upload_result, 1%Q) ∧
  Demo.query_documents "list"
    (before_query Stub.print Stub.time_sleep "list" (VStr "doc-1") 1%Q)
    = (inr (VList []), 4%Q) ∧
  Stub.process_document_and_query "policy.pdf" "list" 0%Q
  = (inl (AttributeError "'list' object has no attribute 'get'"), 4%Q).
Proof.
  intros document upload_result.
  assert (Stub.upload_document "policy.pdf"
            (before_upload Stub.print Stub.os_path_basename "policy.pdf" 0%Q)
          = (inr upload_result, 1%Q)) as Hup by (vm_compute; reflexivity).
  assert (Demo.query_documents "list"
            (before_query Stub.print Stub.time_sleep "list" (VStr "doc-1") 1%Q)
          = (inr (VList []), 4%Q)) as Hq by (vm_compute; reflexivity).
  split; [exact Hup|]. split; [exact Hq|].
  apply (process_fails_on_an_answer_that_is_no_dict Stub.print Stub.time_sleep
           Stub.os_path_basename Stub.upload_document Demo.query_documents
           "policy.pdf" "list" 0%Q upload_result 1%Q document (VStr "doc-1")
           (VList []) 4%Q Hup);
    [vm_compute; reflexivity | vm_compute; reflexivity | exact Hq | discriminate].
Defined.

Lemma report_fails_on_a_missing_confidence_witness :
  let queries := ["A"; "bare"] in
  let d : pydict := {[ "Decision" := VStr "approved" ]} in
  (batch_call Demo.query_documents Demo.print_progress queries 1 "bare" 0%Q).1
    = inr (VDict d) ∧
  default VNone (d !! "ConfidenceScore") = VNone ∧
  ∃ results w1 e w2,
    batch_queries Demo.query_documents (printed Demo.print_progress) queries 0%Q
      = (inr results, w1) ∧
    results !! 1
      = Some (batch_success "bare" (default VNone (d !! "Decision")) VNone) ∧
    for_each (report_result (printing Stub.print) Stub.str_prefix) results tt w1
      = (inl e, w2) ∧
    (exn_class e = "TypeError" ∨ exn_class e = "ValueError" ∨
     exn_class e = "OverflowError").
Proof.
  intros queries d.
  assert ((batch_call Demo.query_documents Demo.print_progress queries 1 "bare"
             0%Q).1 = inr (VDict d)) as Hcall by (vm_compute; reflexivity).
  assert (default VNone (d !! "ConfidenceScore") = VNone) as Hnone
    by (vm_compute; reflexivity).
  split; [exact Hcall|]. split; [exact Hnone|].
  exact (report_fails_on_a_missing_confidence Stub.print Stub.str_prefix
           Demo.query_documents Demo.print_progress queries 0%Q 1 "bare" d
           eq_refl Hcall Hnone).
Defined.

Lemma batch_queries_requests_witness :
  let queries := ["A"; "zzz"; "B"] in
  let print_progress := printed Demo.print_progress in
  let query_documents :=
    λ query, Client.query_documents Stub.session_down Stub.is_request_exception
               Stub.print_failure Stub.self query VNone in
  let run := batch_queries query_documents print_progress queries 0%Q in
  (∀ i n query w, (print_progress i n query w).1 = inr tt) ∧
  batch_queries
    (λ query, Client.query_documents (recording Stub.session_down)
                Stub.is_request_exception (λ e, silently (Stub.print_failure e))
                Stub.self query VNone)
    (λ i n query, silent (print_progress i n query)) queries (0%Q, [])
  = (run.1, (run.2, [] ++ (query_request Stub.self <$> queries))).
Proof.
  intros queries print_progress query_documents run.
  assert (∀ i n query w, (print_progress i n query w).1 = inr tt) as Hprint
    by (intros; reflexivity).
  split; [exact Hprint|].
  exact (proj2 (batch_queries_requests Stub.session_down
                  Stub.is_request_exception Stub.print_failure print_progress
                  Stub.self queries 0%Q []) Hprint).
Defined.

Lemma main_reports_a_failed_health_check_witness :
  let e := Exn "ConnectionError" "connection refused" in
  main_config (printing Stub.print) Stub.str_strip Stub.input Stub.env 0%Q
    = (inr (config Stub.self), 0%Q) ∧
  printing Stub.print "🔍 Checking API health..." [] 0%Q = (inr tt, 0%Q) ∧
  Client.health_check Stub.session_down Stub.is_request_exception
    Stub.print_failure (Client.init ∅ (config Stub.self)) true 0%Q
    = (inl e, 1%Q) ∧
  Stub.main_down Stub.env 0%Q
    = printing Stub.print (nl +:+ "❌ Demo failed: {}") [VStr (str_exn e)] 1%Q.
Proof.
  intros e.
  assert (main_config (printing Stub.print) Stub.str_strip Stub.input Stub.env 0%Q
          = (inr (config Stub.self), 0%Q)) as Hcfg by (vm_compute; reflexivity).
  assert (printing Stub.print "🔍 Checking API health..." [] 0%Q = (inr tt, 0%Q))
    as Hprint by reflexivity.
  assert (Client.health_check Stub.session_down Stub.is_request_exception
            Stub.print_failure (Client.init ∅ (config Stub.self)) true 0%Q
          = (inl e, 1%Q)) as Hhealth by (vm_compute; reflexivity).
  split; [exact Hcfg|]. split; [exact Hprint|]. split; [exact Hhealth|].
  exact (main_reports_a_failed_health_check (printing Stub.print) Stub.str_prefix
           Stub.str_strip Stub.input Stub.session_down Stub.is_request_exception
           Stub.print_failure Stub.datetime_now_isoformat ∅ Stub.env 0%Q
           (config Stub.self) 0%Q 0%Q e 1%Q Hcfg Hprint (or_introl Hhealth)).
Defined.

(** With the API answering every request, [main] sends all six requests:
    the health check, the list of documents, three queries and the audit
    statistics, from thirty days ago to now. *)
Example main_demo_requests :
  (Stub.recorded_main Stub.env (0%Q, [])).2.2
  = [health_request Stub.self; documents_request Stub.self]
    ++ (query_request Stub.self <$> take 3 sample_queries)
    ++ [statistics_request Stub.self "2024-01-01T00:00:00" "2024-01-31T00:00:00"].
Proof. vm_compute. reflexivity. Qed.

Lemma main_sends_a_fixed_sequence_witness :
  (∀ text values (w : Q), (printing Stub.print text values w).1 = inr tt) ∧
  ∃ sent, (Stub.recorded_main Stub.env (0%Q, [])).2.2 = [] ++ sent ∧
          main_requests Stub.self sent.
Proof.
  assert (∀ text values (w : Q), (printing Stub.print text values w).1 = inr tt)
    as Hprint by (intros; reflexivity).
  split; [exact Hprint|].
  assert (main_config (printing Stub.print) Stub.str_strip Stub.input Stub.env 0%Q
          = (inr (config Stub.self), 0%Q)) as Hcfg by (vm_compute; reflexivity).
  pose proof (main_sends_a_fixed_sequence (printing Stub.print) Stub.str_prefix
                Stub.str_strip Stub.input Stub.session_request
                Stub.is_request_exception Stub.print_failure
                Stub.datetime_now_isoformat ∅ Stub.env 0%Q [] Hprint) as Hmain.
  rewrite Hcfg in Hmain. exact Hmain.
Defined.
